(** * OOpenCal-Viewer: the run-time plugin builder and the visualizer adapter

    A shallow embedding of [CppModuleBuilder.cpp] (toolchain discovery,
    compile-command synthesis, process execution with progress streaming,
    artifact verification), of [SceneWidgetVisualizerAdapter.h] (the
    adapter that hides a template visualizer behind the polymorphic
    interface) and of the grid that [Visualizer::drawWithVTK] builds,
    followed by the properties the specification states about them and by
    further properties of the same code.

    What lies outside the repository is taken as data of a [Host]: the process
    environment, the file system as [std::filesystem] reports it, the result of
    [system()], and what the process library delivers for a command.  What the
    build system fixes at compile time is a [BuildConfig].  Console logging
    ([std::cout], [std::cerr]) is diagnostic only and is left out. *)

From Stdlib Require Import ZArith List String Ascii Bool Lia DecimalString.
From Stdlib Require Import Floats.
Import ListNotations.
Local Open Scope Z_scope.
Local Open Scope string_scope.

(* ================================================================== *)
(** ** Strings as [std::string] uses them *)

Module Str.

(** The double-quote and newline characters of the C++ literals. *)
Definition dq : string := String (ascii_of_nat 34) EmptyString.
Definition nl : string := String (ascii_of_nat 10) EmptyString.

(** [s.empty()] *)
Definition empty (s : string) : bool :=
  match s with EmptyString => true | String _ _ => false end.

(** [s.find(needle) != std::string::npos] *)
Fixpoint contains (needle s : string) : bool :=
  prefix needle s ||
  match s with
  | EmptyString => false
  | String _ s' => contains needle s'
  end.

(** [s.find_last_of(c)], with [None] for [npos]. *)
Fixpoint find_last_of (c : ascii) (s : string) : option nat :=
  match s with
  | EmptyString => None
  | String a s' =>
      match find_last_of c s' with
      | Some i => Some (S i)
      | None => if Ascii.eqb a c then Some O else None
      end
  end.

(** [s.substr(0, pos)]: the count is clamped to the length, so [npos] keeps
    the whole string. *)
Definition substr0 (s : string) (pos : option nat) : string :=
  match pos with
  | Some n => substring 0 n s
  | None => s
  end.

(** [std::to_string(int)] *)
Definition to_string (z : Z) : string := NilEmpty.string_of_int (Z.to_int z).

(** One [operator<<] on the [std::ostringstream]. *)
Definition put (cmd piece : string) : string := cmd ++ piece.

(** A concatenation seen as a tree of pieces, and its text; [textOnto]
    flattens the tree to the right, which makes two concatenations of the
    same pieces comparable whatever their bracketing. *)
Inductive rope := Leaf (s : string) | Cat (a b : rope).

Fixpoint text (r : rope) : string :=
  match r with
  | Leaf s => s
  | Cat a b => text a ++ text b
  end.

Fixpoint textOnto (r : rope) (k : string) : string :=
  match r with
  | Leaf s => s ++ k
  | Cat a b => textOnto a (textOnto b k)
  end.

(** [s] is empty or starts with the character [c]. *)
Definition startsWith (c : ascii) (s : string) : Prop :=
  s = EmptyString \/ exists rest, s = String c rest.

End Str.

Notation "cmd << piece" := (Str.put cmd piece) (at level 61, left associativity).

(* ================================================================== *)
(** ** The world outside the builder *)

(** [std::filesystem::file_type] as [status(p)] reports it.  [ft_none] is the
    status of a path whose query failed with an error other than "not found":
    the throwing overloads ([exists(p)], [is_regular_file(p)]) raise
    [filesystem_error] on it. *)
Inductive file_type := ft_none | ft_not_found | ft_regular | ft_directory | ft_other.

Definition FileSystem := string -> file_type.

(** One [readdir] entry: [d_name] and whether [d_type == DT_DIR]. *)
Record dirent := { d_name : string; d_is_dir : bool }.

Inductive stream := Stdout | Stderr.

(** What the process library does with a command: the constructor or the wait
    throws a [std::exception], or the child runs, its output reaches the two
    callbacks piece by piece in some interleaving, and an exit status comes
    back, leaving the file system as [fs_after]. *)
Inductive ProcessRun :=
| LaunchThrew (what : string)
| Ran (output : list (stream * string)) (exit_status : Z) (fs_after : FileSystem).

Record Host := {
  getenv : string -> option string;          (* std::getenv, None for nullptr *)
  status0 : FileSystem;                      (* the file system before the compile *)
  absolute : string -> option string;        (* fs::absolute, None when it throws *)
  system : string -> Z;                      (* system(command) *)
  ifstream_good : string -> bool;            (* std::ifstream(path).good() *)
  opendir : string -> option (list dirent);  (* opendir + readdir, None for NULL *)
  spawn : string -> ProcessRun               (* TinyProcessLib::Process *)
}.

(** [CompilationResult] (declared in CppModuleBuilder.h). *)
Record CompilationResult := {
  success : bool;
  exitCode : Z;
  stdout : string;
  stderr : string;
  compileCommand : string;
  sourceFile : string;
  outputFile : string
}.

(** What the build fixes: [__cplusplus] of the host application, the optional
    [CLANG_TOOLCHAIN_PATH] definition, [OOPENCAL_DIR], [VTK_COMPILE_FLAGS], and
    the value-initialised [CompilationResult] of the header. *)
Record BuildConfig := {
  cplusplus : Z;
  CLANG_TOOLCHAIN_PATH : option string;
  OOPENCAL_DIR : string;
  VTK_COMPILE_FLAGS : string;
  resultDefaults : CompilationResult
}.

(** The members of [CppModuleBuilder].  [progressCallback] records whether a
    callback is installed; its invocations are [Progress] events.
    [lastResult] is the object the [unique_ptr] owns. *)
Record Builder := {
  compilerPath : string;
  oopencalDir : string;
  projectRootPath : string;
  progressCallback : bool;
  lastResult : CompilationResult
}.

(** What an observer of the builder sees it do. *)
Inductive event :=
| Progress (msg : string)      (* progressCallback(msg) *)
| Probe (command : string)     (* system(command) *)
| Launch (command : string).   (* a child process is started *)

(* ================================================================== *)
(** ** Compile-command synthesis *)

Section Synthesis.
Variable h : Host.
Variable cfg : BuildConfig.

(** [detectCppStandard] *)
Definition detectCppStandard (userStandard : string) : string :=
  if negb (Str.empty userStandard) then userStandard
  else if cplusplus cfg >=? 202302 then "c++23"
  else if cplusplus cfg >=? 202002 then "c++20"
  else if cplusplus cfg >=? 201703 then "c++17"
  else "c++14".

(** The test the builder repeats before every AppImage-specific block. *)
Definition fromAppImage (path : string) : bool :=
  Str.contains ".mount_" path || Str.contains "/tmp/" path.

(** [compilerPath.substr(0, compilerPath.find_last_of('/'))] *)
Definition basePathOf (path : string) : string :=
  Str.substr0 path (Str.find_last_of "/" path).

(** The two guarded [substr] steps that strip [/bin] and then [/usr]. *)
Definition mountPointOf (basePath : string) : string :=
  let mountPoint := basePath in
  let lastSlash := Str.find_last_of "/" mountPoint in
  let mountPoint :=
    match lastSlash with Some _ => Str.substr0 mountPoint lastSlash | None => mountPoint end in
  let lastSlash := Str.find_last_of "/" mountPoint in
  match lastSlash with Some _ => Str.substr0 mountPoint lastSlash | None => mountPoint end.

(** The [readdir] loop: the first entry that is a directory and whose name
    does not start with a dot. *)
Fixpoint firstClangVersion (entries : list dirent) : option string :=
  match entries with
  | [] => None
  | e :: rest =>
      if d_is_dir e && negb (prefix "." (d_name e)) then Some (d_name e)
      else firstClangVersion rest
  end.

(** [CppModuleBuilder::buildCompileCommand] *)
Definition buildCompileCommand (b : Builder)
    (sourceFile outputFile cppStandard : string) : string :=
  let standard := detectCppStandard cppStandard in
  let compilerPath := compilerPath b in
  let cmd := EmptyString in
  (* LD_LIBRARY_PATH for a clang that runs from an AppImage mount *)
  let cmd :=
    if fromAppImage compilerPath then
      let basePath := basePathOf compilerPath in
      let libPath := basePath ++ "/../lib/clang-libs:" ++ basePath ++ "/../lib" in
      cmd << "LD_LIBRARY_PATH=" ++ Str.dq << libPath << ":$LD_LIBRARY_PATH" ++ Str.dq ++ " "
    else cmd in
  let cmd := cmd << compilerPath << " -shared" << " -fPIC" << " -std=" << standard in
  (* no implicit system include paths *)
  let cmd :=
    if fromAppImage compilerPath then cmd << " -nostdinc" << " -nostdinc++" else cmd in
  (* system include paths bundled in the AppImage *)
  let cmd :=
    if fromAppImage compilerPath then
      let basePath := basePathOf compilerPath in
      let mountPoint := mountPointOf basePath in
      let appIncludePath := mountPoint ++ "/usr/include" in
      let clangIncludePath := mountPoint ++ "/usr/lib/clang/21/include" in
      let gccIncludePath14 := mountPoint ++ "/usr/lib/gcc/x86_64-linux-gnu/14/include" in
      let gccIncludeFixedPath14 :=
        mountPoint ++ "/usr/lib/gcc/x86_64-linux-gnu/14/include-fixed" in
      let gccIncludePath15 :=
        mountPoint ++ "/usr/lib64/gcc/x86_64-pc-linux-gnu/15.2.1/include" in
      let gccIncludeFixedPath15 :=
        mountPoint ++ "/usr/lib64/gcc/x86_64-pc-linux-gnu/15.2.1/include-fixed" in
      let cmd := cmd << " -isystem " ++ Str.dq << appIncludePath << Str.dq
                     << " -isystem " ++ Str.dq << appIncludePath << "/x86_64-linux-gnu" ++ Str.dq
                     << " -isystem " ++ Str.dq << appIncludePath << "/c++/v1" ++ Str.dq
                     << " -isystem " ++ Str.dq << appIncludePath << "/c++" ++ Str.dq
                     << " -isystem " ++ Str.dq << appIncludePath
                     << "/x86_64-unknown-linux-gnu/c++/v1" ++ Str.dq in
      let cmd := cmd << " -isystem " ++ Str.dq << clangIncludePath << Str.dq in
      cmd << " -isystem " ++ Str.dq << gccIncludePath14 << Str.dq
          << " -isystem " ++ Str.dq << gccIncludeFixedPath14 << Str.dq
          << " -isystem " ++ Str.dq << gccIncludePath15 << Str.dq
          << " -isystem " ++ Str.dq << gccIncludeFixedPath15 << Str.dq
    else cmd in
  (* OOpenCAL include path *)
  let cmd :=
    if negb (Str.empty (oopencalDir b)) then
      cmd << " -I" ++ Str.dq << oopencalDir b << "/OOpenCAL/base" ++ Str.dq
          << " -I" ++ Str.dq << oopencalDir b << Str.dq
    else cmd in
  (* project include paths *)
  let cmd :=
    if negb (Str.empty (projectRootPath b)) then
      cmd << " -I" ++ Str.dq << projectRootPath b << Str.dq
          << " -I" ++ Str.dq << projectRootPath b << "/visualiserProxy" ++ Str.dq
          << " -I" ++ Str.dq << projectRootPath b << "/config" ++ Str.dq
    else
      match getenv h "OOPENCAL_VIEWER_ROOT" with
      | Some viewerRootPath =>
          if negb (Str.empty viewerRootPath) then
            cmd << " -I" ++ Str.dq << viewerRootPath << Str.dq
                << " -I" ++ Str.dq << viewerRootPath << "/visualiserProxy" ++ Str.dq
                << " -I" ++ Str.dq << viewerRootPath << "/config" ++ Str.dq
                << " -I" ++ Str.dq << viewerRootPath << "/utilities" ++ Str.dq
                << " -I" ++ Str.dq << viewerRootPath << "/visualiser" ++ Str.dq
                << " -I" ++ Str.dq << viewerRootPath << "/widgets" ++ Str.dq
          else cmd
      | None => cmd
      end in
  (* VTK include path *)
  let cmd :=
    if fromAppImage compilerPath then
      let basePath := basePathOf compilerPath in
      let mountPoint := mountPointOf basePath in
      let vtkIncludePath := mountPoint ++ "/usr/include" in
      cmd << " -I" ++ Str.dq << vtkIncludePath << "/vtk-9.1" ++ Str.dq
    else cmd << " -I/usr/include/vtk-9.1" in
  (* clang intrinsics headers of the AppImage *)
  let cmd :=
    if fromAppImage compilerPath then
      let basePath := basePathOf compilerPath in
      let mountPoint := mountPointOf basePath in
      let clangIntrinsicsPath := mountPoint ++ "/usr/lib/clang/17/include" in
      let clangIntrinsicsPath :=
        if negb (ifstream_good h (clangIntrinsicsPath ++ "/stddef.h")) then
          let clangLibPath := mountPoint ++ "/usr/lib/clang" in
          match opendir h clangLibPath with
          | Some entries =>
              match firstClangVersion entries with
              | Some name => clangLibPath ++ "/" ++ name ++ "/include"
              | None => clangIntrinsicsPath
              end
          | None => clangIntrinsicsPath
          end
        else clangIntrinsicsPath in
      cmd << " -isystem " ++ Str.dq << clangIntrinsicsPath << Str.dq
    else cmd in
  (* project headers bundled in the AppImage *)
  let cmd :=
    if fromAppImage compilerPath then
      let binPath := basePathOf compilerPath in
      let mountPoint := mountPointOf binPath in
      let appIncludePath := mountPoint ++ "/usr/include" in
      cmd << " -I" ++ Str.dq << appIncludePath << Str.dq
          << " -I" ++ Str.dq << appIncludePath << "/visualiserProxy" ++ Str.dq
          << " -I" ++ Str.dq << appIncludePath << "/config" ++ Str.dq
          << " -I" ++ Str.dq << appIncludePath << "/utilities" ++ Str.dq
          << " -I" ++ Str.dq << appIncludePath << "/visualiser" ++ Str.dq
          << " -I" ++ Str.dq << appIncludePath << "/widgets" ++ Str.dq
    else cmd in
  let cmd := cmd << " " << VTK_COMPILE_FLAGS cfg in
  cmd << " " ++ Str.dq << sourceFile << Str.dq
      << " -o " ++ Str.dq << outputFile << Str.dq.

End Synthesis.

(* ================================================================== *)
(** ** Effects: exceptions, the builder's state, the event log *)

Inductive outcome (A : Type) :=
| Returned (a : A)
| Thrown (what : string).
Arguments Returned {A} a.
Arguments Thrown {A} what.

(** The machine state of one [compileModule] call: the builder object, the
    local [int lineCount] that the stdout lambda captures by reference, the
    file system, and what has been observed so far.  The counter is an
    unbounded integer here: an [int] overflows only after 2^31 non-empty
    pieces of output, where C++ leaves the behaviour undefined. *)
Record State := {
  self : Builder;
  lineCount : Z;
  fsys : FileSystem;
  log : list event
}.

Definition M (A : Type) : Type := State -> outcome A * State.

Definition ret {A} (a : A) : M A := fun s => (Returned a, s).

Definition bind {A B} (m : M A) (k : A -> M B) : M B :=
  fun s =>
    match m s with
    | (Returned a, s') => k a s'
    | (Thrown w, s') => (Thrown w, s')
    end.

Definition throw {A} (what : string) : M A := fun s => (Thrown what, s).

(** [try { body } catch (const std::exception& e) { handler }] *)
Definition try_catch {A} (body : M A) (handler : string -> M A) : M A :=
  fun s =>
    match body s with
    | (Returned a, s') => (Returned a, s')
    | (Thrown w, s') => handler w s'
    end.

Notation "x <- m ;; k" := (bind m (fun x => k))
  (at level 100, m at next level, right associativity).
Notation "m ;; k" := (bind m (fun _ => k))
  (at level 100, right associativity).

Definition get : M State := fun s => (Returned s, s).
Definition modify (f : State -> State) : M unit := fun s => (Returned tt, f s).

Definition emit (e : event) : M unit :=
  modify (fun s => {| self := self s; lineCount := lineCount s; fsys := fsys s;
                      log := (log s ++ [e])%list |}).

Definition modifyBuilder (f : Builder -> Builder) : M unit :=
  modify (fun s => {| self := f (self s); lineCount := lineCount s; fsys := fsys s;
                      log := log s |}).

Definition setLineCount (n : Z) : M unit :=
  modify (fun s => {| self := self s; lineCount := n; fsys := fsys s; log := log s |}).

Definition setFileSystem (fs : FileSystem) : M unit :=
  modify (fun s => {| self := self s; lineCount := lineCount s; fsys := fs; log := log s |}).

(** Field updates of [*lastResult] and of [compilerPath]. *)
Definition withResult (f : CompilationResult -> CompilationResult) (b : Builder) : Builder :=
  {| compilerPath := compilerPath b; oopencalDir := oopencalDir b;
     projectRootPath := projectRootPath b; progressCallback := progressCallback b;
     lastResult := f (lastResult b) |}.

Definition withCompilerPath (p : string) (b : Builder) : Builder :=
  {| compilerPath := p; oopencalDir := oopencalDir b;
     projectRootPath := projectRootPath b; progressCallback := progressCallback b;
     lastResult := lastResult b |}.

Definition set_success (v : bool) (r : CompilationResult) : CompilationResult :=
  {| success := v; exitCode := exitCode r; stdout := stdout r; stderr := stderr r;
     compileCommand := compileCommand r; sourceFile := sourceFile r;
     outputFile := outputFile r |}.
Definition set_exitCode (v : Z) (r : CompilationResult) : CompilationResult :=
  {| success := success r; exitCode := v; stdout := stdout r; stderr := stderr r;
     compileCommand := compileCommand r; sourceFile := sourceFile r;
     outputFile := outputFile r |}.
Definition set_stdout (v : string) (r : CompilationResult) : CompilationResult :=
  {| success := success r; exitCode := exitCode r; stdout := v; stderr := stderr r;
     compileCommand := compileCommand r; sourceFile := sourceFile r;
     outputFile := outputFile r |}.
Definition set_stderr (v : string) (r : CompilationResult) : CompilationResult :=
  {| success := success r; exitCode := exitCode r; stdout := stdout r; stderr := v;
     compileCommand := compileCommand r; sourceFile := sourceFile r;
     outputFile := outputFile r |}.
Definition set_compileCommand (v : string) (r : CompilationResult) : CompilationResult :=
  {| success := success r; exitCode := exitCode r; stdout := stdout r; stderr := stderr r;
     compileCommand := v; sourceFile := sourceFile r; outputFile := outputFile r |}.
Definition set_files (src out : string) (r : CompilationResult) : CompilationResult :=
  {| success := success r; exitCode := exitCode r; stdout := stdout r; stderr := stderr r;
     compileCommand := compileCommand r; sourceFile := src; outputFile := out |}.

Definition modifyResult (f : CompilationResult -> CompilationResult) : M unit :=
  modifyBuilder (withResult f).

(** [if (progressCallback) progressCallback(msg);] for a callback that
    returns. *)
Definition report (msg : string) : M unit :=
  s <- get ;;
  if progressCallback (self s) then emit (Progress msg) else ret tt.

(** [progressCallback(msg)] for any installed callback: the call is observed,
    and the callback returns or throws; [throws msg] is what it throws on
    [msg], [None] when it returns.  The callback is a [std::function] of the
    application; it is taken to touch the builder in no other way. *)
Definition invoke (throws : string -> option string) (msg : string) : M unit :=
  emit (Progress msg) ;;
  match throws msg with
  | Some what => throw what
  | None => ret tt
  end.

(** [if (progressCallback) progressCallback(msg);] for any callback. *)
Definition reportWith (throws : string -> option string) (msg : string) : M unit :=
  s <- get ;;
  if progressCallback (self s) then invoke throws msg else ret tt.

(** [fs::exists(p)] and [fs::is_regular_file(p)], the throwing overloads. *)
Definition fs_exists (p : string) : M bool :=
  s <- get ;;
  match fsys s p with
  | ft_none => throw "filesystem error: status"
  | ft_not_found => ret false
  | _ => ret true
  end.

Definition fs_is_regular_file (p : string) : M bool :=
  s <- get ;;
  match fsys s p with
  | ft_none => throw "filesystem error: status"
  | ft_regular => ret true
  | _ => ret false
  end.

(* ================================================================== *)
(** ** Toolchain discovery, process execution, orchestration *)

Section Orchestration.
Variable h : Host.
Variable cfg : BuildConfig.

(** The candidate [path + "/clang++"] of steps 1 and 2 of
    [getClangToolchainPath]: returned when [path] is not empty and the binary
    exists. *)
Definition clangUnder (path : string) : M (option string) :=
  if negb (Str.empty path) then
    let clangPath := path ++ "/clang++" in
    found <- fs_exists clangPath ;;
    if found then ret (Some clangPath) else ret None
  else ret None.

Definition appImagePaths : list string :=
  [ "../usr/bin/clang++"; "../../usr/bin/clang++";
    "/usr/local/bin/clang++"; "/opt/clang/bin/clang++" ].

Fixpoint firstExisting (paths : list string) : M string :=
  match paths with
  | [] => ret EmptyString
  | path :: rest =>
      found <- fs_exists path ;;
      if found then ret path else firstExisting rest
  end.

(** [getClangToolchainPath] *)
Definition getClangToolchainPath : M string :=
  (* 1. environment variable *)
  fromEnv <- match getenv h "CLANG_TOOLCHAIN_PATH" with
             | Some path => clangUnder path
             | None => ret None
             end ;;
  match fromEnv with
  | Some clangPath => ret clangPath
  | None =>
      (* 2. compile definition *)
      fromDef <- match CLANG_TOOLCHAIN_PATH cfg with
                 | Some path => clangUnder path
                 | None => ret None
                 end ;;
      match fromDef with
      | Some clangPath => ret clangPath
      | None =>
          (* 3. common AppImage paths, 4. empty *)
          firstExisting appImagePaths
      end
  end.

(** [isCompilerAvailable] *)
Definition isCompilerAvailable (compiler : string) : M bool :=
  try_catch
    (let command := compiler ++ " --version > /dev/null 2>&1" in
     emit (Probe command) ;;
     let exitCode := system h command in
     ret (exitCode =? 0)%Z)
    (fun _ => ret false).

Definition fallbacks : list string := [ "g++"; "clang++"; "c++" ].

Fixpoint firstAvailable (preferredCompiler : string) (candidates : list string) : M string :=
  match candidates with
  | [] => ret EmptyString
  | compiler :: rest =>
      ok <- (if negb (String.eqb compiler preferredCompiler)
             then isCompilerAvailable compiler else ret false) ;;
      if ok then ret compiler else firstAvailable preferredCompiler rest
  end.

(** [findAvailableCompiler] *)
Definition findAvailableCompiler (preferredCompiler : string) : M string :=
  ok <- isCompilerAvailable preferredCompiler ;;
  if ok then ret preferredCompiler
  else firstAvailable preferredCompiler fallbacks.

(** The constructor [CppModuleBuilder(compilerPath, oopencalDir)]. *)
Definition newBuilder (compiler oopencal : string) : Builder :=
  {| compilerPath := compiler;
     oopencalDir :=
       if Str.empty oopencal then
         match getenv h "OOPENCAL_DIR" with
         | Some envDir => envDir
         | None => OOPENCAL_DIR cfg
         end
       else oopencal;
     projectRootPath := EmptyString;
     progressCallback := false;
     lastResult := resultDefaults cfg |}.

(** [CppModuleBuilder::moduleExists] *)
Definition moduleExists (outputPath : string) : M bool :=
  e <- fs_exists outputPath ;;
  if e then fs_is_regular_file outputPath else ret false.

(** Delivery of the child's output to the two callbacks, in arrival order. *)
Fixpoint deliver (stdout_callback stderr_callback : option (string -> M unit))
    (output : list (stream * string)) : M unit :=
  match output with
  | [] => ret tt
  | (Stdout, bytes) :: rest =>
      match stdout_callback with Some f => f bytes | None => ret tt end ;;
      deliver stdout_callback stderr_callback rest
  | (Stderr, bytes) :: rest =>
      match stderr_callback with Some f => f bytes | None => ret tt end ;;
      deliver stdout_callback stderr_callback rest
  end.

(** [CppModuleBuilder::executeCommand] *)
Definition executeCommand (command : string)
    (stdout_callback stderr_callback : option (string -> M unit)) : M Z :=
  try_catch
    (emit (Launch command) ;;
     match spawn h command with
     | LaunchThrew what => throw what
     | Ran output exit_status fs_after =>
         deliver stdout_callback stderr_callback output ;;
         setFileSystem fs_after ;;
         ret exit_status
     end)
    (fun _ => ret (-1)).

(** The stdout lambda of [compileModule]. *)
Definition onStdout (line : string) : M unit :=
  modifyResult (fun r => set_stdout (stdout r ++ line ++ Str.nl) r) ;;
  s <- get ;;
  if progressCallback (self s) && negb (Str.empty line) then
    setLineCount (lineCount s + 1) ;;
    if (Z.rem (lineCount s + 1) 5 =? 0)%Z then
      emit (Progress ("Compiling... (" ++ Str.to_string (lineCount s + 1) ++ " lines)"))
    else ret tt
  else ret tt.

(** The stderr lambda of [compileModule]. *)
Definition onStderr (line : string) : M unit :=
  modifyResult (fun r => set_stderr (stderr r ++ line ++ Str.nl) r) ;;
  s <- get ;;
  if progressCallback (self s) && negb (Str.empty line) then
    emit (Progress ("Error: " ++ line))
  else ret tt.

Definition getResult : M CompilationResult :=
  s <- get ;; ret (lastResult (self s)).

(** The lambdas of [compileModule] for any callback.  An exception that
    leaves a lambda is raised inside the process library; the model hands it
    to the handler of [executeCommand], and no statement relies on what
    happens then. *)
Definition onStdoutWith (throws : string -> option string) (line : string) : M unit :=
  modifyResult (fun r => set_stdout (stdout r ++ line ++ Str.nl) r) ;;
  s <- get ;;
  if progressCallback (self s) && negb (Str.empty line) then
    setLineCount (lineCount s + 1) ;;
    if (Z.rem (lineCount s + 1) 5 =? 0)%Z then
      invoke throws ("Compiling... (" ++ Str.to_string (lineCount s + 1) ++ " lines)")
    else ret tt
  else ret tt.

Definition onStderrWith (throws : string -> option string) (line : string) : M unit :=
  modifyResult (fun r => set_stderr (stderr r ++ line ++ Str.nl) r) ;;
  s <- get ;;
  if progressCallback (self s) && negb (Str.empty line) then
    invoke throws ("Error: " ++ line)
  else ret tt.

(** [CppModuleBuilder::compileModule], with the guarded call of the progress
    callback as [say] and the two lambdas it hands to [executeCommand] as
    [stdoutLambda] and [stderrLambda]. *)
Definition compileModuleBy (say : string -> M unit)
    (stdoutLambda stderrLambda : string -> M unit)
    (sourceFile outputFile cppStandard : string) : M CompilationResult :=
  modifyResult (fun _ => set_files sourceFile outputFile (resultDefaults cfg)) ;;
  (* check if the source file exists *)
  srcExists <- fs_exists sourceFile ;;
  if negb srcExists then
    modifyResult (set_success false) ;;
    modifyResult (set_stderr ("Source file does not exist: " ++ sourceFile)) ;;
    getResult
  else
    say "Checking C++ compiler availability..." ;;
    (* try clang from the AppImage first *)
    clangFromAppImage <- getClangToolchainPath ;;
    availableCompiler <-
      (if negb (Str.empty clangFromAppImage) then
         (* used directly, without testing *)
         say ("Using clang from AppImage: " ++ clangFromAppImage) ;;
         try_catch
           (match absolute h clangFromAppImage with
            | Some absolutePath => ret absolutePath
            | None => throw "filesystem error: cannot make absolute path"
            end)
           (fun _ => ret clangFromAppImage)
       else
         s <- get ;;
         findAvailableCompiler (compilerPath (self s))) ;;
    if Str.empty availableCompiler then
      modifyResult (set_success false) ;;
      modifyResult
        (set_stderr "No C++ compiler found. Please install clang++, g++, or c++.") ;;
      s <- get ;;
      modifyResult (set_compileCommand (compilerPath (self s) ++ " (not found)")) ;;
      say "ERROR: No C++ compiler found" ;;
      getResult
    else
      modifyBuilder (withCompilerPath availableCompiler) ;;
      say "Preparing compilation command..." ;;
      s <- get ;;
      modifyResult
        (set_compileCommand
           (buildCompileCommand h cfg (self s) sourceFile outputFile cppStandard)) ;;
      say "Compilation of module ..." ;;
      (* execute the command with progress reporting *)
      setLineCount 0 ;;
      s <- get ;;
      code <- executeCommand (compileCommand (lastResult (self s)))
                (Some stdoutLambda) (Some stderrLambda) ;;
      modifyResult (set_exitCode code) ;;
      (* check if compilation succeeded *)
      produced <- (if (code =? 0)%Z then moduleExists outputFile else ret false) ;;
      if produced then
        modifyResult (set_success true) ;;
        getResult
      else
        modifyResult (set_success false) ;;
        getResult.

(** [compileModule] on a builder whose callback, if it has one, returns. *)
Definition compileModule : string -> string -> string -> M CompilationResult :=
  compileModuleBy report onStdout onStderr.

(** [compileModule] on a builder whose callback, if it has one, behaves as
    [throws] tells. *)
Definition compileModuleWith (throws : string -> option string)
    : string -> string -> string -> M CompilationResult :=
  compileModuleBy (reportWith throws) (onStdoutWith throws) (onStderrWith throws).

(** One call of [compileModule] on builder [b], observed from outside. *)
Definition run {A} (m : M A) (b : Builder) : outcome A * State :=
  m {| self := b; lineCount := 0; fsys := status0 h; log := [] |}.

End Orchestration.

(* ================================================================== *)
(** ** The parts of a synthesized command, named for the statements *)

Section CommandParts.
Variable h : Host.
Variable cfg : BuildConfig.

Definition isystemFlag (dir : string) : string := " -isystem " ++ Str.dq ++ dir ++ Str.dq.
Definition includeFlag (dir : string) : string := " -I" ++ Str.dq ++ dir ++ Str.dq.

Fixpoint flags (flag : string -> string) (dirs : list string) : string :=
  match dirs with
  | [] => EmptyString
  | d :: rest => flag d ++ flags flag rest
  end.

(** The environment assignment in front of the compiler executable. *)
Definition ldLibraryPrefix (compiler : string) : string :=
  "LD_LIBRARY_PATH=" ++ Str.dq
    ++ basePathOf compiler ++ "/../lib/clang-libs:" ++ basePathOf compiler ++ "/../lib"
    ++ ":$LD_LIBRARY_PATH" ++ Str.dq ++ " ".

Definition isolationFlags : string := " -nostdinc -nostdinc++".

(** The plain include path the builder gives a system compiler for VTK. *)
Definition systemVtkInclude : string := " -I/usr/include/vtk-9.1".

(** The mount point the builder derives from a compiler path. *)
Definition mountOf (compiler : string) : string := mountPointOf (basePathOf compiler).

(** The system-include directories of the bundled sysroot, in order. *)
Definition sysrootDirs (mount : string) : list string :=
  [ mount ++ "/usr/include";
    mount ++ "/usr/include/x86_64-linux-gnu";
    mount ++ "/usr/include/c++/v1";
    mount ++ "/usr/include/c++";
    mount ++ "/usr/include/x86_64-unknown-linux-gnu/c++/v1";
    mount ++ "/usr/lib/clang/21/include";
    mount ++ "/usr/lib/gcc/x86_64-linux-gnu/14/include";
    mount ++ "/usr/lib/gcc/x86_64-linux-gnu/14/include-fixed";
    mount ++ "/usr/lib64/gcc/x86_64-pc-linux-gnu/15.2.1/include";
    mount ++ "/usr/lib64/gcc/x86_64-pc-linux-gnu/15.2.1/include-fixed" ].

(** The intrinsics directory: version 17 when its [stddef.h] opens, else the
    first version directory found, else version 17 all the same. *)
Definition intrinsicsDir (mount : string) : string :=
  if ifstream_good h ((mount ++ "/usr/lib/clang/17/include") ++ "/stddef.h") then
    mount ++ "/usr/lib/clang/17/include"
  else
    match opendir h (mount ++ "/usr/lib/clang") with
    | Some entries =>
        match firstClangVersion entries with
        | Some name => mount ++ "/usr/lib/clang/" ++ name ++ "/include"
        | None => mount ++ "/usr/lib/clang/17/include"
        end
    | None => mount ++ "/usr/lib/clang/17/include"
    end.

(** The project headers bundled in the AppImage. *)
Definition bundledProjectDirs (mount : string) : list string :=
  [ mount ++ "/usr/include";
    mount ++ "/usr/include/visualiserProxy";
    mount ++ "/usr/include/config";
    mount ++ "/usr/include/utilities";
    mount ++ "/usr/include/visualiser";
    mount ++ "/usr/include/widgets" ].

(** The include flags that come from what the caller and the environment
    supply: the OOpenCAL directory and the viewer's project root. *)
Definition suppliedIncludes (b : Builder) : string :=
  (if Str.empty (oopencalDir b) then EmptyString
   else flags includeFlag [ oopencalDir b ++ "/OOpenCAL/base"; oopencalDir b ])
  ++
  (if negb (Str.empty (projectRootPath b)) then
     flags includeFlag
       [ projectRootPath b; projectRootPath b ++ "/visualiserProxy";
         projectRootPath b ++ "/config" ]
   else
     match getenv h "OOPENCAL_VIEWER_ROOT" with
     | Some root =>
         if Str.empty root then EmptyString
         else flags includeFlag
                [ root; root ++ "/visualiserProxy"; root ++ "/config";
                  root ++ "/utilities"; root ++ "/visualiser"; root ++ "/widgets" ]
     | None => EmptyString
     end).

(** The end of every command: the build's VTK flags, the source, the output. *)
Definition commandTail (sourceFile outputFile : string) : string :=
  " " ++ VTK_COMPILE_FLAGS cfg
    ++ " " ++ Str.dq ++ sourceFile ++ Str.dq ++ " -o " ++ Str.dq ++ outputFile ++ Str.dq.

(** The command for a compiler the builder takes for an AppImage clang. *)
Definition isolatedCommand (b : Builder) (sourceFile outputFile cppStandard : string) : string :=
  let mount := mountOf (compilerPath b) in
  ldLibraryPrefix (compilerPath b)
    ++ compilerPath b ++ " -shared -fPIC -std=" ++ detectCppStandard cfg cppStandard
    ++ isolationFlags
    ++ flags isystemFlag (sysrootDirs mount)
    ++ suppliedIncludes b
    ++ includeFlag (mount ++ "/usr/include/vtk-9.1")
    ++ isystemFlag (intrinsicsDir mount)
    ++ flags includeFlag (bundledProjectDirs mount)
    ++ commandTail sourceFile outputFile.

(** The command for any other compiler. *)
Definition plainCommand (b : Builder) (sourceFile outputFile cppStandard : string) : string :=
  compilerPath b ++ " -shared -fPIC -std=" ++ detectCppStandard cfg cppStandard
    ++ suppliedIncludes b
    ++ systemVtkInclude
    ++ commandTail sourceFile outputFile.

(** A piece of a command that does not hold the plain VTK include and is
    empty or starts with a blank. *)
Definition clean (piece : string) : Prop :=
  Str.contains systemVtkInclude piece = false /\ Str.startsWith " " piece.

(** The directories the builder itself passes for an AppImage compiler:
    system headers, VTK, intrinsics, bundled project headers. *)
Definition isolatedDirs (mount : string) : list string :=
  (sysrootDirs mount ++ [ (mount ++ "/usr/include/vtk-9.1")%string ]
     ++ [ intrinsicsDir mount ] ++ bundledProjectDirs mount)%list.

End CommandParts.

(* ================================================================== *)
(** ** Toolchain resolution and progress, named for the statements *)

Section ResolutionParts.
Variable h : Host.
Variable cfg : BuildConfig.

(** A path that [fs::exists] reports as existing. *)
Definition present (fs : FileSystem) (p : string) : bool :=
  match fs p with
  | ft_none | ft_not_found => false
  | _ => true
  end.

(** Where a bundled clang is looked for, in the order of
    [getClangToolchainPath]: under the directory of the environment variable,
    under the directory of the compile definition, then the fixed paths. *)
Definition clangCandidate (dir : option string) : list string :=
  match dir with
  | Some path => if Str.empty path then [] else [ path ++ "/clang++" ]
  | None => []
  end.

Definition bundledCandidates : list string :=
  (clangCandidate (getenv h "CLANG_TOOLCHAIN_PATH")
     ++ clangCandidate (CLANG_TOOLCHAIN_PATH cfg)
     ++ appImagePaths)%list.

(** The places at which the specification lets a bundled toolchain be
    supplied, written out, in the order it gives them: the compiler under
    the directory of the runtime indicator (the environment variable), the
    compiler under the directory of the build-time definition, and the four
    fixed locations of an AppImage.  An empty directory supplies nothing. *)
Definition bundledLocations : list string :=
  (match getenv h "CLANG_TOOLCHAIN_PATH" with
   | Some dir => if Str.empty dir then [] else [ (dir ++ "/clang++")%string ]
   | None => []
   end ++
   match CLANG_TOOLCHAIN_PATH cfg with
   | Some dir => if Str.empty dir then [] else [ (dir ++ "/clang++")%string ]
   | None => []
   end ++
   [ "../usr/bin/clang++"; "../../usr/bin/clang++";
     "/usr/local/bin/clang++"; "/opt/clang/bin/clang++" ])%list.

(** The first candidate that exists; the empty string when none does; an
    exception when a status query fails on the way. *)
Fixpoint firstExistingIn (fs : FileSystem) (paths : list string) : outcome string :=
  match paths with
  | [] => Returned EmptyString
  | p :: rest =>
      match fs p with
      | ft_none => Thrown "filesystem error: status"
      | ft_not_found => firstExistingIn fs rest
      | _ => Returned p
      end
  end.

(** The compiler path a bundled clang is used under: made absolute, or left
    as found when [fs::absolute] throws. *)
Definition resolved (clang : string) : string :=
  match absolute h clang with
  | Some absolutePath => absolutePath
  | None => clang
  end.

(** The version query of [isCompilerAvailable] and its verdict. *)
Definition probeCommand (compiler : string) : string :=
  compiler ++ " --version > /dev/null 2>&1".

Definition probeOk (compiler : string) : bool :=
  (system h (probeCommand compiler) =? 0)%Z.

(** The names [findAvailableCompiler] probes, in order, for a preferred
    compiler: the preferred one, then the fallbacks other than it, up to the
    first success. *)
Fixpoint probedAmong (preferredCompiler : string) (candidates : list string) : list string :=
  match candidates with
  | [] => []
  | c :: rest =>
      if String.eqb c preferredCompiler then probedAmong preferredCompiler rest
      else if probeOk c then [ c ]
      else c :: probedAmong preferredCompiler rest
  end.

Definition probed (preferredCompiler : string) : list string :=
  if probeOk preferredCompiler then [ preferredCompiler ]
  else preferredCompiler :: probedAmong preferredCompiler fallbacks.

(** The compiler the probing settles on: the first of the preferred one and
    the fallbacks whose probe exits with 0, the empty string when none does. *)
Definition selected (preferredCompiler : string) : string :=
  match find probeOk (preferredCompiler :: fallbacks) with
  | Some c => c
  | None => EmptyString
  end.

Definition isProbe (e : event) : bool :=
  match e with Probe _ => true | _ => false end.

Definition isLaunch (e : event) : bool :=
  match e with Launch _ => true | _ => false end.

(** The non-empty pieces of one stream, in arrival order. *)
Definition sameStream (a b : stream) : bool :=
  match a, b with
  | Stdout, Stdout | Stderr, Stderr => true
  | _, _ => false
  end.

Fixpoint nonEmptyLines (st : stream) (output : list (stream * string)) : list string :=
  match output with
  | [] => []
  | (st', line) :: rest =>
      if sameStream st st' && negb (Str.empty line)
      then line :: nonEmptyLines st rest
      else nonEmptyLines st rest
  end.

Definition batchMessage (count : Z) : string :=
  "Compiling... (" ++ Str.to_string count ++ " lines)".

Definition errorMessage (line : string) : string := "Error: " ++ line.

(** The progress messages the two lambdas send for an output, starting from
    line count [n], when a callback is installed. *)
Fixpoint emitted (n : Z) (output : list (stream * string)) : list string :=
  match output with
  | [] => []
  | (Stdout, line) :: rest =>
      if Str.empty line then emitted n rest
      else if (Z.rem (n + 1) 5 =? 0)%Z
           then batchMessage (n + 1) :: emitted (n + 1) rest
           else emitted (n + 1) rest
  | (Stderr, line) :: rest =>
      if Str.empty line then emitted n rest
      else errorMessage line :: emitted n rest
  end.

(** What the process library reports for a command. *)
Definition exitStatusOf (run : ProcessRun) : Z :=
  match run with
  | LaunchThrew _ => -1
  | Ran _ exit_status _ => exit_status
  end.

Definition outputOf (run : ProcessRun) : list (stream * string) :=
  match run with
  | LaunchThrew _ => []
  | Ran output _ _ => output
  end.

Definition fsAfter (run : ProcessRun) (before : FileSystem) : FileSystem :=
  match run with
  | LaunchThrew _ => before
  | Ran _ _ fs_after => fs_after
  end.

(** A step that only adds events to the log. *)
Definition grown (s : State) (evs : list event) (s' : State) : Prop :=
  self s' = self s /\ lineCount s' = lineCount s /\ fsys s' = fsys s /\
  log s' = (log s ++ evs)%list.

(** [if (progressCallback) progressCallback(msg);] as seen in the log. *)
Definition said (b : Builder) (msg : string) : list event :=
  if progressCallback b then [ Progress msg ] else [].

(** The compiler [compileModule] goes on with, given what
    [getClangToolchainPath] returned. *)
Definition chosenCompiler (b : Builder) (clang : string) : string :=
  if Str.empty clang then selected (compilerPath b) else resolved clang.

(** What is observed while the toolchain is resolved. *)
Definition resolutionLog (b : Builder) (clang : string) : list event :=
  (said b "Checking C++ compiler availability..." ++
   (if Str.empty clang
    then map Probe (map probeCommand (probed (compilerPath b)))
    else said b ("Using clang from AppImage: " ++ clang)))%list.

(** What is observed from command synthesis to the end of the call. *)
Definition launchLog (b : Builder) (command : string) : list event :=
  (said b "Preparing compilation command..." ++
   said b "Compilation of module ..." ++
   Launch command ::
   map Progress (if progressCallback b
                 then emitted 0 (outputOf (spawn h command)) else []))%list.

(** One call of [compileModule]: what it returns or throws, what it was seen
    doing, and the file system it leaves. *)
Definition compileOutcome (b : Builder) (src out std : string) : outcome CompilationResult :=
  fst (run h (compileModule h cfg src out std) b).

Definition compileLog (b : Builder) (src out std : string) : list event :=
  log (snd (run h (compileModule h cfg src out std) b)).

Definition compileFs (b : Builder) (src out std : string) : FileSystem :=
  fsys (snd (run h (compileModule h cfg src out std) b)).

(** The paths through [compileModule], by what decides them. *)
Inductive compiled (b : Builder) (src out std : string)
    : outcome CompilationResult -> State -> Prop :=
| SourceStatusFails w s' :
    status0 h src = ft_none ->
    log s' = [] ->
    compiled b src out std (Thrown w) s'
| SourceMissing s' :
    status0 h src = ft_not_found ->
    log s' = [] ->
    compilerPath (self s') = compilerPath b ->
    compiled b src out std
      (Returned (set_stderr ("Source file does not exist: " ++ src)
                   (set_success false (set_files src out (resultDefaults cfg))))) s'
| CandidateStatusFails w s' :
    present (status0 h) src = true ->
    firstExistingIn (status0 h) bundledCandidates = Thrown w ->
    log s' = said b "Checking C++ compiler availability..." ->
    compiled b src out std (Thrown w) s'
| NoCompiler clang r s' :
    present (status0 h) src = true ->
    firstExistingIn (status0 h) bundledCandidates = Returned clang ->
    Str.empty (chosenCompiler b clang) = true ->
    success r = false ->
    stderr r = "No C++ compiler found. Please install clang++, g++, or c++." ->
    compileCommand r = compilerPath b ++ " (not found)" ->
    log s' = (resolutionLog b clang ++ said b "ERROR: No C++ compiler found")%list ->
    compiled b src out std (Returned r) s'
| Launched clang o s' :
    present (status0 h) src = true ->
    firstExistingIn (status0 h) bundledCandidates = Returned clang ->
    Str.empty (chosenCompiler b clang) = false ->
    let command :=
      buildCompileCommand h cfg (withCompilerPath (chosenCompiler b clang) b) src out std in
    let pr := spawn h command in
    log s' = (resolutionLog b clang ++ launchLog b command)%list ->
    fsys s' = fsAfter pr (status0 h) ->
    compilerPath (self s') = chosenCompiler b clang ->
    match o with
    | Returned r =>
        exitCode r = exitStatusOf pr /\
        (success r = true <-> exitStatusOf pr = 0 /\ fsAfter pr (status0 h) out = ft_regular)
    | Thrown _ => exitStatusOf pr = 0 /\ fsAfter pr (status0 h) out = ft_none
    end ->
    compiled b src out std o s'.

(** The progress messages that follow the launch of the child process. *)
Fixpoint progressAfterLaunch (events : list event) : list string :=
  match events with
  | [] => []
  | Launch _ :: rest =>
      flat_map (fun e => match e with Progress m => [ m ] | _ => [] end) rest
  | _ :: rest => progressAfterLaunch rest
  end.

(** The counts at which a batch message is due when [n] lines have been
    counted and [k] more non-empty lines arrive. *)
Definition batchCounts (n : Z) (k : nat) : list Z :=
  filter (fun z => (Z.rem z 5 =? 0)%Z) (map (fun i => n + Z.of_nat i) (seq 1 k)).

End ResolutionParts.

(* ================================================================== *)
(** ** The visualizer adapter *)

(** Opaque handles of the rendering collaborator ([SettingParameter*],
    [Line*], [vtkSmartPointer<...>]). *)
Definition Handle := Z.

(** [ISceneWidgetVisualizer]: the operations every visualizer offers. *)
Class ISceneWidgetVisualizer (V : Type) := {
  initMatrix : Z -> Z -> V -> V;
  prepareStage : Z -> Z -> V -> V;
  clearStage : V -> V;
  readStepsOffsetsForAllNodesFromFiles : Z -> Z -> string -> V -> V;
  readStageStateFromFilesForStep : Handle -> Handle -> V -> V;
  drawWithVTK : Z -> Z -> Handle -> Handle -> V -> V;
  refreshWindowsVTK : Z -> Z -> Handle -> V -> V;
  getModelName : V -> string;
  availableSteps : V -> list Z
}.

(** [SceneWidgetVisualizerTemplate<Cell>] (declared in
    SceneWidgetVisualizerProxy.h), taken as given: an object with a matrix
    [p], a [modelReader] and a [visualiser].  Each operation below is the
    member call the adapter makes, acting on the whole object; the reader's
    and the visualiser's calls that take the matrix take the object's own. *)
Class SceneWidgetVisualizerTemplate (Impl : Type) := {
  impl_new : Impl;
  impl_initMatrix : Z -> Z -> Impl -> Impl;
  modelReader_prepareStage : Z -> Z -> Impl -> Impl;
  modelReader_clearStage : Impl -> Impl;
  modelReader_readStepsOffsetsForAllNodesFromFiles : Z -> Z -> string -> Impl -> Impl;
  modelReader_readStageStateFromFilesForStep : Handle -> Handle -> Impl -> Impl;
  visualiser_drawWithVTK : Z -> Z -> Handle -> Handle -> Impl -> Impl;
  visualiser_refreshWindowsVTK : Z -> Z -> Handle -> Impl -> Impl;
  modelReader_availableSteps : Impl -> list Z
}.

(** [SceneWidgetVisualizerAdapter<Cell>] *)
Record SceneWidgetVisualizerAdapter (Impl : Type) := {
  m_impl : Impl;
  m_modelName : string
}.
Arguments m_impl {Impl} _.
Arguments m_modelName {Impl} _.

Section Adapter.
Context {Impl : Type} `{SceneWidgetVisualizerTemplate Impl}.

(** The constructor: the name is stored, the implementation default-built. *)
Definition newAdapter (modelName : string) : SceneWidgetVisualizerAdapter Impl :=
  {| m_impl := impl_new; m_modelName := modelName |}.

(** A member call on [m_impl]; [m_modelName] is [const]. *)
Definition onImpl (f : Impl -> Impl) (a : SceneWidgetVisualizerAdapter Impl)
    : SceneWidgetVisualizerAdapter Impl :=
  {| m_impl := f (m_impl a); m_modelName := m_modelName a |}.

#[export] Instance adapterVisualizer : ISceneWidgetVisualizer (SceneWidgetVisualizerAdapter Impl) := {
  initMatrix dimX dimY := onImpl (impl_initMatrix dimX dimY);
  prepareStage nNodeX nNodeY := onImpl (modelReader_prepareStage nNodeX nNodeY);
  clearStage := onImpl modelReader_clearStage;
  readStepsOffsetsForAllNodesFromFiles nNodeX nNodeY filename :=
    onImpl (modelReader_readStepsOffsetsForAllNodesFromFiles nNodeX nNodeY filename);
  readStageStateFromFilesForStep sp lines :=
    onImpl (modelReader_readStageStateFromFilesForStep sp lines);
  drawWithVTK nRows nCols renderer gridActor :=
    onImpl (visualiser_drawWithVTK nRows nCols renderer gridActor);
  refreshWindowsVTK nRows nCols gridActor :=
    onImpl (visualiser_refreshWindowsVTK nRows nCols gridActor);
  getModelName a := m_modelName a;
  availableSteps a := modelReader_availableSteps (m_impl a)
}.

End Adapter.

(** A call through the interface, with its arguments. *)
Inductive request :=
| InitMatrix (dimX dimY : Z)
| PrepareStage (nNodeX nNodeY : Z)
| ClearStage
| ReadStepsOffsets (nNodeX nNodeY : Z) (filename : string)
| ReadStageState (sp lines : Handle)
| DrawWithVTK (nRows nCols : Z) (renderer gridActor : Handle)
| RefreshWindowsVTK (nRows nCols : Z) (gridActor : Handle).

(** The request made on any visualizer. *)
Definition perform {V : Type} `{ISceneWidgetVisualizer V} (r : request) : V -> V :=
  match r with
  | InitMatrix dimX dimY => initMatrix dimX dimY
  | PrepareStage nNodeX nNodeY => prepareStage nNodeX nNodeY
  | ClearStage => clearStage
  | ReadStepsOffsets nNodeX nNodeY filename =>
      readStepsOffsetsForAllNodesFromFiles nNodeX nNodeY filename
  | ReadStageState sp lines => readStageStateFromFilesForStep sp lines
  | DrawWithVTK nRows nCols renderer gridActor => drawWithVTK nRows nCols renderer gridActor
  | RefreshWindowsVTK nRows nCols gridActor => refreshWindowsVTK nRows nCols gridActor
  end.

(** The same request made directly on the template implementation. *)
Definition performDirect {Impl : Type} `{SceneWidgetVisualizerTemplate Impl}
    (r : request) : Impl -> Impl :=
  match r with
  | InitMatrix dimX dimY => impl_initMatrix dimX dimY
  | PrepareStage nNodeX nNodeY => modelReader_prepareStage nNodeX nNodeY
  | ClearStage => modelReader_clearStage
  | ReadStepsOffsets nNodeX nNodeY filename =>
      modelReader_readStepsOffsetsForAllNodesFromFiles nNodeX nNodeY filename
  | ReadStageState sp lines => modelReader_readStageStateFromFilesForStep sp lines
  | DrawWithVTK nRows nCols renderer gridActor =>
      visualiser_drawWithVTK nRows nCols renderer gridActor
  | RefreshWindowsVTK nRows nCols gridActor =>
      visualiser_refreshWindowsVTK nRows nCols gridActor
  end.

(** A template implementation that records every call it receives, with the
    arguments it was given. *)
#[export] Instance recordingTemplate : SceneWidgetVisualizerTemplate (list request) := {
  impl_new := [];
  impl_initMatrix dimX dimY calls := (calls ++ [InitMatrix dimX dimY])%list;
  modelReader_prepareStage nNodeX nNodeY calls := (calls ++ [PrepareStage nNodeX nNodeY])%list;
  modelReader_clearStage calls := (calls ++ [ClearStage])%list;
  modelReader_readStepsOffsetsForAllNodesFromFiles nNodeX nNodeY filename calls :=
    (calls ++ [ReadStepsOffsets nNodeX nNodeY filename])%list;
  modelReader_readStageStateFromFilesForStep sp lines calls :=
    (calls ++ [ReadStageState sp lines])%list;
  visualiser_drawWithVTK nRows nCols renderer gridActor calls :=
    (calls ++ [DrawWithVTK nRows nCols renderer gridActor])%list;
  visualiser_refreshWindowsVTK nRows nCols gridActor calls :=
    (calls ++ [RefreshWindowsVTK nRows nCols gridActor])%list;
  modelReader_availableSteps calls := []
}.

(* ================================================================== *)
(** ** The visualizer: the points, the scalars and the colour table of a grid

    [Visualizer::drawWithVTK], [buidColor] and [refreshWindowsVTK] as far as
    they compute indices and fill arrays.  The VTK objects are the data they
    hold: a [vtkDoubleArray] and a [vtkLookupTable] are lists whose entries
    are [None] until they are set, [vtkPoints] is the list of the points
    inserted.  Indices and coordinates are [int] values, taken as integers:
    every one of them lies between 0 and the number of cells.  The renderer,
    the mapper and the actor are left out. *)

Module Visualizer.

(** [toUnitColor] *)
Definition toUnitColor (channel : float) : float :=
  if PrimFloat.ltb 1 channel then PrimFloat.div channel 255 else channel.

(** A colour channel that arrives as an integer, as the [double] it is
    converted to. *)
Definition channel (z : Z) : float := PrimFloat.of_uint63 (Uint63.of_Z z).

(** The cells two nested loops over rows and columns have passed when they
    stand at [(r, c)]. *)
Definition passed (nCols r c r' c' : Z) : Prop :=
  0 <= r' /\ 0 <= c' < nCols /\ (r' < r \/ (r' = r /\ c' < c)).

(** A loop [for (int i = 0; i < n; ++i)] over the state its body changes. *)
Fixpoint forFrom {St : Type} (count : nat) (i : Z) (body : Z -> St -> St) (s : St) : St :=
  match count with
  | O => s
  | S k => forFrom k (i + 1) body (body i s)
  end.

Definition forLoop {St : Type} (n : Z) (body : Z -> St -> St) (s : St) : St :=
  forFrom (Z.to_nat n) 0 body s.

Fixpoint update {A : Type} (n : nat) (v : A) (l : list A) : option (list A) :=
  match l, n with
  | [], _ => None
  | _ :: rest, O => Some (v :: rest)
  | x :: rest, S k => option_map (cons x) (update k v rest)
  end.

Definition getAt {A : Type} (i : Z) (l : list A) : option A :=
  if (i <? 0)%Z then None else nth_error l (Z.to_nat i).

(** [vtkDoubleArray::SetValue]: no bounds check; a write outside the buffer
    is undefined, [None] here, and stays so. *)
Definition SetValue (valueIdx : Z) (value : Z) (array : option (list (option Z)))
    : option (list (option Z)) :=
  match array with
  | Some values => if (valueIdx <? 0)%Z then None else update (Z.to_nat valueIdx) (Some value) values
  | None => None
  end.

Definition Rgb : Type := float * float * float.

(** [vtkLookupTable::SetTableValue]: an index outside the table is reported
    and the table is left as it is. *)
Definition SetTableValue (indx : Z) (rgb : Rgb) (table : list (option Rgb))
    : list (option Rgb) :=
  if (indx <? 0)%Z then table
  else match update (Z.to_nat indx) (Some rgb) table with
       | Some table' => table'
       | None => table
       end.

Section Drawing.
Variable Color : Type.
Variables getRed getGreen getBlue : Color -> float.
(** [calculateCellColor(row, column, p, colorSubstateInfos)] for the matrix
    and the substates of the call. *)
Variable calculateCellColor : Z -> Z -> Color.

(** [Visualizer::buidColor] *)
Definition buidColor (lut : list (option Rgb)) (nCols nRows : Z) : list (option Rgb) :=
  forLoop nRows (fun r lut =>
    forLoop nCols (fun c lut =>
      let color := calculateCellColor r c in
      SetTableValue ((nRows - 1 - r) * nCols + c)
        (toUnitColor (getRed color), toUnitColor (getGreen color),
         toUnitColor (getBlue color)) lut) lut) lut.

(** What [drawWithVTK] hands to the mapper. *)
Record Grid := {
  pointValues : list (option Z);
  points : list (Z * Z * Z);
  lookupTable : list (option Rgb);
  dimensions : Z * Z * Z;
  scalarRange : Z * Z
}.

(** [Visualizer::drawWithVTK] *)
Definition drawWithVTK (nRows nCols : Z) : option Grid :=
  let numberOfPoints := nRows * nCols in
  let pointValues := Some (repeat None (Z.to_nat numberOfPoints)) in
  let pointValues :=
    forLoop nRows (fun row pointValues =>
      forLoop nCols (fun col pointValues =>
        let pointIndex := row * nCols + col in
        let colorIndex := (nRows - 1 - row) * nCols + col in
        SetValue pointIndex colorIndex pointValues) pointValues) pointValues in
  let lut := repeat None (Z.to_nat numberOfPoints) in
  let points :=
    forLoop nRows (fun row points =>
      forLoop nCols (fun col points =>
        (points ++ [ (col, nRows - 1 - row, 1) ])%list) points) [] in
  let lut := buidColor lut nCols nRows in
  match pointValues with
  | Some values =>
      Some {| pointValues := values; points := points; lookupTable := lut;
              dimensions := (nCols, nRows, 1);
              scalarRange := (0, numberOfPoints - 1) |}
  | None => None
  end.

(** [Visualizer::refreshWindowsVTK], on the table the actor's mapper holds
    ([None] when the [dynamic_cast] gives a null pointer). *)
Definition refreshWindowsVTK (nRows nCols : Z) (table : option (list (option Rgb)))
    : outcome (list (option Rgb)) :=
  match table with
  | Some lut => Returned (buidColor lut nCols nRows)
  | None => Thrown "Invalid dynamic cast!"
  end.

(** The table entry [buidColor] computes for a cell. *)
Definition unitColor (row col : Z) : Rgb :=
  (toUnitColor (getRed (calculateCellColor row col)),
   toUnitColor (getGreen (calculateCellColor row col)),
   toUnitColor (getBlue (calculateCellColor row col))).

End Drawing.

End Visualizer.

(* ================================================================== *)
(** ** The result of a call in closed form *)

Section OutcomeParts.
Variable h : Host.
Variable cfg : BuildConfig.

(** What the lambdas append to [lastResult->stdout] (or [stderr]) for an
    output: every piece of the stream, empty or not, followed by a newline. *)
Fixpoint captured (st : stream) (output : list (stream * string)) : string :=
  match output with
  | [] => EmptyString
  | (st', line) :: rest =>
      if sameStream st st' then line ++ Str.nl ++ captured st rest
      else captured st rest
  end.

(** The result object right after [std::make_unique] and the two file names. *)
Definition freshResult (src out : string) : CompilationResult :=
  set_files src out (resultDefaults cfg).

(** The result of a call that ran the child for [command]. *)
Definition ranResult (src out command : string) (ok : bool) : CompilationResult :=
  {| success := ok;
     exitCode := exitStatusOf (spawn h command);
     stdout := stdout (resultDefaults cfg) ++ captured Stdout (outputOf (spawn h command));
     stderr := stderr (resultDefaults cfg) ++ captured Stderr (outputOf (spawn h command));
     compileCommand := command;
     sourceFile := src;
     outputFile := out |}.

(** What [compileModule] returns or throws, read off the host and the three
    path members of the builder. *)
Definition expectedOutcome (b : Builder) (src out std : string)
    : outcome CompilationResult :=
  match status0 h src with
  | ft_none => Thrown "filesystem error: status"
  | ft_not_found =>
      Returned (set_stderr ("Source file does not exist: " ++ src)
                  (set_success false (freshResult src out)))
  | _ =>
      match firstExistingIn (status0 h) (bundledCandidates h cfg) with
      | Thrown w => Thrown w
      | Returned clang =>
          if Str.empty (chosenCompiler h b clang) then
            Returned
              (set_compileCommand (compilerPath b ++ " (not found)")
                 (set_stderr "No C++ compiler found. Please install clang++, g++, or c++."
                    (set_success false (freshResult src out))))
          else
            let command :=
              buildCompileCommand h cfg (withCompilerPath (chosenCompiler h b clang) b)
                src out std in
            if (exitStatusOf (spawn h command) =? 0)%Z then
              match fsAfter (spawn h command) (status0 h) out with
              | ft_none => Thrown "filesystem error: status"
              | ft_regular => Returned (ranResult src out command true)
              | _ => Returned (ranResult src out command false)
              end
            else Returned (ranResult src out command false)
      end
  end.

(** The events other than callback invocations. *)
Definition isProgress (e : event) : bool :=
  match e with Progress _ => true | _ => false end.

Definition actions (events : list event) : list event :=
  filter (fun e => negb (isProgress e)) events.

(** What a call does besides talking to the callback, read off the host and
    the compiler path of the builder. *)
Definition expectedActions (b : Builder) (src out std : string) : list event :=
  match status0 h src with
  | ft_none | ft_not_found => []
  | _ =>
      match firstExistingIn (status0 h) (bundledCandidates h cfg) with
      | Thrown _ => []
      | Returned clang =>
          ((if Str.empty clang
            then map Probe (map probeCommand (probed h (compilerPath b)))
            else []) ++
           (if Str.empty (chosenCompiler h b clang) then []
            else [ Launch (buildCompileCommand h cfg
                             (withCompilerPath (chosenCompiler h b clang) b)
                             src out std) ]))%list
      end
  end.

(** One call of [compileModule] on a builder whose callback behaves as
    [throws] tells: what it returns or throws, and what it was seen doing. *)
Definition compileOutcomeWith (throws : string -> option string)
    (b : Builder) (src out std : string) : outcome CompilationResult :=
  fst (run h (compileModuleWith h cfg throws src out std) b).

Definition compileLogWith (throws : string -> option string)
    (b : Builder) (src out std : string) : list event :=
  log (snd (run h (compileModuleWith h cfg throws src out std) b)).

Definition compileFsWith (throws : string -> option string)
    (b : Builder) (src out std : string) : FileSystem :=
  fsys (snd (run h (compileModuleWith h cfg throws src out std) b)).

(** The command a call launches, if it launches one. *)
Definition launchedCommand (b : Builder) (src out std : string) : option string :=
  match status0 h src with
  | ft_none | ft_not_found => None
  | _ =>
      match firstExistingIn (status0 h) (bundledCandidates h cfg) with
      | Thrown _ => None
      | Returned clang =>
          if Str.empty (chosenCompiler h b clang) then None
          else Some (buildCompileCommand h cfg
                       (withCompilerPath (chosenCompiler h b clang) b) src out std)
      end
  end.

(** The builder after a call. *)
Definition builderAfter (b : Builder) (src out std : string) : Builder :=
  self (snd (run h (compileModule h cfg src out std) b)).

End OutcomeParts.

(* ================================================================== *)
(** ** Concrete hosts and builders for the examples *)

Module Example.

Definition noResult : CompilationResult :=
  {| success := false; exitCode := -1; stdout := EmptyString; stderr := EmptyString;
     compileCommand := EmptyString; sourceFile := EmptyString; outputFile := EmptyString |}.

Definition config : BuildConfig :=
  {| cplusplus := 202002; CLANG_TOOLCHAIN_PATH := None; OOPENCAL_DIR := "/opt/OOpenCAL";
     VTK_COMPILE_FLAGS := "-DNDEBUG"; resultDefaults := noResult |}.

(** A file system holding the given regular files and nothing else. *)
Definition files (present : list string) : FileSystem :=
  fun p => if existsb (String.eqb p) present then ft_regular else ft_not_found.


Definition noEnv : string -> option string := fun _ => None.

Definition env (name value : string) : string -> option string :=
  fun n => if String.eqb n name then Some value else None.

(** A host with the given environment and files, on which the version query
    succeeds for the installed compilers only (the shell reports 127
    otherwise), and every child process behaves as [child]. *)
Definition host (environment : string -> option string) (fs : FileSystem)
    (installed : list string) (child : ProcessRun) : Host :=
  {| getenv := environment;
     status0 := fs;
     absolute := fun p => if prefix "/" p then Some p else Some ("/work/" ++ p);
     system := fun command =>
       if existsb (fun c => String.eqb command (probeCommand c)) installed
       then 0 else 32512;
     ifstream_good := fun _ => false;
     opendir := fun _ => None;
     spawn := fun _ => child |}.

Definition builder (compiler : string) (callback : bool) : Builder :=
  {| compilerPath := compiler; oopencalDir := "/opt/OOpenCAL";
     projectRootPath := EmptyString; progressCallback := callback;
     lastResult := noResult |}.

Fixpoint stdoutLines (n : nat) : list (stream * string) :=
  match n with
  | O => []
  | S k => (Stdout, "[ok] unit") :: stdoutLines k
  end.

(** 23 pieces on stdout, with one piece on stderr after the 3rd and one
    after the 12th. *)
Definition chatter : list (stream * string) :=
  (stdoutLines 3 ++ [ (Stderr, "warning: unused variable") ] ++
   stdoutLines 9 ++ [ (Stderr, "note: declared here") ] ++ stdoutLines 11)%list.

(** The compiler writes the artifact and exits with 0. *)
Definition compiles : ProcessRun :=
  Ran chatter 0 (files [ "/work/model.cpp"; "/work/model.so" ]).

(** A wrapper script that exits with 0 and writes nothing. *)
Definition exitsZeroWithoutArtifact : ProcessRun :=
  Ran [] 0 (files [ "/work/model.cpp" ]).

(** g++ is installed, clang++ is not. *)
Definition gccHost : Host :=
  host noEnv (files [ "/work/model.cpp" ]) [ "g++" ] compiles.

Definition wrapperHost : Host :=
  host noEnv (files [ "/work/model.cpp" ]) [ "g++" ] exitsZeroWithoutArtifact.

(** No compiler answers the version query. *)
Definition bareHost : Host :=
  host noEnv (files [ "/work/model.cpp" ]) [] compiles.

(** An AppImage mounted under /tmp, announced by the launcher; no compiler
    answers the version query. *)
Definition mountedHost : Host :=
  host (env "CLANG_TOOLCHAIN_PATH" "/tmp/.mount_OOpenCxyz/usr/bin")
       (files [ "/work/model.cpp"; "/tmp/.mount_OOpenCxyz/usr/bin/clang++" ])
       [] compiles.

(** A bundled clang at one of the fixed paths. *)
Definition optHost : Host :=
  host noEnv (files [ "/work/model.cpp"; "/opt/clang/bin/clang++" ]) [] compiles.

(** A system compiler that lives under /tmp. *)
Definition tmpCompilerHost : Host :=
  host noEnv (files [ "/work/model.cpp" ]) [ "/tmp/toolchains/bin/g++" ] compiles.


(** g++ is installed; the child writes 23 pieces to stdout and nothing to
    stderr. *)
Definition quietHost : Host :=
  host noEnv (files [ "/work/model.cpp" ]) [ "g++" ]
       (Ran (stdoutLines 23) 0 (files [ "/work/model.cpp"; "/work/model.so" ])).

(** A clang announced by the launcher at an installed location. *)
Definition installedHost : Host :=
  host (env "CLANG_TOOLCHAIN_PATH" "/opt/oopencal-viewer/usr/bin")
       (files [ "/work/model.cpp"; "/opt/oopencal-viewer/usr/bin/clang++" ])
       [] compiles.

(** g++ is installed, and the environment sets OOPENCAL_DIR to the empty
    string. *)
Definition emptyDirHost : Host :=
  host (env "OOPENCAL_DIR" EmptyString) (files [ "/work/model.cpp" ]) [ "g++" ] compiles.

(** A clang announced by the launcher directly under [/tmp/bin]: its path
    carries the marker and no [/usr/bin/] part. *)
Definition shallowHost : Host :=
  host (env "CLANG_TOOLCHAIN_PATH" "/tmp/bin")
       (files [ "/work/model.cpp"; "/tmp/bin/clang++" ])
       [] compiles.

(** A build whose VTK flags name the system's VTK headers. *)
Definition systemVtkConfig : BuildConfig :=
  {| cplusplus := 202002; CLANG_TOOLCHAIN_PATH := None; OOPENCAL_DIR := "/opt/OOpenCAL";
     VTK_COMPILE_FLAGS := "-I/usr/include/vtk-9.1"; resultDefaults := noResult |}.

(** The host of [gccHost] once the artifact has been written. *)
Definition rebuiltHost : Host :=
  host noEnv (files [ "/work/model.cpp"; "/work/model.so" ]) [ "g++" ] compiles.

(** Cell colours as triples of channel values 0 to 255, and two steps of a
    model on a grid: the row in red and the column in green, then the
    reverse. *)
Definition red (c : Z * Z * Z) : float := Visualizer.channel (fst (fst c)).
Definition green (c : Z * Z * Z) : float := Visualizer.channel (snd (fst c)).
Definition blue (c : Z * Z * Z) : float := Visualizer.channel (snd c).

Definition stepOne (row col : Z) : Z * Z * Z := (100 * row, 60 * col, 255).
Definition stepTwo (row col : Z) : Z * Z * Z := (60 * col, 100 * row, 1).

End Example.

(* ================================================================== *)
(** ** Facts about strings *)

Module StrFacts.

Lemma append_assoc (a b c : string) : (a ++ b) ++ c = a ++ (b ++ c).
Proof. induction a as [|x a IH]; simpl; [reflexivity | now rewrite IH]. Qed.

Lemma append_nil_r (a : string) : a ++ EmptyString = a.
Proof. induction a as [|x a IH]; simpl; [reflexivity | now rewrite IH]. Qed.

Lemma prefix_append (a b : string) : prefix a (a ++ b) = true.
Proof.
  induction a as [|x a IH]; simpl.
  - now destruct b.
  - destruct (ascii_dec x x) as [_|ne]; [exact IH | now elim ne].
Qed.

Lemma prefix_split (a s : string) : prefix a s = true -> exists post, s = a ++ post.
Proof.
  revert s; induction a as [|x a IH]; intros s H.
  - now exists s.
  - destruct s as [|y s]; simpl in H; [discriminate|].
    destruct (ascii_dec x y) as [->|]; [|discriminate].
    destruct (IH s H) as [post ->]. now exists post.
Qed.

Lemma contains_prefix (needle s : string) :
  prefix needle s = true -> Str.contains needle s = true.
Proof. intros H. destruct s; cbn [Str.contains]; rewrite H; reflexivity. Qed.

Lemma contains_append (needle pre post : string) :
  Str.contains needle (pre ++ needle ++ post) = true.
Proof.
  induction pre as [|x pre IH].
  - cbn [append]. apply contains_prefix, prefix_append.
  - cbn [append Str.contains]. rewrite IH. apply orb_true_r.
Qed.

Lemma contains_split (needle s : string) :
  Str.contains needle s = true -> exists pre post, s = pre ++ needle ++ post.
Proof.
  induction s as [|x s IH]; cbn [Str.contains]; intros H.
  - rewrite orb_false_r in H. destruct (prefix_split _ _ H) as [post E].
    exists EmptyString, post. exact E.
  - apply orb_true_iff in H. destruct H as [H|H].
    + destruct (prefix_split _ _ H) as [post E]. exists EmptyString, post. exact E.
    + destruct (IH H) as (pre & post & ->). now exists (String x pre), post.
Qed.

Lemma textOnto_spec (r : Str.rope) (k : string) : Str.textOnto r k = Str.text r ++ k.
Proof.
  revert k; induction r as [s|a IHa b IHb]; intros k; simpl.
  - reflexivity.
  - now rewrite IHa, IHb, append_assoc.
Qed.

Lemma text_flat (r : Str.rope) : Str.text r = Str.textOnto r EmptyString.
Proof. now rewrite textOnto_spec, append_nil_r. Qed.

Lemma text_eq (a b : Str.rope) :
  Str.textOnto a EmptyString = Str.textOnto b EmptyString -> Str.text a = Str.text b.
Proof. now rewrite !text_flat. Qed.

Lemma prefix_app_stop (c : ascii) (n a b : string) :
  Str.contains (String c EmptyString) n = false ->
  Str.startsWith c b ->
  prefix n (a ++ b) = true -> prefix n a = true.
Proof.
  revert a. induction n as [|x n IH]; intros a Hn Hb H.
  - now destruct a.
  - cbn [Str.contains prefix] in Hn. apply orb_false_iff in Hn. destruct Hn as [Hx Hn].
    destruct a as [|y a]; cbn [append] in H.
    + exfalso. destruct Hb as [->|[rest ->]]; cbn [prefix] in H, Hx; [discriminate H|].
      destruct (ascii_dec x c) as [->|ne]; [|discriminate H].
      destruct (ascii_dec c c) as [_|ne]; [|now elim ne]. now destruct n.
    + cbn [prefix] in H |- *. destruct (ascii_dec x y); [|discriminate H]. now apply IH.
Qed.

Lemma contains_app_stop (c x : ascii) (w a b : string) :
  Str.contains (String c EmptyString) w = false ->
  Str.contains (String x w) a = false ->
  Str.contains (String x w) b = false ->
  Str.startsWith c b ->
  Str.contains (String x w) (a ++ b) = false.
Proof.
  intros Hw Ha Hb Hs. induction a as [|y a IH]; [exact Hb|].
  cbn [append]. cbn [Str.contains] in Ha |- *.
  apply orb_false_iff in Ha. destruct Ha as [Hp Ha].
  apply orb_false_iff. split; [|now apply IH].
  cbn [prefix] in Hp |- *. destruct (ascii_dec x y); [|reflexivity].
  destruct (prefix w (a ++ b)) eqn:E; [|reflexivity].
  now rewrite (prefix_app_stop c w a b Hw Hs E) in Hp.
Qed.

Lemma contains_first (x : ascii) (w s : string) :
  Str.contains (String x EmptyString) s = false ->
  Str.contains (String x w) s = false.
Proof.
  induction s as [|y s IH]; cbn [Str.contains prefix]; [reflexivity|].
  intros H. apply orb_false_iff in H. destruct H as [Hp Hc].
  rewrite (IH Hc), orb_false_r.
  destruct (ascii_dec x y); [|reflexivity]. now destruct s.
Qed.

Lemma contains_char_app (c : ascii) (a b : string) :
  Str.contains (String c EmptyString) (a ++ b) =
  Str.contains (String c EmptyString) a || Str.contains (String c EmptyString) b.
Proof.
  induction a as [|y a IH]; cbn [append].
  - cbn [Str.contains prefix]. reflexivity.
  - cbn [Str.contains]. rewrite IH.
    replace (prefix (String c EmptyString) (String y (a ++ b)))
      with (prefix (String c EmptyString) (String y a)).
    + now rewrite orb_assoc.
    + cbn [prefix]. destruct (ascii_dec c y); [|reflexivity]. destruct a; [destruct b|]; reflexivity.
Qed.

Lemma contains_char_substring (c : ascii) (n : nat) (s : string) :
  Str.contains (String c EmptyString) s = false ->
  Str.contains (String c EmptyString) (substring 0 n s) = false.
Proof.
  revert s. induction n as [|n IH]; intros s H.
  - now destruct s.
  - destruct s as [|y s]; [reflexivity|]. cbn [substring].
    cbn [Str.contains] in H |- *. apply orb_false_iff in H. destruct H as [Hp Hc].
    rewrite (IH s Hc), orb_false_r.
    cbn [prefix] in Hp |- *. destruct (ascii_dec c y); [|reflexivity].
    now destruct s.
Qed.

Lemma contains_inside (needle pre s post : string) :
  Str.contains needle s = true -> Str.contains needle (pre ++ s ++ post) = true.
Proof.
  intros H. destruct (contains_split _ _ H) as (p & q & ->).
  replace (pre ++ (p ++ needle ++ q) ++ post) with ((pre ++ p) ++ needle ++ (q ++ post))
    by (now rewrite !append_assoc).
  apply contains_append.
Qed.

End StrFacts.

Ltac rope_of t :=
  lazymatch t with
  | append ?a ?b =>
      let ra := rope_of a in let rb := rope_of b in constr:(Str.Cat ra rb)
  | Str.put ?a ?b =>
      let ra := rope_of a in let rb := rope_of b in constr:(Str.Cat ra rb)
  | _ => constr:(Str.Leaf t)
  end.

(** Closes [A = B] when both are the same pieces in the same order. *)
Ltac same_text :=
  lazymatch goal with
  | |- ?A = ?B =>
      let ra := rope_of A in
      let rb := rope_of B in
      change (Str.text ra = Str.text rb);
      apply StrFacts.text_eq;
      cbv [Str.textOnto]; cbn [append Str.dq]; reflexivity
  end.

(* ================================================================== *)
(** ** The shape of the synthesized command *)

Section SynthesisFacts.
Variable h : Host.
Variable cfg : BuildConfig.

Lemma buildCompileCommand_isolated (b : Builder) (src out std : string) :
  fromAppImage (compilerPath b) = true ->
  buildCompileCommand h cfg b src out std = isolatedCommand h cfg b src out std.
Proof.
  intros Hm.
  cbv [buildCompileCommand isolatedCommand suppliedIncludes intrinsicsDir mountOf
       flags isystemFlag includeFlag ldLibraryPrefix isolationFlags
       sysrootDirs bundledProjectDirs commandTail].
  rewrite Hm.
  destruct (Str.empty (oopencalDir b)); destruct (Str.empty (projectRootPath b));
    cbn [negb];
    try (destruct (getenv h "OOPENCAL_VIEWER_ROOT") as [root|]; [destruct (Str.empty root)|]);
    cbn [negb].
  all: (destruct (ifstream_good h _) eqn:Eg; cbn [negb];
       [|destruct (opendir h _) as [entries|]; [destruct (firstClangVersion entries)|]]).
  all: same_text.
Qed.

Lemma buildCompileCommand_plain (b : Builder) (src out std : string) :
  fromAppImage (compilerPath b) = false ->
  buildCompileCommand h cfg b src out std = plainCommand h cfg b src out std.
Proof.
  intros Hm.
  cbv [buildCompileCommand plainCommand suppliedIncludes flags includeFlag
       systemVtkInclude commandTail].
  rewrite Hm.
  destruct (Str.empty (oopencalDir b)); destruct (Str.empty (projectRootPath b));
    cbn [negb];
    try (destruct (getenv h "OOPENCAL_VIEWER_ROOT") as [root|]; [destruct (Str.empty root)|]);
    cbn [negb].
  all: same_text.
Qed.

Lemma buildCompileCommand_shape (b : Builder) (src out std : string) :
  buildCompileCommand h cfg b src out std =
  if fromAppImage (compilerPath b)
  then isolatedCommand h cfg b src out std
  else plainCommand h cfg b src out std.
Proof.
  destruct (fromAppImage (compilerPath b)) eqn:E;
    [now apply buildCompileCommand_isolated | now apply buildCompileCommand_plain].
Qed.

Lemma prefix_under (m a c : string) : prefix (m ++ a) (m ++ c) = prefix a c.
Proof.
  induction m as [|x m IH]; [reflexivity|]. cbn [append prefix].
  destruct (ascii_dec x x) as [_|ne]; [exact IH | now elim ne].
Qed.

Lemma intrinsicsDir_under (mount : string) :
  prefix (mount ++ "/usr/") (intrinsicsDir h mount) = true.
Proof.
  unfold intrinsicsDir.
  destruct (ifstream_good h _); [|destruct (opendir h _) as [entries|];
    [destruct (firstClangVersion entries)|]]; now rewrite prefix_under.
Qed.

Lemma fromAppImage_iff (path : string) :
  fromAppImage path = true <->
  (exists pre post, path = pre ++ ".mount_" ++ post) \/
  (exists pre post, path = pre ++ "/tmp/" ++ post).
Proof.
  unfold fromAppImage. rewrite orb_true_iff. split.
  - intros [H|H]; [left|right]; now apply StrFacts.contains_split.
  - intros [(pre & post & ->)|(pre & post & ->)]; [left|right];
      apply StrFacts.contains_append.
Qed.

(** *** Where the plain VTK include can come from *)

Lemma clean_app (p q : string) : clean p -> clean q -> clean (p ++ q).
Proof.
  intros [Hp Sp] [Hq Sq]. split.
  - unfold systemVtkInclude in *. now apply (StrFacts.contains_app_stop " ").
  - destruct Sp as [->|[rest ->]]; [exact Sq | right; now eexists].
Qed.

Lemma clean_empty : clean EmptyString.
Proof. split; [reflexivity | now left]. Qed.

Lemma quoted_free (dir : string) :
  Str.contains " " dir = false ->
  Str.contains systemVtkInclude (dir ++ Str.dq) = false.
Proof.
  intros Hd. unfold systemVtkInclude.
  apply (StrFacts.contains_app_stop (ascii_of_nat 34)); try reflexivity.
  - now apply StrFacts.contains_first.
  - right. now eexists.
Qed.

Lemma clean_isystemFlag (dir : string) :
  Str.contains " " dir = false -> clean (isystemFlag dir).
Proof.
  intros Hd. split; [|right; now eexists].
  change (Str.contains systemVtkInclude (isystemFlag dir))
    with (Str.contains systemVtkInclude (dir ++ Str.dq)).
  now apply quoted_free.
Qed.

Lemma clean_includeFlag (dir : string) :
  Str.contains " " dir = false -> clean (includeFlag dir).
Proof.
  intros Hd. split; [|right; now eexists].
  change (Str.contains systemVtkInclude (includeFlag dir))
    with (Str.contains systemVtkInclude (dir ++ Str.dq)).
  now apply quoted_free.
Qed.

Lemma clean_flags (flag : string -> string) (dirs : list string) :
  Forall (fun d => clean (flag d)) dirs -> clean (flags flag dirs).
Proof.
  induction 1 as [|d rest Hd _ IH]; cbn [flags]; [apply clean_empty | now apply clean_app].
Qed.

Lemma blank_free_under (mount rest : string) :
  Str.contains " " mount = false ->
  Str.contains " " rest = false ->
  Str.contains " " (mount ++ rest) = false.
Proof. intros Hm Hr. now rewrite StrFacts.contains_char_app, Hm, Hr. Qed.

Lemma blank_free_mount (compiler : string) :
  Str.contains " " compiler = false ->
  Str.contains " " (basePathOf compiler) = false /\
  Str.contains " " (mountOf compiler) = false.
Proof.
  intros Hc.
  assert (Hsub : forall s pos, Str.contains " " s = false ->
                               Str.contains " " (Str.substr0 s pos) = false).
  { intros s [n|] Hs; [now apply StrFacts.contains_char_substring | exact Hs]. }
  assert (Hb : Str.contains " " (basePathOf compiler) = false) by now apply Hsub.
  split; [exact Hb|]. unfold mountOf, mountPointOf.
  destruct (Str.find_last_of "/" (basePathOf compiler)) as [n|] eqn:E1.
  - destruct (Str.find_last_of "/" (Str.substr0 (basePathOf compiler) (Some n)));
      repeat apply Hsub; exact Hc.
  - rewrite E1. exact Hb.
Qed.

Lemma suppliedIncludes_starts (b : Builder) : Str.startsWith " " (suppliedIncludes h b).
Proof.
  unfold suppliedIncludes.
  destruct (Str.empty (oopencalDir b)); [|right; now eexists].
  cbn [append]. destruct (Str.empty (projectRootPath b)); cbn [negb];
    [|right; now eexists].
  destruct (getenv h "OOPENCAL_VIEWER_ROOT") as [root|]; [|now left].
  destruct (Str.empty root); [now left | right; now eexists].
Qed.

Lemma isolated_command_free (b : Builder) (src out std : string) :
  Str.contains " " (compilerPath b) = false ->
  prefix "/" (compilerPath b) = true ->
  Str.contains " " (intrinsicsDir h (mountOf (compilerPath b))) = false ->
  Str.contains systemVtkInclude (detectCppStandard cfg std) = false ->
  Str.contains systemVtkInclude (suppliedIncludes h b) = false ->
  Str.contains systemVtkInclude (commandTail cfg src out) = false ->
  Str.contains systemVtkInclude (isolatedCommand h cfg b src out std) = false.
Proof.
  intros Hc Hroot Hi Hstd Hsup Htail.
  destruct (blank_free_mount _ Hc) as [Hb Hm].
  set (m := mountOf (compilerPath b)) in *.
  assert (Hdir : forall rest, Str.contains " " rest = false ->
                              Str.contains " " (m ++ rest) = false)
    by (intros rest Hr; now apply blank_free_under).
  assert (Hbig : clean ((" -shared -fPIC -std=" ++ detectCppStandard cfg std)
                          ++ isolationFlags
                          ++ flags isystemFlag (sysrootDirs m)
                          ++ suppliedIncludes h b
                          ++ includeFlag (m ++ "/usr/include/vtk-9.1")
                          ++ isystemFlag (intrinsicsDir h m)
                          ++ flags includeFlag (bundledProjectDirs m)
                          ++ commandTail cfg src out)).
  { apply clean_app; [split; [exact Hstd | right; now eexists]|].
    apply clean_app; [split; [reflexivity | right; now eexists]|].
    apply clean_app;
      [apply clean_flags; unfold sysrootDirs;
       repeat (apply Forall_cons; [apply clean_isystemFlag; now apply Hdir|]);
       apply Forall_nil|].
    apply clean_app; [split; [exact Hsup | apply suppliedIncludes_starts]|].
    apply clean_app; [apply clean_includeFlag; now apply Hdir|].
    apply clean_app; [now apply clean_isystemFlag|].
    apply clean_app;
      [apply clean_flags; unfold bundledProjectDirs;
       repeat (apply Forall_cons; [apply clean_includeFlag; now apply Hdir|]);
       apply Forall_nil|].
    split; [exact Htail | right; now eexists]. }
  assert (Hfront : Str.contains systemVtkInclude
                     (("LD_LIBRARY_PATH=" ++ Str.dq ++ basePathOf (compilerPath b)
                         ++ "/../lib/clang-libs:" ++ basePathOf (compilerPath b)
                         ++ "/../lib" ++ ":$LD_LIBRARY_PATH" ++ Str.dq)
                        ++ " " ++ compilerPath b) = false).
  { unfold systemVtkInclude. apply (StrFacts.contains_app_stop " "); [reflexivity | | |].
    - apply StrFacts.contains_first.
      now rewrite !StrFacts.contains_char_app, Hb.
    - cbn [append Str.contains]. apply orb_false_iff. split.
      + destruct (compilerPath b) as [|x rest]; [discriminate Hroot|].
        cbn [prefix] in Hroot |- *. destruct (ascii_dec "/" x) as [<-|]; [|discriminate Hroot].
        reflexivity.
      + now apply StrFacts.contains_first.
    - right. now eexists. }
  replace (isolatedCommand h cfg b src out std)
    with ((("LD_LIBRARY_PATH=" ++ Str.dq ++ basePathOf (compilerPath b)
              ++ "/../lib/clang-libs:" ++ basePathOf (compilerPath b)
              ++ "/../lib" ++ ":$LD_LIBRARY_PATH" ++ Str.dq)
             ++ " " ++ compilerPath b)
            ++ (" -shared -fPIC -std=" ++ detectCppStandard cfg std)
            ++ isolationFlags
            ++ flags isystemFlag (sysrootDirs m)
            ++ suppliedIncludes h b
            ++ includeFlag (m ++ "/usr/include/vtk-9.1")
            ++ isystemFlag (intrinsicsDir h m)
            ++ flags includeFlag (bundledProjectDirs m)
            ++ commandTail cfg src out)
    by (unfold isolatedCommand, ldLibraryPrefix; cbv zeta; subst m; same_text).
  destruct Hbig as [Hfree Hstart].
  unfold systemVtkInclude in *. now apply (StrFacts.contains_app_stop " ").
Qed.

(** C5 (amended). For a compiler whose path contains [.mount_] or [/tmp/]
    the command is the isolated one.  It carries [-nostdinc -nostdinc++].
    Every directory the builder itself passes (for system headers, VTK, the
    intrinsics and the bundled project headers) lies under [<mount>/usr/],
    and the builder writes no plain [-I/usr/include/vtk-9.1]: the command
    holds it only if the compiler path, the standard, the caller's include
    directories, the build's VTK flags or the file names bring it.  The
    command is not free of host paths for all that: the build's VTK flags
    are appended as they are, so a plain VTK include in them is in the
    command, and with an empty mount point the directories under
    [<mount>/usr/] are the host's own, the first being [/usr/include]. *)
Theorem appimage_compiler_is_isolated (b : Builder) (src out std : string) :
  fromAppImage (compilerPath b) = true ->
  buildCompileCommand h cfg b src out std = isolatedCommand h cfg b src out std /\
  (exists pre post,
     buildCompileCommand h cfg b src out std = pre ++ " -nostdinc -nostdinc++" ++ post) /\
  Forall (fun dir => prefix (mountOf (compilerPath b) ++ "/usr/") dir = true)
         (isolatedDirs h (mountOf (compilerPath b))) /\
  (Str.contains " " (compilerPath b) = false ->
   prefix "/" (compilerPath b) = true ->
   Str.contains " " (intrinsicsDir h (mountOf (compilerPath b))) = false ->
   Str.contains systemVtkInclude (detectCppStandard cfg std) = false ->
   Str.contains systemVtkInclude (suppliedIncludes h b) = false ->
   Str.contains systemVtkInclude (commandTail cfg src out) = false ->
   Str.contains systemVtkInclude (buildCompileCommand h cfg b src out std) = false) /\
  (Str.contains systemVtkInclude (" " ++ VTK_COMPILE_FLAGS cfg) = true ->
   Str.contains systemVtkInclude (buildCompileCommand h cfg b src out std) = true) /\
  (mountOf (compilerPath b) = EmptyString ->
   exists pre post,
     buildCompileCommand h cfg b src out std =
       pre ++ " -nostdinc -nostdinc++" ++ isystemFlag "/usr/include" ++ post).
Proof.
  intros Hm. pose proof (buildCompileCommand_isolated b src out std Hm) as E.
  split; [exact E|]. split; [|split; [|split; [|split]]].
  - rewrite E. unfold isolatedCommand, isolationFlags.
    exists (ldLibraryPrefix (compilerPath b) ++ compilerPath b
              ++ " -shared -fPIC -std=" ++ detectCppStandard cfg std).
    exists (flags isystemFlag (sysrootDirs (mountOf (compilerPath b)))
              ++ suppliedIncludes h b
              ++ includeFlag (mountOf (compilerPath b) ++ "/usr/include/vtk-9.1")
              ++ isystemFlag (intrinsicsDir h (mountOf (compilerPath b)))
              ++ flags includeFlag (bundledProjectDirs (mountOf (compilerPath b)))
              ++ commandTail cfg src out).
    cbv zeta. same_text.
  - unfold isolatedDirs. repeat (apply Forall_app; split).
    + unfold sysrootDirs. repeat constructor; now rewrite prefix_under.
    + constructor; [now rewrite prefix_under | constructor].
    + constructor; [apply intrinsicsDir_under | constructor].
    + unfold bundledProjectDirs. repeat constructor; now rewrite prefix_under.
  - intros Hc Hroot Hi Hstd Hsup Htail. rewrite E. now apply isolated_command_free.
  - intros Hv. rewrite E. unfold isolatedCommand, commandTail. cbv zeta.
    replace (ldLibraryPrefix (compilerPath b) ++ compilerPath b
               ++ " -shared -fPIC -std=" ++ detectCppStandard cfg std
               ++ isolationFlags
               ++ flags isystemFlag (sysrootDirs (mountOf (compilerPath b)))
               ++ suppliedIncludes h b
               ++ includeFlag (mountOf (compilerPath b) ++ "/usr/include/vtk-9.1")
               ++ isystemFlag (intrinsicsDir h (mountOf (compilerPath b)))
               ++ flags includeFlag (bundledProjectDirs (mountOf (compilerPath b)))
               ++ " " ++ VTK_COMPILE_FLAGS cfg
               ++ " " ++ Str.dq ++ src ++ Str.dq ++ " -o " ++ Str.dq ++ out ++ Str.dq)
      with ((ldLibraryPrefix (compilerPath b) ++ compilerPath b
               ++ " -shared -fPIC -std=" ++ detectCppStandard cfg std
               ++ isolationFlags
               ++ flags isystemFlag (sysrootDirs (mountOf (compilerPath b)))
               ++ suppliedIncludes h b
               ++ includeFlag (mountOf (compilerPath b) ++ "/usr/include/vtk-9.1")
               ++ isystemFlag (intrinsicsDir h (mountOf (compilerPath b)))
               ++ flags includeFlag (bundledProjectDirs (mountOf (compilerPath b))))
              ++ (" " ++ VTK_COMPILE_FLAGS cfg)
              ++ (" " ++ Str.dq ++ src ++ Str.dq ++ " -o " ++ Str.dq ++ out ++ Str.dq))
      by same_text.
    now apply StrFacts.contains_inside.
  - intros Hempty. rewrite E. unfold isolatedCommand, isolationFlags. cbv zeta.
    rewrite Hempty.
    change (flags isystemFlag (sysrootDirs EmptyString))
      with (isystemFlag "/usr/include"
              ++ flags isystemFlag (tl (sysrootDirs EmptyString))).
    exists (ldLibraryPrefix (compilerPath b) ++ compilerPath b
              ++ " -shared -fPIC -std=" ++ detectCppStandard cfg std).
    exists (flags isystemFlag (tl (sysrootDirs EmptyString))
              ++ suppliedIncludes h b
              ++ includeFlag (EmptyString ++ "/usr/include/vtk-9.1")
              ++ isystemFlag (intrinsicsDir h EmptyString)
              ++ flags includeFlag (bundledProjectDirs EmptyString)
              ++ commandTail cfg src out).
    same_text.
Qed.

(** C6 (amended). The [LD_LIBRARY_PATH] assignment stands in front of the
    compiler executable, as an environment prefix of the command, exactly
    when the compiler path contains [.mount_] or [/tmp/]; the command starts
    with the compiler executable otherwise, as it does for each of the
    fallback system compilers g++, clang++ and c++. *)
Theorem library_path_prefix_by_compiler_path (b : Builder) (src out std : string) :
  (exists rest,
     buildCompileCommand h cfg b src out std =
       (if fromAppImage (compilerPath b) then ldLibraryPrefix (compilerPath b)
        else EmptyString)
       ++ compilerPath b ++ " -shared -fPIC -std=" ++ rest) /\
  Forall (fun compiler => fromAppImage compiler = false) fallbacks.
Proof.
  split.
  - rewrite buildCompileCommand_shape. destruct (fromAppImage (compilerPath b)).
    + unfold isolatedCommand. eexists. reflexivity.
    + unfold plainCommand. eexists. reflexivity.
  - repeat constructor.
Qed.

(** *** The standard, the frame of the command, the mount point *)

Lemma find_last_of_app (c : ascii) (s t : string) :
  Str.find_last_of c (s ++ String c t) =
  match Str.find_last_of c t with
  | Some i => Some (String.length s + S i)%nat
  | None => Some (String.length s)
  end.
Proof.
  induction s as [|x s IH]; cbn [append Str.find_last_of String.length].
  - rewrite Ascii.eqb_refl. now destruct (Str.find_last_of c t).
  - rewrite IH. now destruct (Str.find_last_of c t).
Qed.

Lemma substring_prefix (s t : string) : substring 0 (String.length s) (s ++ t) = s.
Proof.
  induction s as [|x s IH]; cbn [append String.length substring].
  - now destruct t.
  - now rewrite IH.
Qed.

Lemma find_last_of_absent (c : ascii) (s : string) :
  Str.contains (String c EmptyString) s = false -> Str.find_last_of c s = None.
Proof.
  induction s as [|x s IH]; cbn [Str.contains Str.find_last_of]; [reflexivity|].
  intros H. apply orb_false_iff in H. destruct H as [Hp Hc].
  rewrite (IH Hc). cbn [prefix] in Hp.
  destruct (ascii_dec c x) as [->|ne].
  - now destruct s.
  - destruct (Ascii.eqb x c) eqn:E; [|reflexivity].
    apply Ascii.eqb_eq in E. now elim ne.
Qed.

Lemma strip_last_component (s c : string) :
  Str.contains "/" c = false ->
  Str.find_last_of "/" (s ++ "/" ++ c) = Some (String.length s) /\
  Str.substr0 (s ++ "/" ++ c) (Str.find_last_of "/" (s ++ "/" ++ c)) = s.
Proof.
  intros H. change (s ++ "/" ++ c) with (s ++ String "/" c).
  rewrite find_last_of_app, (find_last_of_absent _ _ H). split; [reflexivity|].
  apply substring_prefix.
Qed.

(** X3. The mount point the builder derives from a compiler path is the
    path without its last three components, whatever their names: for
    [m/a/b/c] the directory of the compiler is [m/a/b] and the mount point
    is [m].  A path with fewer components keeps its first one: [m/a/c] with
    no slash in [m] gives [m], so a compiler directly under a top-level
    directory gives the empty mount point. *)
Theorem mount_point_drops_three_components (m a b c : string) :
  Str.contains "/" a = false ->
  Str.contains "/" b = false ->
  Str.contains "/" c = false ->
  basePathOf (m ++ "/" ++ a ++ "/" ++ b ++ "/" ++ c) = m ++ "/" ++ a ++ "/" ++ b /\
  mountOf (m ++ "/" ++ a ++ "/" ++ b ++ "/" ++ c) = m /\
  (Str.contains "/" m = false -> mountOf (m ++ "/" ++ a ++ "/" ++ c) = m).
Proof.
  intros Ha Hb Hc.
  assert (E3 : basePathOf (m ++ "/" ++ a ++ "/" ++ b ++ "/" ++ c) = m ++ "/" ++ a ++ "/" ++ b).
  { unfold basePathOf.
    replace (m ++ "/" ++ a ++ "/" ++ b ++ "/" ++ c)
      with ((m ++ "/" ++ a ++ "/" ++ b) ++ "/" ++ c) by same_text.
    apply (strip_last_component _ c Hc). }
  split; [exact E3|]. split.
  - unfold mountOf. rewrite E3. unfold mountPointOf.
    replace (m ++ "/" ++ a ++ "/" ++ b) with ((m ++ "/" ++ a) ++ "/" ++ b) by same_text.
    destruct (strip_last_component (m ++ "/" ++ a) b Hb) as [-> ->].
    destruct (strip_last_component m a Ha) as [-> E]. exact E.
  - intros Hm. unfold mountOf, basePathOf.
    replace (m ++ "/" ++ a ++ "/" ++ c) with ((m ++ "/" ++ a) ++ "/" ++ c) by same_text.
    destruct (strip_last_component (m ++ "/" ++ a) c Hc) as [_ ->].
    unfold mountPointOf.
    destruct (strip_last_component m a Ha) as [-> ->].
    now rewrite (find_last_of_absent _ _ Hm).
Qed.

(** X4. The language standard of a command is never empty: a standard the
    caller gives is passed on as it is, and without one the standard is one
    of the four the host application can have been built with.  Detecting
    the standard of a detected standard changes nothing. *)
Theorem standard_is_never_empty (std : string) :
  Str.empty (detectCppStandard cfg std) = false /\
  detectCppStandard cfg (detectCppStandard cfg std) = detectCppStandard cfg std /\
  (Str.empty std = false -> detectCppStandard cfg std = std) /\
  (Str.empty std = true ->
   In (detectCppStandard cfg std) [ "c++23"; "c++20"; "c++17"; "c++14" ]).
Proof.
  unfold detectCppStandard.
  destruct (Str.empty std) eqn:E; cbn [negb].
  - destruct (cplusplus cfg >=? 202302); [|destruct (cplusplus cfg >=? 202002);
      [|destruct (cplusplus cfg >=? 201703)]];
      cbn; repeat split; auto; discriminate.
  - rewrite E. cbn [negb]. repeat split; auto. discriminate.
Qed.

(** X5. Every command has one frame: the optional environment prefix, the
    compiler, [-shared -fPIC -std=] with the detected standard, a block of
    include flags, the build's VTK flags, and last the quoted source and the
    quoted output after [-o].  The block of include flags does not depend
    on the source, the output or the standard. *)
Theorem command_frame (b : Builder) :
  exists includes,
    forall src out std,
      buildCompileCommand h cfg b src out std =
        (if fromAppImage (compilerPath b) then ldLibraryPrefix (compilerPath b)
         else EmptyString)
        ++ compilerPath b ++ " -shared -fPIC -std=" ++ detectCppStandard cfg std
        ++ includes
        ++ " " ++ VTK_COMPILE_FLAGS cfg
        ++ " " ++ Str.dq ++ src ++ Str.dq ++ " -o " ++ Str.dq ++ out ++ Str.dq.
Proof.
  destruct (fromAppImage (compilerPath b)) eqn:E.
  - exists (isolationFlags
              ++ flags isystemFlag (sysrootDirs (mountOf (compilerPath b)))
              ++ suppliedIncludes h b
              ++ includeFlag (mountOf (compilerPath b) ++ "/usr/include/vtk-9.1")
              ++ isystemFlag (intrinsicsDir h (mountOf (compilerPath b)))
              ++ flags includeFlag (bundledProjectDirs (mountOf (compilerPath b)))).
    intros src out std. rewrite buildCompileCommand_shape, E.
    unfold isolatedCommand, commandTail. cbv zeta. same_text.
  - exists (suppliedIncludes h b ++ systemVtkInclude).
    intros src out std. rewrite buildCompileCommand_shape, E.
    unfold plainCommand, commandTail. same_text.
Qed.

Lemma command_around_oopencal (b : Builder) (src out std : string) :
  exists front back,
    forall dir,
      buildCompileCommand h cfg
        {| compilerPath := compilerPath b; oopencalDir := dir;
           projectRootPath := projectRootPath b; progressCallback := progressCallback b;
           lastResult := lastResult b |} src out std =
      front
        ++ (if Str.empty dir then EmptyString
            else includeFlag (dir ++ "/OOpenCAL/base") ++ includeFlag dir)
        ++ back.
Proof.
  set (bare := {| compilerPath := compilerPath b; oopencalDir := EmptyString;
                  projectRootPath := projectRootPath b;
                  progressCallback := progressCallback b; lastResult := lastResult b |}).
  destruct (fromAppImage (compilerPath b)) eqn:E.
  - exists (ldLibraryPrefix (compilerPath b) ++ compilerPath b
              ++ " -shared -fPIC -std=" ++ detectCppStandard cfg std ++ isolationFlags
              ++ flags isystemFlag (sysrootDirs (mountOf (compilerPath b)))).
    exists (suppliedIncludes h bare
              ++ includeFlag (mountOf (compilerPath b) ++ "/usr/include/vtk-9.1")
              ++ isystemFlag (intrinsicsDir h (mountOf (compilerPath b)))
              ++ flags includeFlag (bundledProjectDirs (mountOf (compilerPath b)))
              ++ commandTail cfg src out).
    intros dir. rewrite buildCompileCommand_shape. cbn [compilerPath]. rewrite E.
    unfold isolatedCommand, suppliedIncludes, bare. cbv zeta.
    cbn [compilerPath oopencalDir projectRootPath Str.empty].
    destruct (Str.empty dir); cbn [flags]; same_text.
  - exists (compilerPath b ++ " -shared -fPIC -std=" ++ detectCppStandard cfg std).
    exists (suppliedIncludes h bare ++ systemVtkInclude ++ commandTail cfg src out).
    intros dir. rewrite buildCompileCommand_shape. cbn [compilerPath]. rewrite E.
    unfold plainCommand, suppliedIncludes, bare.
    cbn [compilerPath oopencalDir projectRootPath Str.empty].
    destruct (Str.empty dir); cbn [flags]; same_text.
Qed.

End SynthesisFacts.

(** X6. The command is synthesized from little of the host.  For a builder
    with a project root the environment is not consulted; for a compiler
    path without [.mount_] and [/tmp/] no file is opened and no directory is
    listed.  So two hosts give the same command as soon as they agree on
    [OOPENCAL_VIEWER_ROOT] (needed only without a project root) and, for an
    AppImage compiler, on whether the version-17 [stddef.h] opens and, when
    it does not, on the listing of the clang library directory. *)
Theorem command_reads_little_of_the_host (h1 h2 : Host) (cfg : BuildConfig) (b : Builder)
    (src out std : string) :
  (Str.empty (projectRootPath b) = true ->
   getenv h1 "OOPENCAL_VIEWER_ROOT" = getenv h2 "OOPENCAL_VIEWER_ROOT") ->
  (fromAppImage (compilerPath b) = true ->
   ifstream_good h1 (mountOf (compilerPath b) ++ "/usr/lib/clang/17/include/stddef.h") =
   ifstream_good h2 (mountOf (compilerPath b) ++ "/usr/lib/clang/17/include/stddef.h") /\
   (ifstream_good h1 (mountOf (compilerPath b) ++ "/usr/lib/clang/17/include/stddef.h") = false ->
    opendir h1 (mountOf (compilerPath b) ++ "/usr/lib/clang") =
    opendir h2 (mountOf (compilerPath b) ++ "/usr/lib/clang"))) ->
  buildCompileCommand h1 cfg b src out std = buildCompileCommand h2 cfg b src out std.
Proof.
  intros Henv Hfiles.
  assert (Hs : suppliedIncludes h1 b = suppliedIncludes h2 b).
  { unfold suppliedIncludes. destruct (Str.empty (projectRootPath b)); cbn [negb];
      [rewrite Henv by reflexivity|]; reflexivity. }
  rewrite !buildCompileCommand_shape.
  destruct (fromAppImage (compilerPath b)).
  - destruct (Hfiles eq_refl) as [Hg Hd].
    assert (Hi : intrinsicsDir h1 (mountOf (compilerPath b)) =
                 intrinsicsDir h2 (mountOf (compilerPath b))).
    { unfold intrinsicsDir.
      replace ((mountOf (compilerPath b) ++ "/usr/lib/clang/17/include") ++ "/stddef.h")
        with (mountOf (compilerPath b) ++ "/usr/lib/clang/17/include/stddef.h")
        by (now rewrite StrFacts.append_assoc).
      rewrite <- Hg.
      destruct (ifstream_good h1 _); [reflexivity|]. now rewrite Hd. }
    unfold isolatedCommand. cbv zeta. now rewrite Hs, Hi.
  - unfold plainCommand. now rewrite Hs.
Qed.

(* ================================================================== *)
(** ** The orchestrator, step by step *)

Section OrchestrationFacts.
Variable h : Host.
Variable cfg : BuildConfig.

Lemma fs_exists_eq (p : string) (s : State) :
  fs_exists p s =
  (match fsys s p with
   | ft_none => Thrown "filesystem error: status"
   | ft_not_found => Returned false
   | _ => Returned true
   end, s).
Proof. unfold fs_exists, bind, get. destruct (fsys s p); reflexivity. Qed.

Lemma fs_is_regular_file_eq (p : string) (s : State) :
  fs_is_regular_file p s =
  (match fsys s p with
   | ft_none => Thrown "filesystem error: status"
   | ft_regular => Returned true
   | _ => Returned false
   end, s).
Proof. unfold fs_is_regular_file, bind, get. destruct (fsys s p); reflexivity. Qed.

Lemma firstExisting_eq (paths : list string) (s : State) :
  firstExisting paths s = (firstExistingIn (fsys s) paths, s).
Proof.
  induction paths as [|p rest IH]; [reflexivity|].
  cbn [firstExisting firstExistingIn]. unfold bind. rewrite fs_exists_eq.
  destruct (fsys s p); try reflexivity. exact IH.
Qed.

Lemma getClangToolchainPath_eq (s : State) :
  getClangToolchainPath h cfg s = (firstExistingIn (fsys s) (bundledCandidates h cfg), s).
Proof.
  unfold getClangToolchainPath, bundledCandidates, clangCandidate, clangUnder, bind.
  destruct (getenv h "CLANG_TOOLCHAIN_PATH") as [[|a p]|];
    destruct (CLANG_TOOLCHAIN_PATH cfg) as [[|a' p']|];
    cbn [Str.empty negb app firstExistingIn ret];
    repeat rewrite fs_exists_eq;
    repeat match goal with
           | |- context [fsys s ?q] => destruct (fsys s q); cbn [ret]; try reflexivity;
                                       repeat rewrite fs_exists_eq
           end;
    try apply firstExisting_eq.
Qed.

Lemma grown_refl (s : State) : grown s [] s.
Proof. unfold grown. now rewrite app_nil_r. Qed.

Lemma grown_trans (s1 s2 s3 : State) (e1 e2 : list event) :
  grown s1 e1 s2 -> grown s2 e2 s3 -> grown s1 (e1 ++ e2) s3.
Proof.
  unfold grown. intros (A1 & B1 & C1 & D1) (A2 & B2 & C2 & D2).
  rewrite A2, B2, C2, D2, A1, B1, C1, D1, app_assoc. auto.
Qed.

Lemma isCompilerAvailable_run (c : string) (s : State) :
  exists s', isCompilerAvailable h c s = (Returned (probeOk h c), s') /\
             grown s [Probe (probeCommand c)] s'.
Proof. eexists. split; [reflexivity|]. unfold grown. cbn. auto. Qed.

Lemma firstAvailable_run (pref : string) (cands : list string) (s : State) :
  probeOk h pref = false ->
  exists s',
    firstAvailable h pref cands s =
      (Returned (match find (probeOk h) cands with Some c => c | None => EmptyString end), s') /\
    grown s (map Probe (map probeCommand (probedAmong h pref cands))) s'.
Proof.
  intros Hp. revert s. induction cands as [|c rest IH]; intros s.
  - exists s. split; [reflexivity | apply grown_refl].
  - cbn [firstAvailable probedAmong find]. unfold bind.
    destruct (String.eqb c pref) eqn:E.
    + apply String.eqb_eq in E. subst c. rewrite Hp. cbn [negb ret]. apply IH.
    + cbn [negb]. destruct (isCompilerAvailable_run c s) as (s1 & -> & G1).
      destruct (probeOk h c) eqn:Ec.
      * exists s1. split; [reflexivity | exact G1].
      * destruct (IH s1) as (s2 & -> & G2). exists s2. split; [reflexivity|].
        apply (grown_trans _ _ _ _ _ G1 G2).
Qed.

Lemma findAvailableCompiler_run (pref : string) (s : State) :
  exists s',
    findAvailableCompiler h pref s = (Returned (selected h pref), s') /\
    grown s (map Probe (map probeCommand (probed h pref))) s'.
Proof.
  unfold findAvailableCompiler, selected, probed, bind. cbn [find].
  destruct (isCompilerAvailable_run pref s) as (s1 & -> & G1).
  destruct (probeOk h pref) eqn:Hp.
  - exists s1. split; [reflexivity | exact G1].
  - destruct (firstAvailable_run pref fallbacks s1 Hp) as (s2 & -> & G2).
    exists s2. split; [reflexivity|]. apply (grown_trans _ _ _ _ _ G1 G2).
Qed.

Arguments withResult f b /.
Arguments withCompilerPath p b /.

Ltac reduce_state :=
  cbn [self lineCount fsys log withResult withCompilerPath progressCallback compilerPath
       oopencalDir projectRootPath lastResult negb andb].

Ltac reduce_result :=
  cbn [self lineCount fsys log withResult withCompilerPath progressCallback compilerPath
       oopencalDir projectRootPath lastResult negb andb
       success exitCode stdout stderr compileCommand sourceFile outputFile
       set_success set_exitCode set_stdout set_stderr set_compileCommand set_files].

(** Unfolds the monad's plumbing; the builder's own steps stay folded. *)
Ltac run_monad :=
  cbv [bind ret throw try_catch modify get emit modifyBuilder setLineCount
       setFileSystem modifyResult getResult];
  reduce_state.

Lemma report_eq (msg : string) (s : State) :
  report msg s =
  (Returned tt,
   {| self := self s; lineCount := lineCount s; fsys := fsys s;
      log := (log s ++ said (self s) msg)%list |}).
Proof.
  unfold report, said. run_monad. destruct s as [b n fs lg]. reduce_state.
  destruct (progressCallback b); [reflexivity | now rewrite app_nil_r].
Qed.

Lemma fs_exists_present (p : string) (s : State) :
  present (fsys s) p = true -> fs_exists p s = (Returned true, s).
Proof.
  intros H. rewrite fs_exists_eq. unfold present in H.
  destruct (fsys s p); try discriminate; reflexivity.
Qed.

Lemma deliver_run (output : list (stream * string)) (s : State) :
  exists s',
    deliver (Some onStdout) (Some onStderr) output s = (Returned tt, s') /\
    fsys s' = fsys s /\
    progressCallback (self s') = progressCallback (self s) /\
    compilerPath (self s') = compilerPath (self s) /\
    log s' = (log s ++ map Progress
                (if progressCallback (self s) then emitted (lineCount s) output else []))%list.
Proof.
  revert s. induction output as [|[st line] rest IH]; intros s.
  - exists s. cbn. destruct (progressCallback (self s)); rewrite app_nil_r; auto.
  - destruct st; cbn [deliver emitted]; unfold bind at 1.
    + unfold onStdout at 1. run_monad.
      destruct (progressCallback (self s)) eqn:Ecb; destruct (Str.empty line) eqn:El;
        cbn [negb andb];
        try destruct (Z.rem (lineCount s + 1) 5 =? 0)%Z;
        match goal with
        | |- context [deliver _ _ rest ?s1] => destruct (IH s1) as (s2 & -> & F & P & C & L)
        end;
        exists s2; cbn in F, P, C, L; rewrite F, P, C, L, ?Ecb; repeat split; auto;
        cbn [map]; rewrite <- ?app_assoc; reflexivity.
    + unfold onStderr at 1. run_monad.
      destruct (progressCallback (self s)) eqn:Ecb; destruct (Str.empty line) eqn:El;
        cbn [negb andb];
        match goal with
        | |- context [deliver _ _ rest ?s1] => destruct (IH s1) as (s2 & -> & F & P & C & L)
        end;
        exists s2; cbn in F, P, C, L; rewrite F, P, C, L, ?Ecb; repeat split; auto;
        cbn [map]; rewrite <- ?app_assoc; reflexivity.
Qed.

Lemma executeCommand_run (command : string) (s : State) :
  exists s',
    executeCommand h command (Some onStdout) (Some onStderr) s =
      (Returned (exitStatusOf (spawn h command)), s') /\
    fsys s' = fsAfter (spawn h command) (fsys s) /\
    progressCallback (self s') = progressCallback (self s) /\
    compilerPath (self s') = compilerPath (self s) /\
    log s' = (log s ++ Launch command ::
                map Progress
                  (if progressCallback (self s)
                   then emitted (lineCount s) (outputOf (spawn h command)) else []))%list.
Proof.
  unfold executeCommand. run_monad.
  destruct (spawn h command) as [what|output code fs']; cbn [exitStatusOf fsAfter outputOf].
  - eexists. split; [reflexivity|]. cbn. destruct (progressCallback (self s)); auto.
  - match goal with
    | |- context [deliver _ _ output ?s1] => destruct (deliver_run output s1) as (s2 & -> & F & P & C & L)
    end.
    eexists. split; [reflexivity|]. cbn in *. rewrite P, C, L, <- app_assoc. auto.
Qed.



Ltac close_log :=
  unfold said; reduce_state; cbn [app]; rewrite ?app_nil_r, <- ?app_assoc; cbn [app];
  reflexivity.

Ltac open_state s :=
  let sf := fresh "b" in let lc := fresh "n" in let fs := fresh "fs" in let lg := fresh "lg" in
  destruct s as [sf lc fs lg].

Ltac probe_step :=
  match goal with
  | |- context [findAvailableCompiler h ?p ?s0] =>
      let s1 := fresh "s" in let G := fresh "G" in
      destruct (findAvailableCompiler_run p s0) as (s1 & -> & G);
      open_state s1; unfold grown in G; cbn in G; destruct G as (-> & -> & -> & ->)
  end.

Lemma compile_source_error (b : Builder) (src out std : string) :
  status0 h src = ft_none ->
  exists w s', run h (compileModule h cfg src out std) b = (Thrown w, s') /\ log s' = [].
Proof.
  intros E. unfold run, compileModule, compileModuleBy. run_monad.
  rewrite fs_exists_eq. reduce_state. rewrite E. eexists _, _. split; reflexivity.
Qed.

Lemma compile_source_missing (b : Builder) (src out std : string) :
  status0 h src = ft_not_found ->
  exists s',
    run h (compileModule h cfg src out std) b =
      (Returned (set_stderr ("Source file does not exist: " ++ src)
                   (set_success false (set_files src out (resultDefaults cfg)))), s') /\
    log s' = [] /\ compilerPath (self s') = compilerPath b.
Proof.
  intros E. unfold run, compileModule, compileModuleBy. run_monad.
  rewrite fs_exists_eq. reduce_state. rewrite E. reduce_state. eexists. repeat split.
Qed.

Lemma compile_resolution_error (b : Builder) (src out std w : string) :
  present (status0 h) src = true ->
  firstExistingIn (status0 h) (bundledCandidates h cfg) = Thrown w ->
  exists s', run h (compileModule h cfg src out std) b = (Thrown w, s') /\
             log s' = said b "Checking C++ compiler availability...".
Proof.
  intros Hsrc Hc. unfold run, compileModule, compileModuleBy. run_monad.
  rewrite fs_exists_present by exact Hsrc. reduce_state.
  rewrite report_eq. reduce_state.
  rewrite getClangToolchainPath_eq. reduce_state. rewrite Hc.
  eexists. split; [reflexivity | close_log].
Qed.

Lemma compile_no_compiler (b : Builder) (src out std clang : string) :
  present (status0 h) src = true ->
  firstExistingIn (status0 h) (bundledCandidates h cfg) = Returned clang ->
  Str.empty (chosenCompiler h b clang) = true ->
  exists r s',
    run h (compileModule h cfg src out std) b = (Returned r, s') /\
    success r = false /\
    stderr r = "No C++ compiler found. Please install clang++, g++, or c++." /\
    compileCommand r = compilerPath b ++ " (not found)" /\
    log s' = (resolutionLog h b clang ++ said b "ERROR: No C++ compiler found")%list.
Proof.
  intros Hsrc Hc He. unfold run, compileModule, compileModuleBy, resolutionLog, chosenCompiler in *. run_monad.
  rewrite fs_exists_present by exact Hsrc. reduce_state.
  rewrite report_eq. reduce_state.
  rewrite getClangToolchainPath_eq. reduce_state. rewrite Hc.
  destruct (Str.empty clang) eqn:Ecl; reduce_state.
  - probe_step. rewrite He. reduce_state. rewrite report_eq. reduce_state.
    do 2 eexists. repeat split; try close_log.
  - rewrite report_eq. reduce_state.
    unfold resolved in He. destruct (absolute h clang) as [a|]; reduce_state;
      rewrite He; reduce_state; rewrite report_eq; reduce_state;
      do 2 eexists; repeat split; try close_log.
Qed.

Lemma buildCompileCommand_ext (b1 b2 : Builder) (src out std : string) :
  compilerPath b1 = compilerPath b2 ->
  oopencalDir b1 = oopencalDir b2 ->
  projectRootPath b1 = projectRootPath b2 ->
  buildCompileCommand h cfg b1 src out std = buildCompileCommand h cfg b2 src out std.
Proof. unfold buildCompileCommand. intros -> -> ->. reflexivity. Qed.

Ltac tail_steps command out :=
  match goal with
  | |- context [executeCommand h command ?a ?c ?s0] =>
      let s1 := fresh "s" in
      let F := fresh "F" in let P := fresh "P" in let C := fresh "C" in let L := fresh "L" in
      let Ez := fresh "Ez" in let Eo := fresh "Eo" in
      destruct (executeCommand_run command s0) as (s1 & -> & F & P & C & L);
      cbn in F, P, C, L; reduce_state;
      destruct (exitStatusOf (spawn h command) =? 0)%Z eqn:Ez;
      [ apply Z.eqb_eq in Ez; unfold moduleExists; run_monad;
        rewrite fs_exists_eq; reduce_state; rewrite F;
        destruct (fsAfter (spawn h command) (status0 h) out) eqn:Eo; reduce_state;
        try rewrite fs_is_regular_file_eq; reduce_state; rewrite ?F, ?Eo;
        do 2 eexists; (split; [reflexivity|]); reduce_result;
        (split; [rewrite L; close_log|]);
        repeat split; auto; try discriminate; intros [_ ?]; discriminate
      | apply Z.eqb_neq in Ez; do 2 eexists; (split; [reflexivity|]); reduce_result;
        (split; [rewrite L; close_log|]);
        repeat split; auto; try discriminate; intros [? _]; contradiction ]
  end.

Lemma compile_launched (b : Builder) (src out std clang : string) :
  present (status0 h) src = true ->
  firstExistingIn (status0 h) (bundledCandidates h cfg) = Returned clang ->
  Str.empty (chosenCompiler h b clang) = false ->
  let command :=
    buildCompileCommand h cfg (withCompilerPath (chosenCompiler h b clang) b) src out std in
  let pr := spawn h command in
  exists o s',
    run h (compileModule h cfg src out std) b = (o, s') /\
    log s' = (resolutionLog h b clang ++ launchLog h b command)%list /\
    fsys s' = fsAfter pr (status0 h) /\
    compilerPath (self s') = chosenCompiler h b clang /\
    match o with
    | Returned r =>
        exitCode r = exitStatusOf pr /\
        (success r = true <-> exitStatusOf pr = 0 /\ fsAfter pr (status0 h) out = ft_regular)
    | Thrown _ => exitStatusOf pr = 0 /\ fsAfter pr (status0 h) out = ft_none
    end.
Proof.
  intros Hsrc Hc He command pr.
  assert (Hlaunch : forall b0 : Builder,
    compilerPath b0 = chosenCompiler h b clang ->
    oopencalDir b0 = oopencalDir b ->
    projectRootPath b0 = projectRootPath b ->
    buildCompileCommand h cfg b0 src out std = command).
  { intros b0 A B C. apply buildCompileCommand_ext; cbn; assumption. }
  clearbody command. subst pr.
  unfold run, compileModule, compileModuleBy, resolutionLog, launchLog, chosenCompiler in *. run_monad.
  rewrite fs_exists_present by exact Hsrc. reduce_state.
  rewrite report_eq. reduce_state.
  rewrite getClangToolchainPath_eq. reduce_state. rewrite Hc.
  destruct (Str.empty clang) eqn:Ecl; reduce_state.
  - probe_step. rewrite He. reduce_state. repeat (rewrite report_eq; reduce_result).
    rewrite Hlaunch by reflexivity. repeat (rewrite report_eq; reduce_result).
    tail_steps command out.
  - rewrite report_eq. reduce_state.
    unfold resolved in *. destruct (absolute h clang) as [a|]; reduce_state;
      rewrite He; reduce_state; repeat (rewrite report_eq; reduce_result);
      rewrite Hlaunch by reflexivity; repeat (rewrite report_eq; reduce_result);
      tail_steps command out.
Qed.


(** Every call of [compileModule] takes one of the five paths. *)
Lemma compileModule_compiled (b : Builder) (src out std : string) :
  compiled h cfg b src out std
    (compileOutcome h cfg b src out std)
    (snd (run h (compileModule h cfg src out std) b)).
Proof.
  unfold compileOutcome.
  assert (Hp : status0 h src <> ft_none -> status0 h src <> ft_not_found ->
               present (status0 h) src = true).
  { unfold present. destruct (status0 h src); congruence. }
  destruct (status0 h src) eqn:Es;
    [ destruct (compile_source_error b src out std Es) as (w & s' & -> & L);
      now apply SourceStatusFails
    | destruct (compile_source_missing b src out std Es) as (s' & -> & L & C);
      now apply SourceMissing
    | | | ].
  all: specialize (Hp ltac:(discriminate) ltac:(discriminate)).
  all: destruct (firstExistingIn (status0 h) (bundledCandidates h cfg)) as [clang|w] eqn:Ec;
    [ destruct (Str.empty (chosenCompiler h b clang)) eqn:Ee;
      [ destruct (compile_no_compiler b src out std clang Hp Ec Ee)
          as (r & s' & -> & A & B & C & D);
        now apply (NoCompiler h cfg b src out std clang)
      | destruct (compile_launched b src out std clang Hp Ec Ee)
          as (o & s' & -> & A & B & C & D);
        now apply (Launched h cfg b src out std clang) ]
    | destruct (compile_resolution_error b src out std w Hp Ec) as (s' & -> & L);
      now apply CandidateStatusFails ].
Qed.


(** *** What the logs contain *)

Lemma said_only (b : Builder) (msg : string) (e : event) :
  In e (said b msg) -> e = Progress msg.
Proof. unfold said. destruct (progressCallback b); cbn; intuition. Qed.

Lemma resolutionLog_launch (b : Builder) (clang command : string) :
  ~ In (Launch command) (resolutionLog h b clang).
Proof.
  unfold resolutionLog. intros H. apply in_app_or in H. destruct H as [H|H].
  - apply said_only in H. discriminate.
  - destruct (Str.empty clang).
    + apply in_map_iff in H. destruct H as (x & Hx & _). discriminate.
    + apply said_only in H. discriminate.
Qed.

Lemma resolutionLog_probe (b : Builder) (clang q : string) :
  In (Probe q) (resolutionLog h b clang) ->
  Str.empty clang = true /\
  exists name, In name (probed h (compilerPath b)) /\ q = probeCommand name.
Proof.
  unfold resolutionLog. intros H. apply in_app_or in H. destruct H as [H|H].
  - apply said_only in H. discriminate.
  - destruct (Str.empty clang).
    + split; [reflexivity|]. apply in_map_iff in H. destruct H as (x & Hx & Hin).
      injection Hx as <-. apply in_map_iff in Hin. destruct Hin as (name & <- & Hn).
      now exists name.
    + apply said_only in H. discriminate.
Qed.

Lemma launchLog_launch (b : Builder) (command c : string) :
  In (Launch c) (launchLog h b command) -> c = command.
Proof.
  unfold launchLog. intros H.
  apply in_app_or in H. destruct H as [H|H]; [apply said_only in H; discriminate|].
  apply in_app_or in H. destruct H as [H|H]; [apply said_only in H; discriminate|].
  destruct H as [H|H]; [now injection H|].
  apply in_map_iff in H. destruct H as (x & Hx & _). discriminate.
Qed.

Lemma launchLog_has_launch (b : Builder) (command : string) :
  In (Launch command) (launchLog h b command).
Proof. unfold launchLog. apply in_or_app. right. apply in_or_app. right. now left. Qed.

Lemma launchLog_probe (b : Builder) (command q : string) :
  ~ In (Probe q) (launchLog h b command).
Proof.
  unfold launchLog. intros H.
  apply in_app_or in H. destruct H as [H|H]; [apply said_only in H; discriminate|].
  apply in_app_or in H. destruct H as [H|H]; [apply said_only in H; discriminate|].
  destruct H as [H|H]; [discriminate|].
  apply in_map_iff in H. destruct H as (x & Hx & _). discriminate.
Qed.

Lemma probedAmong_subset (pref : string) (cands : list string) (name : string) :
  In name (probedAmong h pref cands) -> In name cands.
Proof.
  induction cands as [|c rest IH]; cbn [probedAmong]; [tauto|].
  destruct (String.eqb c pref); [intros H; right; auto|].
  destruct (probeOk h c); cbn; intuition.
Qed.

Lemma probed_subset (pref name : string) :
  In name (probed h pref) -> In name (pref :: fallbacks).
Proof.
  unfold probed. destruct (probeOk h pref).
  - cbn. tauto.
  - intros [H|H]; [now left | right; eapply probedAmong_subset; eauto].
Qed.

(** *** What [firstExistingIn] finds *)

Lemma firstExistingIn_found (fs : FileSystem) (paths : list string) (c : string) :
  firstExistingIn fs paths = Returned c -> Str.empty c = false ->
  In c paths /\ present fs c = true.
Proof.
  induction paths as [|p rest IH]; cbn [firstExistingIn]; intros H Hne.
  - injection H as <-. discriminate.
  - unfold present. destruct (fs p) eqn:E; try discriminate;
      try (injection H as <-; rewrite E; split; [now left | reflexivity]).
    destruct (IH H Hne) as [A B]. split; [now right | exact B].
Qed.

Lemma firstExistingIn_none (fs : FileSystem) (paths : list string) (c : string) :
  firstExistingIn fs paths = Returned c -> Str.empty c = true ->
  (forall p, In p paths -> Str.empty p = false) ->
  forall p, In p paths -> fs p = ft_not_found.
Proof.
  induction paths as [|p rest IH]; cbn [firstExistingIn]; intros H He Hne q Hq.
  - destruct Hq.
  - assert (Hp : Str.empty p = false) by (apply Hne; now left).
    destruct (fs p) eqn:E; try discriminate;
      try (injection H as <-; congruence).
    destruct Hq as [<-|Hq]; [exact E|].
    apply IH; auto. intros x Hx. apply Hne. now right.
Qed.

Lemma bundledCandidates_nonempty (p : string) :
  In p (bundledCandidates h cfg) -> Str.empty p = false.
Proof.
  unfold bundledCandidates, clangCandidate, appImagePaths. intros H.
  repeat (apply in_app_or in H; destruct H as [H|H]).
  - destruct (getenv h "CLANG_TOOLCHAIN_PATH") as [[|a d]|]; cbn in H; try tauto.
    destruct H as [<-|[]]. reflexivity.
  - destruct (CLANG_TOOLCHAIN_PATH cfg) as [[|a d]|]; cbn in H; try tauto.
    destruct H as [<-|[]]. reflexivity.
  - cbn in H. repeat (destruct H as [<-|H]; [reflexivity|]). destruct H.
Qed.


Lemma filter_isProbe_said (b : Builder) (msg : string) : filter isProbe (said b msg) = [].
Proof. unfold said. now destruct (progressCallback b). Qed.

Lemma filter_isProbe_probes (names : list string) :
  filter isProbe (map Probe names) = map Probe names.
Proof. induction names as [|n rest IH]; cbn; [reflexivity | now rewrite IH]. Qed.

Lemma filter_isProbe_progress (msgs : list string) :
  filter isProbe (map Progress msgs) = [].
Proof. induction msgs as [|n rest IH]; cbn; [reflexivity | exact IH]. Qed.

Lemma filter_isProbe_launchLog (b : Builder) (command : string) :
  filter isProbe (launchLog h b command) = [].
Proof.
  unfold launchLog. rewrite !filter_app, !filter_isProbe_said. cbn.
  apply filter_isProbe_progress.
Qed.

Ltac path_of b src out std :=
  let P := fresh "P" in
  pose proof (compileModule_compiled b src out std) as P;
  unfold compileLog, compileFs in *;
  set (s' := snd (run h (compileModule h cfg src out std) b)) in *;
  clearbody s'.

(** C1. For every compilation attempt that reaches process execution, the
    returned result carries the exit code of the child, and has
    [success = true] exactly when that exit code is 0 and the output file is
    a regular file on disk after the call. *)
Theorem compileModule_success_iff (b : Builder) (src out std : string)
    (r : CompilationResult) (command : string) :
  compileOutcome h cfg b src out std = Returned r ->
  In (Launch command) (compileLog h cfg b src out std) ->
  exitCode r = exitStatusOf (spawn h command) /\
  (success r = true <->
   exitStatusOf (spawn h command) = 0 /\
   compileFs h cfg b src out std out = ft_regular).
Proof.
  intros Ho Hin. path_of b src out std. rewrite Ho in P.
  inversion P as [ | s1 Es L C | | clang r1 s1 Hp Ec Ee A B D L
                 | clang o s1 Hp Ec Ee command' pr L F C T ]; subst.
  - rewrite L in Hin. destruct Hin.
  - rewrite L in Hin. apply in_app_or in Hin. destruct Hin as [Hin|Hin].
    + now apply resolutionLog_launch in Hin.
    + apply said_only in Hin. discriminate.
  - rewrite L in Hin. apply in_app_or in Hin. destruct Hin as [Hin|Hin];
      [now apply resolutionLog_launch in Hin|].
    apply launchLog_launch in Hin. subst command.
    destruct T as [Tc Ts]. rewrite F. split; [exact Tc | exact Ts].
Qed.

(** C2. When the source file does not exist, [compileModule] returns a
    failed result that names the missing file, and nothing was observed on
    the way: no probe, no process, no progress message, and the compile
    command and the compiler path are as they were. *)
Theorem compileModule_missing_source (b : Builder) (src out std : string) :
  status0 h src = ft_not_found ->
  exists r,
    compileOutcome h cfg b src out std = Returned r /\
    success r = false /\
    stderr r = "Source file does not exist: " ++ src /\
    sourceFile r = src /\ outputFile r = out /\
    compileCommand r = compileCommand (resultDefaults cfg) /\
    compileLog h cfg b src out std = [].
Proof.
  intros Es. unfold compileOutcome, compileLog.
  destruct (compile_source_missing b src out std Es) as (s' & -> & L & C).
  eexists. split; [reflexivity|]. cbn. repeat split. exact L.
Qed.

Lemma bundledLocations_eq : bundledCandidates h cfg = bundledLocations h cfg.
Proof. reflexivity. Qed.

Lemma firstExistingIn_first (fs : FileSystem) (before after : list string) (c : string) :
  Forall (fun p => fs p = ft_not_found) before ->
  present fs c = true ->
  firstExistingIn fs (before ++ c :: after) = Returned c.
Proof.
  intros Hb Hc. induction Hb as [|p rest Hp _ IH]; cbn [app firstExistingIn].
  - unfold present in Hc. destruct (fs c); try discriminate; reflexivity.
  - now rewrite Hp.
Qed.

(** C3. A bundled compiler that is supplied and exists is selected and
    never probed.  The places are the compiler under the directory of the
    environment variable, the compiler under the directory of the compile
    definition, and the four fixed paths, in this order.  For the first of
    them that exists, every one before it being absent,
    [getClangToolchainPath] returns it; a call whose source file exists then
    goes on with its absolute path and, [fs::absolute] giving a path that is
    not empty, the builder keeps that path and the child process runs the
    command built for it, while no compiler is probed.  Whenever some place holds a compiler no probe happens and a
    process that is launched runs the command of the first that exists.  A
    probe happens only when every place is empty, and then it is the version
    query of the preferred compiler or of a fallback. *)
Theorem bundled_toolchain_used_without_probe (b : Builder) (src out std : string) :
  (forall clang before after,
     bundledLocations h cfg = (before ++ clang :: after)%list ->
     Forall (fun c => status0 h c = ft_not_found) before ->
     present (status0 h) clang = true ->
     (forall s, fsys s = status0 h ->
                getClangToolchainPath h cfg s = (Returned clang, s)) /\
     (present (status0 h) src = true ->
      Str.empty (resolved h clang) = false ->
      compilerPath (builderAfter h cfg b src out std) = resolved h clang /\
      In (Launch (buildCompileCommand h cfg
                    (withCompilerPath (resolved h clang) b) src out std))
         (compileLog h cfg b src out std) /\
      forall q, ~ In (Probe q) (compileLog h cfg b src out std)))
  /\
  ((exists c, In c (bundledLocations h cfg) /\ present (status0 h) c = true) ->
   (forall q, ~ In (Probe q) (compileLog h cfg b src out std)) /\
   (forall command, In (Launch command) (compileLog h cfg b src out std) ->
      exists clang,
        firstExistingIn (status0 h) (bundledLocations h cfg) = Returned clang /\
        In clang (bundledLocations h cfg) /\ present (status0 h) clang = true /\
        command =
          buildCompileCommand h cfg (withCompilerPath (resolved h clang) b) src out std))
  /\
  (forall q, In (Probe q) (compileLog h cfg b src out std) ->
     (forall c, In c (bundledLocations h cfg) -> status0 h c = ft_not_found) /\
     exists name, In name (compilerPath b :: fallbacks) /\ q = probeCommand name).
Proof.
  rewrite <- bundledLocations_eq.
  assert (Hprobe : forall q, In (Probe q) (compileLog h cfg b src out std) ->
            exists clang,
              firstExistingIn (status0 h) (bundledCandidates h cfg) = Returned clang /\
              Str.empty clang = true /\
              exists name, In name (probed h (compilerPath b)) /\ q = probeCommand name).
  { intros q Hin. path_of b src out std.
    inversion P as [ w s1 Es L | s1 Es L C | w s1 Hp Ec L | clang r1 s1 Hp Ec Ee A B D L
                   | clang o s1 Hp Ec Ee command' pr L F C T ]; subst;
      rewrite L in Hin; try (now destruct Hin);
      try (apply said_only in Hin; discriminate).
    - apply in_app_or in Hin. destruct Hin as [Hin|Hin];
        [|apply said_only in Hin; discriminate].
      apply resolutionLog_probe in Hin. destruct Hin as [E N]. now exists clang.
    - apply in_app_or in Hin. destruct Hin as [Hin|Hin];
        [|now apply launchLog_probe in Hin].
      apply resolutionLog_probe in Hin. destruct Hin as [E N]. now exists clang. }
  assert (Hnone : (exists c, In c (bundledCandidates h cfg) /\ present (status0 h) c = true) ->
                  forall q, ~ In (Probe q) (compileLog h cfg b src out std)).
  { intros (c & Hc & Hpres) q Hin. destruct (Hprobe q Hin) as (clang & Ec & Ee & _).
    pose proof (firstExistingIn_none _ _ _ Ec Ee bundledCandidates_nonempty c Hc) as Hnf.
    unfold present in Hpres. rewrite Hnf in Hpres. discriminate. }
  split; [|split].
  - intros clang before after Hl Hb Hpres.
    assert (Ec : firstExistingIn (status0 h) (bundledCandidates h cfg) = Returned clang)
      by (rewrite Hl; now apply firstExistingIn_first).
    assert (Hin : In clang (bundledCandidates h cfg))
      by (rewrite Hl; apply in_or_app; right; now left).
    split.
    + intros s Hs. now rewrite getClangToolchainPath_eq, Hs, Ec.
    + intros Hsrc Hres.
      assert (Ecl : Str.empty clang = false) by now apply bundledCandidates_nonempty.
      split; [|split].
      * unfold builderAfter. path_of b src out std.
        inversion P as [ w s1 Es L | s1 Es L C | w s1 Hp Ec' L
                       | clang' r1 s1 Hp Ec' Ee A B D L
                       | clang' o s1 Hp Ec' Ee command' pr L F C T ]; subst;
          try (unfold present in Hsrc; rewrite Es in Hsrc; discriminate);
          try congruence.
        -- assert (clang' = clang) by congruence. subst clang'.
           unfold chosenCompiler in Ee. rewrite Ecl in Ee. congruence.
        -- assert (clang' = clang) by congruence. subst clang'.
           rewrite C. unfold chosenCompiler. now rewrite Ecl.
      * path_of b src out std.
        inversion P as [ w s1 Es L | s1 Es L C | w s1 Hp Ec' L
                       | clang' r1 s1 Hp Ec' Ee A B D L
                       | clang' o s1 Hp Ec' Ee command' pr L F C T ]; subst;
          try (unfold present in Hsrc; rewrite Es in Hsrc; discriminate);
          try congruence.
        -- assert (clang' = clang) by congruence. subst clang'.
           unfold chosenCompiler in Ee. rewrite Ecl in Ee. congruence.
        -- assert (clang' = clang) by congruence. subst clang'.
           rewrite L. apply in_or_app. right.
           replace (resolved h clang) with (chosenCompiler h b clang)
             by (unfold chosenCompiler; now rewrite Ecl).
           apply launchLog_has_launch.
      * apply Hnone. now exists clang.
  - intros (c & Hc & Hpres). split; [apply Hnone; now exists c|].
    intros command Hin. path_of b src out std.
    inversion P as [ w s1 Es L | s1 Es L C | w s1 Hp Ec L | clang r1 s1 Hp Ec Ee A B D L
                   | clang o s1 Hp Ec Ee command' pr L F C T ]; subst;
      rewrite L in Hin; try (now destruct Hin);
      try (apply said_only in Hin; discriminate).
    + apply in_app_or in Hin. destruct Hin as [Hin|Hin];
        [now apply resolutionLog_launch in Hin | apply said_only in Hin; discriminate].
    + apply in_app_or in Hin. destruct Hin as [Hin|Hin];
        [now apply resolutionLog_launch in Hin|].
      apply launchLog_launch in Hin. subst command.
      destruct (Str.empty clang) eqn:Ecl.
      * pose proof (firstExistingIn_none _ _ _ Ec Ecl bundledCandidates_nonempty c Hc) as Hnf.
        unfold present in Hpres. rewrite Hnf in Hpres. discriminate.
      * destruct (firstExistingIn_found _ _ _ Ec Ecl) as [Hin' Hpr].
        exists clang. repeat split; auto.
        unfold command', chosenCompiler. now rewrite Ecl.
  - intros q Hin. destruct (Hprobe q Hin) as (clang & Ec & Ee & name & Hn & ->). split.
    + apply (firstExistingIn_none _ _ _ Ec Ee bundledCandidates_nonempty).
    + exists name. split; [now apply probed_subset | reflexivity].
Qed.


Lemma firstExistingIn_all_missing (fs : FileSystem) (paths : list string) :
  (forall p, In p paths -> fs p = ft_not_found) ->
  firstExistingIn fs paths = Returned EmptyString.
Proof.
  induction paths as [|p rest IH]; intros H; cbn [firstExistingIn]; [reflexivity|].
  rewrite (H p) by now left. apply IH. intros q Hq. apply H. now right.
Qed.

(** C4. With no bundled toolchain, the preferred compiler is probed first
    with its version query and taken when the probe exits with 0; otherwise
    the fallbacks g++, clang++, c++ are probed in order and the first that
    succeeds is taken; when none succeeds the result is a failure with a
    message saying so, and no process is launched. *)
Theorem system_toolchain_found_by_probing (b : Builder) (src out std : string) :
  present (status0 h) src = true ->
  (forall c, In c (bundledCandidates h cfg) -> status0 h c = ft_not_found) ->
  filter isProbe (compileLog h cfg b src out std) =
    map Probe (map probeCommand (probed h (compilerPath b))) /\
  (exists rest, probed h (compilerPath b) = compilerPath b :: rest) /\
  (probeOk h (compilerPath b) = true ->
     selected h (compilerPath b) = compilerPath b /\
     probed h (compilerPath b) = [ compilerPath b ]) /\
  (probeOk h (compilerPath b) = false ->
     selected h (compilerPath b) =
       match find (probeOk h) [ "g++"; "clang++"; "c++" ] with
       | Some c => c
       | None => EmptyString
       end) /\
  (Str.empty (selected h (compilerPath b)) = false ->
     In (Launch (buildCompileCommand h cfg
                   (withCompilerPath (selected h (compilerPath b)) b) src out std))
        (compileLog h cfg b src out std)) /\
  (find (probeOk h) (compilerPath b :: fallbacks) = None ->
     exists r,
       compileOutcome h cfg b src out std = Returned r /\
       success r = false /\
       stderr r = "No C++ compiler found. Please install clang++, g++, or c++." /\
       compileCommand r = compilerPath b ++ " (not found)" /\
       forall command, ~ In (Launch command) (compileLog h cfg b src out std)).
Proof.
  intros Hsrc Hnone.
  pose proof (firstExistingIn_all_missing _ _ Hnone) as Ec0.
  assert (Hpath :
    (Str.empty (selected h (compilerPath b)) = true /\
     exists r, compileOutcome h cfg b src out std = Returned r /\ success r = false /\
       stderr r = "No C++ compiler found. Please install clang++, g++, or c++." /\
       compileCommand r = compilerPath b ++ " (not found)" /\
       compileLog h cfg b src out std =
         (resolutionLog h b EmptyString ++ said b "ERROR: No C++ compiler found")%list)
    \/
    (Str.empty (selected h (compilerPath b)) = false /\
     compileLog h cfg b src out std =
       (resolutionLog h b EmptyString ++
        launchLog h b (buildCompileCommand h cfg
                         (withCompilerPath (selected h (compilerPath b)) b) src out std))%list)).
  { path_of b src out std. unfold present in Hsrc.
    inversion P as [ w s1 Es L | s1 Es L C | w s1 Hp Ec L | clang r1 s1 Hp Ec Ee A B D L
                   | clang o s1 Hp Ec Ee command' pr L F C T ]; subst;
      try (rewrite Es in Hsrc; discriminate); try congruence;
      rewrite Ec0 in Ec; injection Ec as <-; unfold chosenCompiler in *;
      cbn [Str.empty] in *.
    - left. split; [exact Ee|]. exists r1. repeat split; auto.
    - right. split; [exact Ee | exact L]. }
  assert (Hprobes : filter isProbe (compileLog h cfg b src out std) =
                    map Probe (map probeCommand (probed h (compilerPath b)))).
  { destruct Hpath as [(_ & r & _ & _ & _ & _ & L) | (_ & L)]; rewrite L;
      unfold resolutionLog; cbn [Str.empty];
      rewrite !filter_app, ?filter_isProbe_said, ?filter_isProbe_launchLog,
              filter_isProbe_probes, ?app_nil_r; reflexivity. }
  split; [exact Hprobes|]. split.
  { unfold probed. destruct (probeOk h (compilerPath b)); eexists; reflexivity. }
  split.
  { intros Hok. unfold selected, probed. cbn [find]. now rewrite Hok. }
  split.
  { intros Hok. unfold selected. cbn [find]. now rewrite Hok. }
  split.
  - intros Hne. destruct Hpath as [(He & _) | (_ & L)]; [congruence|].
    rewrite L. apply in_or_app. right. apply launchLog_has_launch.
  - intros Hfind. destruct Hpath as [(_ & r & Ho & A & B & C & L) | (Hne & _)].
    + exists r. repeat split; auto. intros command Hin. rewrite L in Hin.
      apply in_app_or in Hin. destruct Hin as [Hin|Hin];
        [now apply resolutionLog_launch in Hin | apply said_only in Hin; discriminate].
    + unfold selected in Hne. rewrite Hfind in Hne. discriminate.
Qed.

(** *** Any callback: one that returns, one that throws *)

Lemma bind_ext {A B : Type} (m1 m2 : M A) (k1 k2 : A -> M B) (s : State) :
  m1 s = m2 s ->
  (forall a s', k1 a s' = k2 a s') ->
  bind m1 k1 s = bind m2 k2 s.
Proof.
  intros E Hk. unfold bind. rewrite E.
  destruct (m2 s) as [[a|w] s']; [apply Hk | reflexivity].
Qed.

Lemma try_catch_ext {A : Type} (body1 body2 : M A) (handler : string -> M A) (s : State) :
  body1 s = body2 s -> try_catch body1 handler s = try_catch body2 handler s.
Proof. intros E. unfold try_catch. now rewrite E. Qed.

Lemma deliver_ext (o1 o2 e1 e2 : string -> M unit) (output : list (stream * string)) :
  (forall line s, o1 line s = o2 line s) ->
  (forall line s, e1 line s = e2 line s) ->
  forall s, deliver (Some o1) (Some e1) output s = deliver (Some o2) (Some e2) output s.
Proof.
  intros Ho He. induction output as [|[st line] rest IH]; intros s; [reflexivity|].
  destruct st; cbn [deliver]; (apply bind_ext; [|intros _ s'; apply IH]);
    [apply Ho | apply He].
Qed.

Lemma executeCommand_ext (o1 o2 e1 e2 : string -> M unit) (command : string) (s : State) :
  (forall line s, o1 line s = o2 line s) ->
  (forall line s, e1 line s = e2 line s) ->
  executeCommand h command (Some o1) (Some e1) s =
  executeCommand h command (Some o2) (Some e2) s.
Proof.
  intros Ho He. unfold executeCommand. apply try_catch_ext.
  apply bind_ext; [reflexivity|]. intros _ s'.
  destruct (spawn h command) as [what|output code fs']; [reflexivity|].
  apply bind_ext; [now apply deliver_ext | reflexivity].
Qed.

Lemma compileModuleBy_ext (say1 say2 o1 o2 e1 e2 : string -> M unit)
    (src out std : string) (s : State) :
  (forall msg s, say1 msg s = say2 msg s) ->
  (forall line s, o1 line s = o2 line s) ->
  (forall line s, e1 line s = e2 line s) ->
  compileModuleBy h cfg say1 o1 e1 src out std s =
  compileModuleBy h cfg say2 o2 e2 src out std s.
Proof.
  intros Hs Ho He. unfold compileModuleBy.
  repeat first
    [ reflexivity
    | apply Hs
    | apply executeCommand_ext; [exact Ho | exact He]
    | match goal with
      | |- bind _ _ _ = bind _ _ _ => apply bind_ext; [|intros ? ?]
      | |- (if ?c then _ else _) _ = (if ?c then _ else _) _ => destruct c
      end ].
Qed.

Lemma invoke_returns (throws : string -> option string) (msg : string) (s : State) :
  throws msg = None -> invoke throws msg s = emit (Progress msg) s.
Proof. intros E. unfold invoke, bind. now rewrite E. Qed.

Lemma returning_callback (throws : string -> option string) (src out std : string)
    (s : State) :
  (forall msg, throws msg = None) ->
  compileModuleWith h cfg throws src out std s = compileModule h cfg src out std s.
Proof.
  intros Hn. unfold compileModuleWith, compileModule. apply compileModuleBy_ext.
  - intros msg s'. unfold reportWith, report. apply bind_ext; [reflexivity|].
    intros a s''. destruct (progressCallback (self a)); [now apply invoke_returns | reflexivity].
  - intros line s'. unfold onStdoutWith, onStdout.
    apply bind_ext; [reflexivity|]. intros _ s1. apply bind_ext; [reflexivity|]. intros a s2.
    destruct (progressCallback (self a) && negb (Str.empty line))%bool; [|reflexivity].
    apply bind_ext; [reflexivity|]. intros _ s3.
    destruct (Z.rem (lineCount a + 1) 5 =? 0)%Z; [now apply invoke_returns | reflexivity].
  - intros line s'. unfold onStderrWith, onStderr.
    apply bind_ext; [reflexivity|]. intros _ s1. apply bind_ext; [reflexivity|]. intros a s2.
    destruct (progressCallback (self a) && negb (Str.empty line))%bool;
      [now apply invoke_returns | reflexivity].
Qed.

Lemma returning_callback_run (throws : string -> option string) (b : Builder)
    (src out std : string) :
  (forall msg, throws msg = None) ->
  compileOutcomeWith h cfg throws b src out std = compileOutcome h cfg b src out std /\
  compileLogWith h cfg throws b src out std = compileLog h cfg b src out std /\
  compileFsWith h cfg throws b src out std = compileFs h cfg b src out std.
Proof.
  intros Hn.
  unfold compileOutcomeWith, compileLogWith, compileFsWith, compileOutcome, compileLog,
    compileFs, run.
  now rewrite (returning_callback throws src out std _ Hn).
Qed.

Lemma throwing_callback_run (throws : string -> option string) (b : Builder)
    (src out std what : string) :
  present (status0 h) src = true ->
  progressCallback b = true ->
  throws "Checking C++ compiler availability..." = Some what ->
  compileOutcomeWith h cfg throws b src out std = Thrown what /\
  compileLogWith h cfg throws b src out std =
    [ Progress "Checking C++ compiler availability..." ] /\
  compileFsWith h cfg throws b src out std = status0 h.
Proof.
  intros Hsrc Hcb Ht.
  unfold compileOutcomeWith, compileLogWith, compileFsWith, run, compileModuleWith,
    compileModuleBy.
  run_monad. rewrite fs_exists_present by exact Hsrc. reduce_state.
  unfold reportWith, invoke. run_monad. rewrite Hcb, Ht. cbn. auto.
Qed.



(** *** The messages of one run of the child *)

Lemma batchCounts_step (n : Z) (k : nat) :
  batchCounts n (S k) =
  ((if (Z.rem (n + 1) 5 =? 0)%Z then [ n + 1 ] else []) ++ batchCounts (n + 1) k)%list.
Proof.
  unfold batchCounts. cbn [seq map filter].
  replace (n + Z.of_nat 1) with (n + 1) by lia.
  rewrite <- seq_shift, map_map.
  rewrite (map_ext (fun i => n + Z.of_nat (S i)) (fun i => n + 1 + Z.of_nat i))
    by (intros; lia).
  destruct (Z.rem (n + 1) 5 =? 0)%Z; reflexivity.
Qed.

Lemma rem5_of_nat (k : nat) : Z.rem (0 + Z.of_nat (1 + k)) 5 = Z.of_nat (S k mod 5).
Proof.
  replace (0 + Z.of_nat (1 + k)) with (Z.of_nat (S k)) by lia.
  rewrite Z.rem_mod_nonneg by lia.
  change 5 with (Z.of_nat 5). rewrite <- Nat2Z.inj_mod. reflexivity.
Qed.

Lemma batchCounts_zero (k : nat) :
  batchCounts 0 k = map (fun i => 5 * Z.of_nat i) (seq 1 (k / 5)).
Proof.
  unfold batchCounts. induction k as [|k IH]; [reflexivity|].
  rewrite seq_S, map_app, filter_app, IH. cbn [map filter]. clear IH.
  pose proof (Nat.div_mod_eq (S k) 5) as D1.
  pose proof (Nat.mod_upper_bound (S k) 5 ltac:(lia)) as U1.
  pose proof (Nat.div_mod_eq k 5) as D0.
  pose proof (Nat.mod_upper_bound k 5 ltac:(lia)) as U0.
  destruct (Z.rem (0 + Z.of_nat (1 + k)) 5 =? 0)%Z eqn:E.
  - apply Z.eqb_eq in E. rewrite rem5_of_nat in E.
    assert (Hq : (S k / 5 = S (k / 5))%nat) by lia.
    rewrite Hq, seq_S, map_app. cbn [map]. do 2 f_equal. lia.
  - apply Z.eqb_neq in E. rewrite rem5_of_nat in E.
    assert (Hq : (S k / 5 = k / 5)%nat) by lia.
    rewrite Hq. apply app_nil_r.
Qed.

Lemma prefix_batch (n : Z) :
  prefix "Compiling... (" (batchMessage n) = true /\ prefix "Error: " (batchMessage n) = false.
Proof. split; [apply StrFacts.prefix_append | reflexivity]. Qed.

Lemma prefix_error (line : string) :
  prefix "Error: " (errorMessage line) = true /\
  prefix "Compiling... (" (errorMessage line) = false.
Proof. split; [apply StrFacts.prefix_append | reflexivity]. Qed.

Lemma emitted_batches (output : list (stream * string)) (n : Z) :
  filter (prefix "Compiling... (") (emitted n output) =
  map batchMessage (batchCounts n (List.length (nonEmptyLines Stdout output))).
Proof.
  revert n. induction output as [|[st line] rest IH]; intros n; [reflexivity|].
  destruct st; cbn [emitted nonEmptyLines sameStream andb];
    destruct (Str.empty line); cbn [negb]; try apply IH.
  cbn [List.length]. rewrite batchCounts_step.
  destruct (Z.rem (n + 1) 5 =? 0)%Z; cbn [filter app map].
  - destruct (prefix_batch (n + 1)) as [-> _]. now rewrite IH.
  - apply IH.
Qed.

Lemma emitted_errors (output : list (stream * string)) (n : Z) :
  filter (prefix "Error: ") (emitted n output) =
  map errorMessage (nonEmptyLines Stderr output).
Proof.
  revert n. induction output as [|[st line] rest IH]; intros n; [reflexivity|].
  destruct st; cbn [emitted nonEmptyLines sameStream andb];
    destruct (Str.empty line); cbn [negb]; try apply IH.
  - destruct (Z.rem (n + 1) 5 =? 0)%Z; apply IH.
  - cbn [filter map]. destruct (prefix_error line) as [-> _]. now rewrite IH.
Qed.

Lemma emitted_length (output : list (stream * string)) (n : Z) :
  List.length (emitted n output) =
  (List.length (batchCounts n (List.length (nonEmptyLines Stdout output))) +
   List.length (nonEmptyLines Stderr output))%nat.
Proof.
  revert n. induction output as [|[st line] rest IH]; intros n; [reflexivity|].
  destruct st; cbn [emitted nonEmptyLines sameStream andb];
    destruct (Str.empty line); cbn [negb]; try apply IH.
  - cbn [List.length]. rewrite batchCounts_step.
    destruct (Z.rem (n + 1) 5 =? 0)%Z; cbn [app List.length]; rewrite IH; reflexivity.
  - cbn [List.length]. rewrite IH. lia.
Qed.

(** C7 (amended). With a callback installed, everything the callback
    receives from the launch on is a batch message or an error message: the
    batch messages are those for the counts 5, 10, ... up to the number of
    non-empty stdout pieces, one per 5 pieces, and every non-empty stderr
    piece gives its own error message, in arrival order, whatever the state
    of the batching.  Nothing follows them: no summary is sent to the
    callback. *)
Theorem progress_is_throttled (b : Builder) (src out std command : string)
    (output : list (stream * string)) (code : Z) (fs' : FileSystem) :
  progressCallback b = true ->
  In (Launch command) (compileLog h cfg b src out std) ->
  spawn h command = Ran output code fs' ->
  exists before msgs,
    compileLog h cfg b src out std = (before ++ Launch command :: map Progress msgs)%list /\
    filter (prefix "Compiling... (") msgs =
      map (fun k => batchMessage (5 * Z.of_nat k))
          (seq 1 (List.length (nonEmptyLines Stdout output) / 5)) /\
    filter (prefix "Error: ") msgs = map errorMessage (nonEmptyLines Stderr output) /\
    List.length msgs =
      (List.length (nonEmptyLines Stdout output) / 5 + List.length (nonEmptyLines Stderr output))%nat /\
    (forall s line,
       progressCallback (self s) = true -> Str.empty line = false ->
       log (snd (onStderr line s)) = (log s ++ [ Progress (errorMessage line) ])%list /\
       lineCount (snd (onStderr line s)) = lineCount s) /\
    (forall s line,
       progressCallback (self s) = true -> Str.empty line = false ->
       lineCount (snd (onStdout line s)) = lineCount s + 1 /\
       log (snd (onStdout line s)) =
         (log s ++ (if (Z.rem (lineCount s + 1) 5 =? 0)%Z
                    then [ Progress (batchMessage (lineCount s + 1)) ] else []))%list).
Proof.
  intros Hcb Hin Hrun. path_of b src out std.
  assert (Hone : (forall s line,
       progressCallback (self s) = true -> Str.empty line = false ->
       log (snd (onStderr line s)) = (log s ++ [ Progress (errorMessage line) ])%list /\
       lineCount (snd (onStderr line s)) = lineCount s) /\
    (forall s line,
       progressCallback (self s) = true -> Str.empty line = false ->
       lineCount (snd (onStdout line s)) = lineCount s + 1 /\
       log (snd (onStdout line s)) =
         (log s ++ (if (Z.rem (lineCount s + 1) 5 =? 0)%Z
                    then [ Progress (batchMessage (lineCount s + 1)) ] else []))%list)).
  { split; intros s line Hs Hl.
    - unfold onStderr. run_monad. rewrite Hs, Hl. split; reflexivity.
    - unfold onStdout. run_monad. rewrite Hs, Hl. reduce_state.
      destruct (Z.rem (lineCount s + 1) 5 =? 0)%Z; cbn [snd lineCount log];
        rewrite ?app_nil_r; split; reflexivity. }
  inversion P as [ w s1 Es L | s1 Es L C | w s1 Hp Ec L | clang r1 s1 Hp Ec Ee A B D L
                 | clang o s1 Hp Ec Ee command' pr L F C T ]; subst;
    rewrite L in Hin; try (now destruct Hin);
    try (apply said_only in Hin; discriminate).
  - apply in_app_or in Hin. destruct Hin as [Hin|Hin];
      [now apply resolutionLog_launch in Hin | apply said_only in Hin; discriminate].
  - apply in_app_or in Hin. destruct Hin as [Hin|Hin];
      [now apply resolutionLog_launch in Hin|].
    apply launchLog_launch in Hin. subst command. subst command'.
    rewrite L. unfold launchLog. rewrite Hcb, Hrun. cbn [outputOf].
    eexists (resolutionLog h b clang ++ said b _ ++ said b _)%list, _.
    split; [rewrite <- !app_assoc; reflexivity|].
    rewrite emitted_batches, emitted_errors, emitted_length, batchCounts_zero.
    rewrite map_map, ?length_map, length_seq. auto.
Qed.

(** C10. Whether a compiler counts as bundled is decided by its path alone:
    the command is the isolated one, with the library-path prefix, the
    isolation flags and the sysroot directories, when the path contains
    [.mount_] or [/tmp/], and the plain one otherwise.  So every compiler
    under [/tmp/] is treated as bundled, and a bundled clang announced by
    the environment variable whose absolute path has neither substring is
    run with the plain command. *)
Theorem bundled_means_path_contains_marker (b : Builder) (src out std : string) :
  buildCompileCommand h cfg b src out std =
    (if fromAppImage (compilerPath b)
     then isolatedCommand h cfg b src out std
     else plainCommand h cfg b src out std) /\
  (fromAppImage (compilerPath b) = true <->
     (exists pre post, compilerPath b = pre ++ ".mount_" ++ post) \/
     (exists pre post, compilerPath b = pre ++ "/tmp/" ++ post)) /\
  (forall rest, fromAppImage ("/tmp/" ++ rest) = true) /\
  (forall dir command,
     getenv h "CLANG_TOOLCHAIN_PATH" = Some dir ->
     Str.empty dir = false ->
     present (status0 h) (dir ++ "/clang++") = true ->
     fromAppImage (resolved h (dir ++ "/clang++")) = false ->
     In (Launch command) (compileLog h cfg b src out std) ->
     (forall q, ~ In (Probe q) (compileLog h cfg b src out std)) /\
     command =
       plainCommand h cfg (withCompilerPath (resolved h (dir ++ "/clang++")) b) src out std).
Proof.
  split; [apply buildCompileCommand_shape|].
  split; [apply fromAppImage_iff|].
  split; [intros rest; apply fromAppImage_iff; right; now exists EmptyString, rest|].
  intros dir command Henv Hdir Hpres Hplain Hin.
  assert (Ec0 : firstExistingIn (status0 h) (bundledCandidates h cfg) =
                Returned (dir ++ "/clang++")).
  { unfold bundledCandidates, clangCandidate. rewrite Henv, Hdir.
    cbn [app firstExistingIn]. unfold present in Hpres.
    destruct (status0 h (dir ++ "/clang++")); try discriminate; reflexivity. }
  assert (Hne : Str.empty (dir ++ "/clang++") = false).
  { destruct dir; [discriminate | reflexivity]. }
  path_of b src out std.
  inversion P as [ w s1 Es L | s1 Es L C | w s1 Hp Ec L | clang r1 s1 Hp Ec Ee A B D L
                 | clang o s1 Hp Ec Ee command' pr L F C T ]; subst;
    rewrite L in Hin |- *; try (now destruct Hin);
    try (apply said_only in Hin; discriminate).
  - apply in_app_or in Hin. destruct Hin as [Hin|Hin];
      [now apply resolutionLog_launch in Hin | apply said_only in Hin; discriminate].
  - rewrite Ec0 in Ec. injection Ec as <-.
    apply in_app_or in Hin. destruct Hin as [Hin|Hin];
      [now apply resolutionLog_launch in Hin|].
    apply launchLog_launch in Hin. subst command. split.
    + intros q Hq. apply in_app_or in Hq. destruct Hq as [Hq|Hq];
        [|now apply launchLog_probe in Hq].
      apply resolutionLog_probe in Hq. destruct Hq as [E _]. congruence.
    + subst command'. unfold chosenCompiler. rewrite Hne.
      apply buildCompileCommand_plain. exact Hplain.
Qed.

(** *** The result in closed form *)

Lemma deliver_text (output : list (stream * string)) (s : State) :
  exists s',
    deliver (Some onStdout) (Some onStderr) output s = (Returned tt, s') /\
    fsys s' = fsys s /\
    compilerPath (self s') = compilerPath (self s) /\
    oopencalDir (self s') = oopencalDir (self s) /\
    projectRootPath (self s') = projectRootPath (self s) /\
    progressCallback (self s') = progressCallback (self s) /\
    lastResult (self s') =
      set_stderr (stderr (lastResult (self s)) ++ captured Stderr output)
        (set_stdout (stdout (lastResult (self s)) ++ captured Stdout output)
           (lastResult (self s))).
Proof.
  revert s. induction output as [|[st line] rest IH]; intros s.
  - exists s. cbn [deliver captured]. repeat split.
    rewrite !StrFacts.append_nil_r. now destruct (lastResult (self s)).
  - destruct st; cbn [deliver captured sameStream]; unfold bind at 1.
    + unfold onStdout at 1. run_monad.
      destruct (progressCallback (self s)) eqn:Ecb; destruct (Str.empty line) eqn:El;
        cbn [negb andb];
        try destruct (Z.rem (lineCount s + 1) 5 =? 0)%Z;
        match goal with
        | |- context [deliver _ _ rest ?s1] =>
            destruct (IH s1) as (s2 & -> & F & C & O & R & P & L)
        end;
        exists s2; cbn in F, C, O, R, P, L; rewrite F, C, O, R, P, L, ?Ecb;
        repeat split; auto;
        unfold set_stderr, set_stdout; reduce_result; now rewrite !StrFacts.append_assoc.
    + unfold onStderr at 1. run_monad.
      destruct (progressCallback (self s)) eqn:Ecb; destruct (Str.empty line) eqn:El;
        cbn [negb andb];
        match goal with
        | |- context [deliver _ _ rest ?s1] =>
            destruct (IH s1) as (s2 & -> & F & C & O & R & P & L)
        end;
        exists s2; cbn in F, C, O, R, P, L; rewrite F, C, O, R, P, L, ?Ecb;
        repeat split; auto;
        unfold set_stderr, set_stdout; reduce_result; now rewrite !StrFacts.append_assoc.
Qed.

Lemma executeCommand_text (command : string) (s : State) :
  exists s',
    executeCommand h command (Some onStdout) (Some onStderr) s =
      (Returned (exitStatusOf (spawn h command)), s') /\
    fsys s' = fsAfter (spawn h command) (fsys s) /\
    compilerPath (self s') = compilerPath (self s) /\
    oopencalDir (self s') = oopencalDir (self s) /\
    projectRootPath (self s') = projectRootPath (self s) /\
    progressCallback (self s') = progressCallback (self s) /\
    lastResult (self s') =
      set_stderr (stderr (lastResult (self s))
                    ++ captured Stderr (outputOf (spawn h command)))
        (set_stdout (stdout (lastResult (self s))
                       ++ captured Stdout (outputOf (spawn h command)))
           (lastResult (self s))).
Proof.
  unfold executeCommand. run_monad.
  destruct (spawn h command) as [what|output code fs']; cbn [exitStatusOf fsAfter outputOf].
  - eexists. split; [reflexivity|]. cbn [captured]. reduce_state. repeat split.
    rewrite !StrFacts.append_nil_r. now destruct (lastResult (self s)).
  - match goal with
    | |- context [deliver _ _ output ?s1] =>
        destruct (deliver_text output s1) as (s2 & -> & F & C & O & R & P & L)
    end.
    eexists. split; [reflexivity|]. cbn in *. rewrite C, O, R, P, L. auto 10.
Qed.

Ltac finish_run command out :=
  match goal with
  | |- context [executeCommand h command ?a ?c ?s0] =>
      let s1 := fresh "s" in
      let F := fresh "F" in let C := fresh "C" in let O := fresh "O" in
      let R := fresh "R" in let P := fresh "P" in let L := fresh "L" in
      let Ez := fresh "Ez" in let Eo := fresh "Eo" in
      destruct (executeCommand_text command s0) as (s1 & -> & F & C & O & R & P & L);
      cbn in F, C, O, R, P, L; reduce_state;
      destruct (exitStatusOf (spawn h command) =? 0)%Z eqn:Ez;
      [ unfold moduleExists; run_monad;
        rewrite fs_exists_eq; reduce_state; rewrite F;
        destruct (fsAfter (spawn h command) (status0 h) out) eqn:Eo; reduce_state;
        try rewrite fs_is_regular_file_eq; reduce_state; rewrite ?F, ?Eo;
        try reflexivity; rewrite L; reflexivity
      | rewrite L; reflexivity ]
  end.

Ltac fold_command b src out std c :=
  match goal with
  | |- context [buildCompileCommand h cfg ?b0 src out std] =>
      lazymatch b0 with
      | withCompilerPath _ _ => fail
      | _ => rewrite (buildCompileCommand_ext b0 (withCompilerPath c b)) by reflexivity
      end
  end.

Lemma compileOutcome_eq (b : Builder) (src out std : string) :
  compileOutcome h cfg b src out std = expectedOutcome h cfg b src out std.
Proof.
  unfold compileOutcome, expectedOutcome, freshResult, ranResult, run, compileModule,
    compileModuleBy.
  run_monad. rewrite fs_exists_eq. reduce_state.
  destruct (status0 h src) eqn:Es; reduce_state; try reflexivity;
    rewrite report_eq; reduce_state; rewrite getClangToolchainPath_eq; reduce_state;
    (destruct (firstExistingIn (status0 h) (bundledCandidates h cfg)) as [clang|w];
     [|reflexivity]);
    unfold chosenCompiler;
    (destruct (Str.empty clang) eqn:Ecl; reduce_state;
     [ probe_step;
       destruct (Str.empty (selected h (compilerPath b))) eqn:He; reduce_state;
       repeat (rewrite report_eq; reduce_result); [reflexivity|];
       fold_command b src out std (selected h (compilerPath b));
       set (command := buildCompileCommand h cfg _ src out std);
       repeat (rewrite report_eq; reduce_result);
       finish_run command out
     | rewrite report_eq; reduce_state;
       unfold resolved; destruct (absolute h clang) as [a|]; reduce_state;
       [ destruct (Str.empty a) eqn:He; reduce_state;
         repeat (rewrite report_eq; reduce_result); [reflexivity|];
         fold_command b src out std a
       | rewrite Ecl; reduce_state;
         repeat (rewrite report_eq; reduce_result);
         fold_command b src out std clang ];
       set (command := buildCompileCommand h cfg _ src out std);
       repeat (rewrite report_eq; reduce_result);
       finish_run command out ]).
Qed.

Ltac finish_frame command out :=
  match goal with
  | |- context [executeCommand h command ?a ?c ?s0] =>
      let s1 := fresh "s" in
      let F := fresh "F" in let C := fresh "C" in let O := fresh "O" in
      let R := fresh "R" in let P := fresh "P" in let L := fresh "L" in
      let Ez := fresh "Ez" in let Eo := fresh "Eo" in
      destruct (executeCommand_text command s0) as (s1 & -> & F & C & O & R & P & L);
      cbn in F, C, O, R, P, L; reduce_state;
      destruct (exitStatusOf (spawn h command) =? 0)%Z eqn:Ez;
      [ unfold moduleExists; run_monad;
        rewrite fs_exists_eq; reduce_state; rewrite F;
        destruct (fsAfter (spawn h command) (status0 h) out) eqn:Eo; reduce_state;
        try rewrite fs_is_regular_file_eq; reduce_state; rewrite ?F, ?Eo;
        cbn [snd]; reduce_state; rewrite ?F, ?C, ?O, ?R, ?P;
        repeat (split; [reflexivity|]); discriminate
      | cbn [snd]; reduce_state; rewrite ?F, ?C, ?O, ?R, ?P;
        repeat (split; [reflexivity|]); discriminate ]
  end.

Lemma compile_frame (b : Builder) (src out std : string) :
  oopencalDir (builderAfter h cfg b src out std) = oopencalDir b /\
  projectRootPath (builderAfter h cfg b src out std) = projectRootPath b /\
  progressCallback (builderAfter h cfg b src out std) = progressCallback b /\
  compileFs h cfg b src out std =
    match launchedCommand h cfg b src out std with
    | Some command => fsAfter (spawn h command) (status0 h)
    | None => status0 h
    end /\
  (launchedCommand h cfg b src out std = None ->
   compilerPath (builderAfter h cfg b src out std) = compilerPath b).
Proof.
  unfold builderAfter, compileFs, launchedCommand, run, compileModule, compileModuleBy.
  run_monad. rewrite fs_exists_eq. reduce_state.
  destruct (status0 h src) eqn:Es; reduce_state; try (cbn; auto 10; fail);
    rewrite report_eq; reduce_state; rewrite getClangToolchainPath_eq; reduce_state;
    (destruct (firstExistingIn (status0 h) (bundledCandidates h cfg)) as [clang|w];
     [|cbn; destruct (progressCallback b); cbn; auto 10]);
    unfold chosenCompiler;
    (destruct (Str.empty clang) eqn:Ecl; reduce_state;
     [ probe_step;
       destruct (Str.empty (selected h (compilerPath b))) eqn:He; reduce_state;
       repeat (rewrite report_eq; reduce_result);
       [cbn; destruct (progressCallback b); cbn; auto 10|];
       fold_command b src out std (selected h (compilerPath b));
       set (command := buildCompileCommand h cfg _ src out std);
       repeat (rewrite report_eq; reduce_result);
       finish_frame command out
     | rewrite report_eq; reduce_state;
       unfold resolved; destruct (absolute h clang) as [a|]; reduce_state;
       [ destruct (Str.empty a) eqn:He; reduce_state;
         repeat (rewrite report_eq; reduce_result);
         [cbn; destruct (progressCallback b); cbn; auto 10|];
         fold_command b src out std a
       | rewrite Ecl; reduce_state;
         repeat (rewrite report_eq; reduce_result);
         fold_command b src out std clang ];
       set (command := buildCompileCommand h cfg _ src out std);
       repeat (rewrite report_eq; reduce_result);
       finish_frame command out ]).
Qed.

(** *** What the callback cannot change *)

Lemma actions_said (b : Builder) (msg : string) : actions (said b msg) = [].
Proof. unfold actions, said. now destruct (progressCallback b). Qed.

Lemma actions_progress (msgs : list string) : actions (map Progress msgs) = [].
Proof. induction msgs as [|m rest IH]; [reflexivity | exact IH]. Qed.

Lemma actions_probes (names : list string) : actions (map Probe names) = map Probe names.
Proof.
  unfold actions. induction names as [|n rest IH]; cbn; [reflexivity | now rewrite IH].
Qed.

Lemma actions_app (l1 l2 : list event) : actions (l1 ++ l2) = (actions l1 ++ actions l2)%list.
Proof. apply filter_app. Qed.

Lemma actions_resolutionLog (b : Builder) (clang : string) :
  actions (resolutionLog h b clang) =
  if Str.empty clang then map Probe (map probeCommand (probed h (compilerPath b))) else [].
Proof.
  unfold resolutionLog. rewrite actions_app, actions_said.
  destruct (Str.empty clang); [apply actions_probes | apply actions_said].
Qed.

Lemma actions_launchLog (b : Builder) (command : string) :
  actions (launchLog h b command) = [ Launch command ].
Proof.
  unfold launchLog. rewrite !actions_app, !actions_said. cbn [app].
  change (Launch command :: ?l) with ([ Launch command ] ++ l)%list.
  rewrite actions_app, actions_progress. reflexivity.
Qed.

Lemma actions_eq (b : Builder) (src out std : string) :
  actions (compileLog h cfg b src out std) = expectedActions h cfg b src out std.
Proof.
  path_of b src out std. unfold expectedActions.
  inversion P as [ w s1 Es L | s1 Es L C | w s1 Hp Ec L | clang r1 s1 Hp Ec Ee A B D L
                 | clang o s1 Hp Ec Ee command' pr L F C T ]; subst; rewrite L;
    try (rewrite Es; reflexivity);
    unfold present in Hp; destruct (status0 h src); try discriminate; rewrite Ec.
  all: try apply actions_said.
  all: rewrite actions_app, actions_resolutionLog, ?actions_said, ?actions_launchLog, Ee;
    reflexivity.
Qed.

Lemma expectedOutcome_ext (b b' : Builder) (src out std : string) :
  compilerPath b = compilerPath b' ->
  oopencalDir b = oopencalDir b' ->
  projectRootPath b = projectRootPath b' ->
  expectedOutcome h cfg b src out std = expectedOutcome h cfg b' src out std /\
  expectedActions h cfg b src out std = expectedActions h cfg b' src out std.
Proof.
  intros Hc Ho Hr. unfold expectedOutcome, expectedActions, chosenCompiler. rewrite Hc.
  assert (Hcmd : forall c, buildCompileCommand h cfg (withCompilerPath c b) src out std =
                           buildCompileCommand h cfg (withCompilerPath c b') src out std).
  { intros c. apply buildCompileCommand_ext; cbn; auto. }
  split.
  - destruct (status0 h src); try reflexivity;
      destruct (firstExistingIn _ _) as [clang|w]; try reflexivity;
      destruct (Str.empty clang); rewrite Hcmd; reflexivity.
  - destruct (status0 h src); try reflexivity;
      destruct (firstExistingIn _ _) as [clang|w]; try reflexivity;
      destruct (Str.empty clang); rewrite Hcmd; reflexivity.
Qed.

Lemma actions_hold_no_progress (l : list event) : filter isProgress (actions l) = [].
Proof.
  unfold actions. induction l as [|e l IH]; [reflexivity|].
  cbn [filter]. destruct (isProgress e) eqn:Ee; cbn [negb filter];
    [exact IH | rewrite Ee; exact IH].
Qed.

Lemma callback_silent (b : Builder) (src out std : string) :
  progressCallback b = false ->
  compileLog h cfg b src out std = actions (compileLog h cfg b src out std).
Proof.
  intros Hcb. path_of b src out std.
  inversion P as [ w s1 Es L | s1 Es L C | w s1 Hp Ec L | clang r1 s1 Hp Ec Ee A B D L
                 | clang o s1 Hp Ec Ee command' pr L F C T ]; subst; rewrite L;
    try reflexivity;
    unfold resolutionLog, launchLog, said; rewrite Hcb; cbn [app map];
    rewrite ?app_nil_r, ?actions_app; try reflexivity.
  - destruct (Str.empty clang); [now rewrite actions_probes | reflexivity].
  - destruct (Str.empty clang); [rewrite actions_probes | ]; reflexivity.
Qed.

(** X1. A progress callback that returns only observes, and one that throws
    does not.  With a callback that throws on no message, two builders with
    the same compiler path, OOpenCAL directory and project root give the
    same result (or the same exception) and the same probes and launch,
    whether or not the callback is installed and whatever result an earlier
    call left behind; and without a callback the log holds no callback
    invocation.  A callback that throws on the first message replaces the
    result by its exception, and the call probes and launches nothing. *)
Theorem callback_observes_unless_it_throws (b b' : Builder) (src out std : string)
    (throws : string -> option string) :
  compilerPath b = compilerPath b' ->
  oopencalDir b = oopencalDir b' ->
  projectRootPath b = projectRootPath b' ->
  ((forall msg, throws msg = None) ->
   compileOutcomeWith h cfg throws b src out std =
     compileOutcomeWith h cfg throws b' src out std /\
   actions (compileLogWith h cfg throws b src out std) =
     actions (compileLogWith h cfg throws b' src out std) /\
   (progressCallback b = false ->
    compileLogWith h cfg throws b src out std =
      actions (compileLogWith h cfg throws b src out std))) /\
  (forall what,
     present (status0 h) src = true ->
     progressCallback b = true ->
     throws "Checking C++ compiler availability..." = Some what ->
     compileOutcomeWith h cfg throws b src out std = Thrown what /\
     actions (compileLogWith h cfg throws b src out std) = []).
Proof.
  intros Hc Ho Hr. split.
  - intros Hquiet.
    destruct (returning_callback_run throws b src out std Hquiet) as (-> & -> & _).
    destruct (returning_callback_run throws b' src out std Hquiet) as (-> & -> & _).
    destruct (expectedOutcome_ext b b' src out std Hc Ho Hr) as [E1 E2].
    split; [now rewrite !compileOutcome_eq|]. split; [now rewrite !actions_eq|].
    apply callback_silent.
  - intros what Hsrc Hcb Ht.
    destruct (throwing_callback_run throws b src out std what Hsrc Hcb Ht) as (-> & -> & _).
    split; reflexivity.
Qed.

(** X2. The throttling of the callback loses no output.  A result returned
    after a launch holds the command that was run, the two file names, and
    in [stdout] and [stderr] every piece the child wrote to that stream, in
    order, each followed by a newline, appended to the defaults of a fresh
    result. *)
Theorem result_captures_all_output (b : Builder) (src out std : string)
    (r : CompilationResult) (command : string) :
  compileOutcome h cfg b src out std = Returned r ->
  In (Launch command) (compileLog h cfg b src out std) ->
  compileCommand r = command /\
  sourceFile r = src /\ outputFile r = out /\
  stdout r = stdout (resultDefaults cfg) ++ captured Stdout (outputOf (spawn h command)) /\
  stderr r = stderr (resultDefaults cfg) ++ captured Stderr (outputOf (spawn h command)).
Proof.
  intros Ho Hin. pose proof (compileOutcome_eq b src out std) as E. rewrite Ho in E.
  path_of b src out std. rewrite Ho in P.
  inversion P as [ | s1 Es L C | | clang r1 s1 Hp Ec Ee A B D L
                 | clang o s1 Hp Ec Ee command' pr L F C T ]; subst.
  - rewrite L in Hin. destruct Hin.
  - rewrite L in Hin. apply in_app_or in Hin. destruct Hin as [Hin|Hin];
      [now apply resolutionLog_launch in Hin | apply said_only in Hin; discriminate].
  - rewrite L in Hin. apply in_app_or in Hin. destruct Hin as [Hin|Hin];
      [now apply resolutionLog_launch in Hin|].
    apply launchLog_launch in Hin. subst command. subst command'.
    unfold expectedOutcome in E. rewrite Ec, Ee in E. unfold present in Hp.
    destruct (status0 h src); try discriminate;
      destruct (exitStatusOf _ =? 0)%Z;
      try destruct (fsAfter _ _ out); try discriminate;
      injection E as ->; cbn; auto.
Qed.

(** *** One launch, after the probes; what a call leaves untouched *)

Lemma filter_isLaunch_said (b : Builder) (msg : string) : filter isLaunch (said b msg) = [].
Proof. unfold said. now destruct (progressCallback b). Qed.

Lemma filter_isLaunch_probes (names : list string) : filter isLaunch (map Probe names) = [].
Proof. induction names as [|n rest IH]; [reflexivity | exact IH]. Qed.

Lemma filter_isLaunch_progress (msgs : list string) :
  filter isLaunch (map Progress msgs) = [].
Proof. induction msgs as [|n rest IH]; [reflexivity | exact IH]. Qed.

Lemma filter_isLaunch_resolutionLog (b : Builder) (clang : string) :
  filter isLaunch (resolutionLog h b clang) = [].
Proof.
  unfold resolutionLog. rewrite filter_app, filter_isLaunch_said.
  destruct (Str.empty clang); [apply filter_isLaunch_probes | apply filter_isLaunch_said].
Qed.

Lemma split_at_launch (X Y l1 l2 : list event) (c c' : string) :
  filter isLaunch X = [] ->
  filter isLaunch Y = [] ->
  (X ++ Launch c' :: Y = l1 ++ Launch c :: l2)%list ->
  l1 = X /\ c = c' /\ l2 = Y.
Proof.
  intros HX HY. revert l1. induction X as [|x X IH]; intros l1 E.
  - destruct l1 as [|e l1]; cbn [app] in E.
    + injection E as -> ->. auto.
    + injection E as <- ->. rewrite filter_app in HY. cbn in HY.
      destruct (filter isLaunch l1); discriminate.
  - cbn [filter] in HX. destruct (isLaunch x) eqn:Ex; [discriminate|].
    destruct l1 as [|e l1]; cbn [app] in E.
    + injection E as -> _. discriminate.
    + injection E as <- E. destruct (IH HX l1 E) as (-> & -> & ->). auto.
Qed.

Lemma log_shape (b : Builder) (src out std : string) :
  exists before,
    filter isLaunch before = [] /\
    (compileLog h cfg b src out std = before \/
     exists command msgs,
       compileLog h cfg b src out std =
         (before ++ Launch command :: map Progress msgs)%list).
Proof.
  path_of b src out std.
  inversion P as [ w s1 Es L | s1 Es L C | w s1 Hp Ec L | clang r1 s1 Hp Ec Ee A B D L
                 | clang o s1 Hp Ec Ee command' pr L F C T ]; subst; rewrite L.
  - exists []. auto.
  - exists []. auto.
  - eexists. split; [|left; reflexivity]. apply filter_isLaunch_said.
  - eexists. split; [|left; reflexivity].
    now rewrite filter_app, filter_isLaunch_resolutionLog, filter_isLaunch_said.
  - exists (resolutionLog h b clang ++ said b "Preparing compilation command..."
              ++ said b "Compilation of module ...")%list.
    split.
    + now rewrite !filter_app, filter_isLaunch_resolutionLog, !filter_isLaunch_said.
    + right. unfold launchLog. do 2 eexists. rewrite <- !app_assoc. reflexivity.
Qed.

(** X12. A call launches at most one child, and only after it has stopped
    probing: whatever stands in the log after the launch is an invocation
    of the progress callback, and nothing before it is a launch. *)
Theorem one_launch_after_all_probes (b : Builder) (src out std : string) :
  (List.length (filter isLaunch (compileLog h cfg b src out std)) <= 1)%nat /\
  (forall l1 command l2,
     compileLog h cfg b src out std = (l1 ++ Launch command :: l2)%list ->
     filter isLaunch l1 = [] /\ filter isProbe l2 = [] /\
     forall e, In e l2 -> isProgress e = true).
Proof.
  destruct (log_shape b src out std) as (before & Hb & [E|(command' & msgs & E)]);
    rewrite E.
  - split; [rewrite Hb; cbn; lia|].
    intros l1 command l2 E'. exfalso. rewrite E' in Hb.
    rewrite filter_app in Hb. cbn in Hb. destruct (filter isLaunch l1); discriminate.
  - split.
    + rewrite filter_app, Hb. cbn. rewrite filter_isLaunch_progress. cbn. lia.
    + intros l1 command l2 E'.
      destruct (split_at_launch before (map Progress msgs) l1 l2 command command'
                  Hb (filter_isLaunch_progress msgs) E') as (-> & -> & ->).
      split; [exact Hb|]. split; [apply filter_isProbe_progress|].
      intros e He. apply in_map_iff in He. destruct He as (m & <- & _). reflexivity.
Qed.

Lemma launches_of_call (b : Builder) (src out std : string) :
  filter isLaunch (compileLog h cfg b src out std) =
  match launchedCommand h cfg b src out std with
  | Some command => [ Launch command ]
  | None => []
  end.
Proof.
  assert (Ha : forall l, filter isLaunch (actions l) = filter isLaunch l).
  { intros l. unfold actions. induction l as [|e l IH]; [reflexivity|].
    destruct e; cbn; rewrite ?IH; reflexivity. }
  rewrite <- Ha, actions_eq. unfold expectedActions, launchedCommand.
  destruct (status0 h src); try reflexivity;
    destruct (firstExistingIn _ _) as [clang|w]; try reflexivity;
    rewrite filter_app;
    (replace (filter isLaunch (if Str.empty clang
                then map Probe (map probeCommand (probed h (compilerPath b))) else []))
       with (@nil event)
       by (destruct (Str.empty clang); [now rewrite filter_isLaunch_probes | reflexivity]));
    destruct (Str.empty (chosenCompiler h b clang)); reflexivity.
Qed.

(** X13. What a call leaves untouched.  The OOpenCAL directory, the project
    root and the callback of the builder are the same after any call.  A
    call that launches no child leaves the file system and the compiler path
    as they were; a call that launches one leaves the file system the child
    left, also when the launch itself threw and nothing ran. *)
Theorem call_changes_only_what_it_must (b : Builder) (src out std : string) :
  oopencalDir (builderAfter h cfg b src out std) = oopencalDir b /\
  projectRootPath (builderAfter h cfg b src out std) = projectRootPath b /\
  progressCallback (builderAfter h cfg b src out std) = progressCallback b /\
  ((forall command, ~ In (Launch command) (compileLog h cfg b src out std)) ->
   compileFs h cfg b src out std = status0 h /\
   compilerPath (builderAfter h cfg b src out std) = compilerPath b) /\
  (forall command,
     In (Launch command) (compileLog h cfg b src out std) ->
     compileFs h cfg b src out std = fsAfter (spawn h command) (status0 h) /\
     (forall w, spawn h command = LaunchThrew w ->
                compileFs h cfg b src out std = status0 h)).
Proof.
  destruct (compile_frame b src out std) as (O & R & P & F & C).
  pose proof (launches_of_call b src out std) as L.
  split; [exact O|]. split; [exact R|]. split; [exact P|]. split.
  - intros Hno. destruct (launchedCommand h cfg b src out std) as [command|].
    + exfalso. apply (Hno command).
      assert (Hin : In (Launch command)
                      (filter isLaunch (compileLog h cfg b src out std)))
        by (rewrite L; now left).
      now apply filter_In in Hin.
    + split; [exact F | now apply C].
  - intros command Hin.
    assert (Hin' : In (Launch command)
                     (filter isLaunch (compileLog h cfg b src out std)))
      by (apply filter_In; split; [exact Hin | reflexivity]).
    rewrite L in Hin'.
    destruct (launchedCommand h cfg b src out std) as [command'|]; [|destruct Hin'].
    destruct Hin' as [Hc|[]]. injection Hc as ->.
    split; [exact F|]. intros w Hw. rewrite F, Hw. reflexivity.
Qed.

(** *** The two discovery functions on their own *)

Lemma firstExistingIn_spec (fs : FileSystem) (paths : list string) :
  match firstExistingIn fs paths with
  | Returned p =>
      (p = EmptyString /\ Forall (fun c => fs c = ft_not_found) paths) \/
      (exists before after,
         paths = (before ++ p :: after)%list /\
         Forall (fun c => fs c = ft_not_found) before /\ present fs p = true)
  | Thrown _ =>
      exists before c after,
        paths = (before ++ c :: after)%list /\
        Forall (fun c => fs c = ft_not_found) before /\ fs c = ft_none
  end.
Proof.
  induction paths as [|p rest IH]; cbn [firstExistingIn].
  - left. split; [reflexivity | constructor].
  - destruct (fs p) eqn:E.
    + exists [], p, rest. repeat split; [constructor | exact E].
    + destruct (firstExistingIn fs rest) as [q|w].
      * destruct IH as [[-> Hall]|(before & after & -> & Hb & Hp)].
        -- left. split; [reflexivity | now constructor].
        -- right. exists (p :: before), after. repeat split; [now constructor | exact Hp].
      * destruct IH as (before & c & after & -> & Hb & Hc).
        exists (p :: before), c, after. repeat split; [now constructor | exact Hc].
    + right. exists [], rest. repeat split; [constructor | unfold present; now rewrite E].
    + right. exists [], rest. repeat split; [constructor | unfold present; now rewrite E].
    + right. exists [], rest. repeat split; [constructor | unfold present; now rewrite E].
Qed.

(** X7. [getClangToolchainPath] only looks: it leaves the builder, the file
    system and the log as they are.  A path it returns is the empty string
    when every candidate is missing, and otherwise a candidate that exists
    with every candidate before it missing; it throws only on a candidate
    whose status cannot be read, reached with every candidate before it
    missing.  The candidate of the environment variable comes first: when it
    exists it is returned whatever the compile definition and the fixed
    paths hold, and with an empty value of the variable the lookup goes on
    with the compile definition and the fixed paths as if it were unset. *)
Theorem clang_lookup_takes_first_existing (s : State) :
  snd (getClangToolchainPath h cfg s) = s /\
  match fst (getClangToolchainPath h cfg s) with
  | Returned p =>
      (p = EmptyString /\
       Forall (fun c => fsys s c = ft_not_found) (bundledCandidates h cfg)) \/
      (exists before after,
         bundledCandidates h cfg = (before ++ p :: after)%list /\
         Forall (fun c => fsys s c = ft_not_found) before /\ present (fsys s) p = true)
  | Thrown _ =>
      exists before c after,
        bundledCandidates h cfg = (before ++ c :: after)%list /\
        Forall (fun c => fsys s c = ft_not_found) before /\ fsys s c = ft_none
  end /\
  (forall dir,
     getenv h "CLANG_TOOLCHAIN_PATH" = Some dir ->
     Str.empty dir = false ->
     present (fsys s) (dir ++ "/clang++") = true ->
     fst (getClangToolchainPath h cfg s) = Returned (dir ++ "/clang++")) /\
  (getenv h "CLANG_TOOLCHAIN_PATH" = Some EmptyString ->
   fst (getClangToolchainPath h cfg s) =
     firstExistingIn (fsys s)
       (clangCandidate (CLANG_TOOLCHAIN_PATH cfg) ++ appImagePaths)).
Proof.
  rewrite getClangToolchainPath_eq. cbn [fst snd].
  split; [reflexivity|]. split; [apply firstExistingIn_spec|]. split.
  - intros dir He Hne Hp. unfold bundledCandidates, clangCandidate.
    rewrite He, Hne. cbn [app firstExistingIn]. unfold present in Hp.
    destruct (fsys s (dir ++ "/clang++")); try discriminate; reflexivity.
  - intros He. unfold bundledCandidates. rewrite He. reflexivity.
Qed.

Lemma probedAmong_spec (pref : string) (cands : list string) :
  probeOk h pref = false ->
  NoDup cands ->
  NoDup (probedAmong h pref cands) /\
  ~ In pref (probedAmong h pref cands) /\
  Forall (fun n => probeOk h n = false) (removelast (probedAmong h pref cands)) /\
  match find (probeOk h) cands with
  | Some c => last (probedAmong h pref cands) pref = c /\ probeOk h c = true
  | None => Forall (fun n => probeOk h n = false) (probedAmong h pref cands)
  end.
Proof.
  intros Hp. induction cands as [|c rest IH]; intros Hnd; cbn [probedAmong find].
  - repeat split; try constructor. intros [].
  - inversion Hnd as [|? ? Hc Hrest]; subst. specialize (IH Hrest).
    destruct IH as (A & B & C & D).
    destruct (String.eqb c pref) eqn:E.
    + apply String.eqb_eq in E. subst c. rewrite Hp. auto.
    + apply String.eqb_neq in E. destruct (probeOk h c) eqn:Ec.
      * split; [repeat constructor; intros []|].
        split; [intros [H|[]]; congruence|].
        split; [constructor|]. split; reflexivity || exact Ec.
      * split; [constructor; [|exact A]; intros H; apply Hc;
                eapply probedAmong_subset; eauto|].
        split; [intros [H|H]; [congruence | contradiction]|].
        split.
        { cbn [removelast]. destruct (probedAmong h pref rest) eqn:Er;
            [constructor | constructor; [exact Ec | exact C]]. }
        destruct (find (probeOk h) rest) as [c'|].
        -- destruct D as [D1 D2]. split; [|exact D2].
           cbn [last]. destruct (probedAmong h pref rest) eqn:Er; [|exact D1].
           cbn in D1. subst c'. congruence.
        -- constructor; [exact Ec | exact D].
Qed.

Lemma probedAmong_length (pref : string) (cands : list string) :
  (List.length (probedAmong h pref cands) <= List.length cands)%nat.
Proof.
  induction cands as [|c rest IH]; cbn [probedAmong List.length]; [lia|].
  destruct (String.eqb c pref); [lia|]. destruct (probeOk h c); cbn [List.length]; lia.
Qed.

(** X8. [findAvailableCompiler] never throws and only adds version queries
    to the log.  It asks for the preferred compiler first, asks at most four
    times and never twice for the same name, and every query but the last
    has failed: it stops at the first success.  What it returns is that
    compiler, and the empty string when every query failed. *)
Theorem probing_stops_at_first_success (pref : string) (s : State) :
  exists names s',
    findAvailableCompiler h pref s = (Returned (selected h pref), s') /\
    self s' = self s /\ fsys s' = fsys s /\
    log s' = (log s ++ map Probe (map probeCommand names))%list /\
    hd_error names = Some pref /\
    (List.length names <= 4)%nat /\
    NoDup names /\
    Forall (fun n => probeOk h n = false) (removelast names) /\
    (probeOk h (last names pref) = true -> selected h pref = last names pref) /\
    (probeOk h (last names pref) = false ->
     selected h pref = EmptyString /\ Forall (fun n => probeOk h n = false) names).
Proof.
  destruct (findAvailableCompiler_run pref s) as (s' & E & Hs & _ & Hf & Hl).
  exists (probed h pref), s'. split; [exact E|].
  split; [exact Hs|]. split; [exact Hf|]. split; [exact Hl|].
  unfold probed, selected. cbn [find].
  destruct (probeOk h pref) eqn:Hp.
  - cbn. rewrite Hp. repeat split; auto; try lia; try discriminate.
    constructor; [intros [] | constructor].
  - assert (Hnd : NoDup fallbacks).
    { unfold fallbacks. repeat constructor; cbn; intuition discriminate. }
    destruct (probedAmong_spec pref fallbacks Hp Hnd) as (A & B & C & D).
    pose proof (probedAmong_length pref fallbacks) as Hlen.
    change (List.length fallbacks) with 3%nat in Hlen.
    split; [reflexivity|]. split; [cbn [List.length] in *; lia|].
    split; [now constructor|].
    split.
    { cbn [removelast]. destruct (probedAmong h pref fallbacks);
        [constructor | constructor; [exact Hp | exact C]]. }
    assert (Hlast : last (pref :: probedAmong h pref fallbacks) pref =
                    last (probedAmong h pref fallbacks) pref).
    { cbn [last]. now destruct (probedAmong h pref fallbacks). }
    rewrite Hlast.
    destruct (find (probeOk h) fallbacks) as [c|].
    + destruct D as [D1 D2]. rewrite D1. split; [reflexivity | congruence].
    + split; [|intros _; split; [reflexivity | now constructor]].
      intros Hok. exfalso.
      destruct (probedAmong h pref fallbacks) as [|x l] eqn:El; [cbn in Hok; congruence|].
      assert (Hin : In (last (x :: l) pref) (x :: l)).
      { destruct (exists_last (l := x :: l)) as (l' & a & Ea); [discriminate|].
        rewrite Ea, last_last. apply in_or_app. right. now left. }
      rewrite Forall_forall in D. rewrite (D _ Hin) in Hok. discriminate.
Qed.

(** X9. [moduleExists] answers whether the path is a regular file: [true]
    exactly for a regular file, an exception exactly when the status cannot
    be read, and no change to the state.  It agrees with the result of a
    compile: after a call that reports success, [moduleExists] on the output
    path answers [true]. *)
Theorem moduleExists_is_the_regular_file_test (p : string) (s : State)
    (b : Builder) (src out std : string) :
  snd (moduleExists p s) = s /\
  (fst (moduleExists p s) = Returned true <-> fsys s p = ft_regular) /\
  ((exists w, fst (moduleExists p s) = Thrown w) <-> fsys s p = ft_none) /\
  (forall r,
     compileOutcome h cfg b src out std = Returned r ->
     success r = true ->
     fst (moduleExists out (snd (run h (compileModule h cfg src out std) b))) =
       Returned true).
Proof.
  assert (E : forall q t, moduleExists q t =
                (match fsys t q with
                 | ft_none => Thrown "filesystem error: status"
                 | ft_regular => Returned true
                 | _ => Returned false
                 end, t)).
  { intros q t. unfold moduleExists, bind. rewrite fs_exists_eq.
    destruct (fsys t q) eqn:Eq; try reflexivity;
      rewrite fs_is_regular_file_eq, Eq; reflexivity. }
  rewrite E. cbn [fst snd]. split; [reflexivity|]. split; [|split].
  - destruct (fsys s p); split; intros H; try discriminate; reflexivity.
  - destruct (fsys s p); split; intros H; try discriminate H;
      try (destruct H; discriminate); try reflexivity.
    eexists. reflexivity.
  - intros r Ho Hs. rewrite E. cbn [fst].
    path_of b src out std. rewrite Ho in P.
    inversion P as [ | s1 Es L C | | clang r1 s1 Hp Ec Ee A B D L
                   | clang o s1 Hp Ec Ee command' pr L F C T ]; subst.
    + cbn in Hs. discriminate.
    + congruence.
    + destruct T as [_ T]. apply T in Hs. destruct Hs as [_ Hr].
      rewrite F. subst pr command'. now rewrite Hr.
Qed.

(** *** A fresh builder, and the builder a call leaves *)

Lemma launched_command (b : Builder) (src out std command : string) :
  In (Launch command) (compileLog h cfg b src out std) ->
  exists clang,
    firstExistingIn (status0 h) (bundledCandidates h cfg) = Returned clang /\
    Str.empty (chosenCompiler h b clang) = false /\
    command = buildCompileCommand h cfg
                (withCompilerPath (chosenCompiler h b clang) b) src out std /\
    compilerPath (builderAfter h cfg b src out std) = chosenCompiler h b clang.
Proof.
  unfold builderAfter. intros Hin. path_of b src out std.
  inversion P as [ w s1 Es L | s1 Es L C | w s1 Hp Ec L | clang r1 s1 Hp Ec Ee A B D L
                 | clang o s1 Hp Ec Ee command' pr L F C T ]; subst; rewrite L in Hin.
  - destruct Hin.
  - destruct Hin.
  - apply said_only in Hin. discriminate.
  - apply in_app_or in Hin. destruct Hin as [Hin|Hin];
      [now apply resolutionLog_launch in Hin | apply said_only in Hin; discriminate].
  - apply in_app_or in Hin. destruct Hin as [Hin|Hin];
      [now apply resolutionLog_launch in Hin|].
    apply launchLog_launch in Hin. exists clang. repeat split; auto.
Qed.

Lemma probes_of_call (b : Builder) (src out std : string) :
  present (status0 h) src = true ->
  firstExistingIn (status0 h) (bundledCandidates h cfg) = Returned EmptyString ->
  filter isProbe (compileLog h cfg b src out std) =
    map Probe (map probeCommand (probed h (compilerPath b))).
Proof.
  intros Hsrc Hnone. path_of b src out std.
  inversion P as [ w s1 Es L | s1 Es L C | w s1 Hp Ec L | clang r1 s1 Hp Ec Ee A B D L
                 | clang o s1 Hp Ec Ee command' pr L F C T ]; subst; rewrite L;
    try (unfold present in Hsrc; rewrite Es in Hsrc; discriminate);
    try congruence.
  - assert (clang = EmptyString) by congruence. subst clang.
    unfold resolutionLog. cbn [Str.empty].
    rewrite !filter_app, !filter_isProbe_said, filter_isProbe_probes, app_nil_r. reflexivity.
  - assert (clang = EmptyString) by congruence. subst clang.
    unfold resolutionLog. cbn [Str.empty].
    rewrite !filter_app, !filter_isProbe_said, filter_isProbe_probes,
      filter_isProbe_launchLog, app_nil_r. reflexivity.
Qed.

Lemma selected_probeOk (pref : string) :
  Str.empty (selected h pref) = false -> probeOk h (selected h pref) = true.
Proof.
  unfold selected. destruct (find (probeOk h) (pref :: fallbacks)) as [c|] eqn:E.
  - intros _. now apply find_some in E.
  - discriminate.
Qed.

(** X10. A builder made by the constructor has no callback, so a compile on
    it calls none.  The OOpenCAL directory the constructor settles on is the
    argument when that is not empty, else the value of [OOPENCAL_DIR] in the
    environment when the variable is set, be it to the empty string, else
    the directory of the build.  It enters every launched command at one
    place and nowhere else: as [-I"<dir>/OOpenCAL/base"] followed by
    [-I"<dir>"] when it is not empty, and not at all when it is empty. *)
Theorem fresh_builder_is_silent_and_includes_oopencal (compiler src out std : string) :
  (forall oopencal,
     filter isProgress
       (compileLog h cfg (newBuilder h cfg compiler oopencal) src out std) = []) /\
  exists front back,
    forall oopencal command,
      In (Launch command)
         (compileLog h cfg (newBuilder h cfg compiler oopencal) src out std) ->
      let dir :=
        if Str.empty oopencal
        then match getenv h "OOPENCAL_DIR" with
             | Some envDir => envDir
             | None => OOPENCAL_DIR cfg
             end
        else oopencal in
      command =
        front
          ++ (if Str.empty dir then EmptyString
              else includeFlag (dir ++ "/OOpenCAL/base") ++ includeFlag dir)
          ++ back.
Proof.
  split.
  - intros oopencal.
    pose proof (callback_silent (newBuilder h cfg compiler oopencal) src out std eq_refl) as E.
    rewrite E. apply actions_hold_no_progress.
  - destruct (firstExistingIn (status0 h) (bundledCandidates h cfg)) as [clang|w] eqn:Ec.
    + destruct (command_around_oopencal h cfg
                  (withCompilerPath
                     (chosenCompiler h (newBuilder h cfg compiler EmptyString) clang)
                     (newBuilder h cfg compiler EmptyString)) src out std)
        as (front & back & Hfb).
      exists front, back. intros oopencal command Hin.
      apply launched_command in Hin. destruct Hin as (clang' & Ec' & _ & -> & _).
      assert (clang' = clang) by congruence. subst clang'.
      cbv zeta. rewrite <- Hfb. apply buildCompileCommand_ext; reflexivity.
    + exists EmptyString, EmptyString. intros oopencal command Hin.
      apply launched_command in Hin. destruct Hin as (clang' & Ec' & _).
      congruence.
Qed.

End OrchestrationFacts.

(* ================================================================== *)
(** ** From one call to the next *)

(** X11. The compiler a call finds by probing is kept by the builder, and a
    later call asks for it first: on a host that answers the version queries
    as before and holds no bundled clang, the later call makes one query,
    for the compiler found the first time, whatever compiler the builder was
    given at the start. *)
Theorem found_compiler_is_asked_first (h h2 : Host) (cfg : BuildConfig) (b : Builder)
    (src out std command src2 out2 std2 : string) :
  firstExistingIn (status0 h) (bundledCandidates h cfg) = Returned EmptyString ->
  In (Launch command) (compileLog h cfg b src out std) ->
  (forall c, system h2 c = system h c) ->
  present (status0 h2) src2 = true ->
  firstExistingIn (status0 h2) (bundledCandidates h2 cfg) = Returned EmptyString ->
  compilerPath (builderAfter h cfg b src out std) = selected h (compilerPath b) /\
  filter isProbe (compileLog h2 cfg (builderAfter h cfg b src out std) src2 out2 std2) =
    [ Probe (probeCommand (selected h (compilerPath b))) ].
Proof.
  intros Hnone Hin Hsys Hsrc2 Hnone2.
  apply launched_command in Hin. destruct Hin as (clang & Ec & Ee & _ & Ea).
  assert (clang = EmptyString) by congruence. subst clang.
  unfold chosenCompiler in Ee, Ea. cbn [Str.empty] in Ee, Ea.
  split; [exact Ea|].
  rewrite (probes_of_call h2 cfg _ src2 out2 std2 Hsrc2 Hnone2), Ea.
  unfold probed.
  assert (Hok : probeOk h2 (selected h (compilerPath b)) = true).
  { unfold probeOk. rewrite Hsys. now apply selected_probeOk. }
  now rewrite Hok.
Qed.

(* ================================================================== *)
(** ** The adapter *)

(** C9. An adapter built with a name reports that name after any sequence of
    calls, and each call reaches the wrapped implementation as the same call
    with the same arguments: the wrapped implementation ends in the state
    the direct calls give it, the available steps are the ones it reports,
    and an implementation that records its calls has recorded exactly the
    requests made, in order. *)
Theorem adapter_forwards_unchanged :
  (forall (Impl : Type) (T : SceneWidgetVisualizerTemplate Impl)
          (modelName : string) (requests : list request),
     let adapter := fold_left (fun a r => perform r a) requests (newAdapter modelName) in
     getModelName adapter = modelName /\
     m_impl adapter = fold_left (fun i r => performDirect r i) requests impl_new /\
     availableSteps adapter = modelReader_availableSteps (m_impl adapter)) /\
  (forall (modelName : string) (requests : list request),
     m_impl (fold_left (fun a r => perform r a) requests
               (newAdapter (Impl := list request) modelName)) = requests).
Proof.
  assert (Hgen : forall (Impl : Type) (T : SceneWidgetVisualizerTemplate Impl)
                   (requests : list request) (a : SceneWidgetVisualizerAdapter Impl),
            m_modelName (fold_left (fun a r => perform r a) requests a) = m_modelName a /\
            m_impl (fold_left (fun a r => perform r a) requests a) =
              fold_left (fun i r => performDirect r i) requests (m_impl a)).
  { intros Impl T requests. induction requests as [|r rest IH]; intros a; [split; reflexivity|].
    cbn [fold_left]. destruct (IH (perform r a)) as [N I]. rewrite N, I.
    destruct r; split; reflexivity. }
  split.
  - intros Impl T modelName requests adapter. subst adapter.
    destruct (Hgen Impl T requests (newAdapter modelName)) as [N I].
    repeat split; [exact N | exact I].
  - intros modelName requests.
    destruct (Hgen _ recordingTemplate requests (newAdapter modelName)) as [_ I].
    rewrite I. cbn [newAdapter m_impl impl_new recordingTemplate].
    assert (Hrec : forall (l acc : list request),
              fold_left (fun i r => performDirect r i) l acc = (acc ++ l)%list).
    { induction l as [|r rest IH]; intros acc; cbn [fold_left].
      - now rewrite app_nil_r.
      - rewrite IH. destruct r; cbn; now rewrite <- app_assoc. }
    apply Hrec.
Qed.

(* ================================================================== *)
(** ** The grid of the visualizer *)

Module VisualizerFacts.
Import Visualizer.

Lemma forFrom_invariant {St : Type} (Inv : Z -> St -> Prop) (body : Z -> St -> St)
    (count : nat) (i : Z) (s : St) :
  Inv i s ->
  (forall j t, i <= j < i + Z.of_nat count -> Inv j t -> Inv (j + 1) (body j t)) ->
  Inv (i + Z.of_nat count) (forFrom count i body s).
Proof.
  revert i s. induction count as [|k IH]; intros i s H0 Hstep.
  - cbn [forFrom]. now replace (i + Z.of_nat 0) with i by lia.
  - cbn [forFrom]. replace (i + Z.of_nat (S k)) with ((i + 1) + Z.of_nat k) by lia.
    apply IH.
    + apply Hstep; [lia | exact H0].
    + intros j t Hj. apply Hstep. lia.
Qed.

Lemma forLoop_invariant {St : Type} (Inv : Z -> St -> Prop) (body : Z -> St -> St)
    (n : Z) (s : St) :
  0 <= n ->
  Inv 0 s ->
  (forall j t, 0 <= j < n -> Inv j t -> Inv (j + 1) (body j t)) ->
  Inv n (forLoop n body s).
Proof.
  intros Hn H0 Hstep. unfold forLoop.
  replace n with (0 + Z.of_nat (Z.to_nat n)) at 1 by lia.
  apply forFrom_invariant; [exact H0|].
  intros j t Hj. apply Hstep. lia.
Qed.

Lemma update_spec {A : Type} (n : nat) (v : A) (l : list A) :
  (n < List.length l)%nat ->
  exists l', update n v l = Some l' /\
             List.length l' = List.length l /\
             nth_error l' n = Some v /\
             forall m, m <> n -> nth_error l' m = nth_error l m.
Proof.
  revert n. induction l as [|x l IH]; intros n Hn; cbn [List.length] in Hn; [lia|].
  destruct n as [|k]; cbn [update].
  - eexists. split; [reflexivity|]. split; [reflexivity|]. split; [reflexivity|].
    intros [|m] Hm; [congruence | reflexivity].
  - destruct (IH k ltac:(lia)) as (l' & -> & Hl & Hv & Ho).
    eexists. split; [reflexivity|]. cbn [option_map List.length nth_error].
    split; [now rewrite Hl|]. split; [exact Hv|].
    intros [|m] Hm; [reflexivity | apply Ho; congruence].
Qed.

Lemma update_none {A : Type} (n : nat) (v : A) (l : list A) :
  (List.length l <= n)%nat -> update n v l = None.
Proof.
  revert n. induction l as [|x l IH]; intros n Hn; [now destruct n|].
  cbn [List.length] in Hn. destruct n as [|k]; [lia|]. cbn [update].
  now rewrite IH by lia.
Qed.


Lemma nested_invariant {St : Type} (Inv : Z -> Z -> St -> Prop) (body : Z -> Z -> St -> St)
    (nRows nCols : Z) (s : St) :
  0 <= nRows -> 0 <= nCols ->
  Inv 0 0 s ->
  (forall r c t, 0 <= r < nRows -> 0 <= c < nCols -> Inv r c t -> Inv r (c + 1) (body r c t)) ->
  (forall r t, 0 <= r < nRows -> Inv r nCols t -> Inv (r + 1) 0 t) ->
  Inv nRows 0 (forLoop nRows (fun r t => forLoop nCols (fun c t => body r c t) t) s).
Proof.
  intros Hr Hc H0 Hcell Hrow.
  apply (forLoop_invariant (fun r t => Inv r 0 t)); [exact Hr | exact H0|].
  intros r t Hrr Ht. apply Hrow; [exact Hrr|].
  apply (forLoop_invariant (fun c t => Inv r c t)); [exact Hc | exact Ht|].
  intros c t' Hcc Ht'. now apply Hcell.
Qed.

Lemma passed_next_row (nCols r r' c' : Z) :
  passed nCols (r + 1) 0 r' c' -> passed nCols r nCols r' c'.
Proof. unfold passed. lia. Qed.

Lemma passed_next_cell (nCols r c r' c' : Z) :
  passed nCols r (c + 1) r' c' -> passed nCols r c r' c' \/ (r' = r /\ c' = c).
Proof. unfold passed. lia. Qed.

Lemma getAt_update {A : Type} (i : Z) (v : A) (l : list A) :
  0 <= i < Z.of_nat (List.length l) ->
  exists l', update (Z.to_nat i) v l = Some l' /\
             List.length l' = List.length l /\
             getAt i l' = Some v /\
             forall j, j <> i -> getAt j l' = getAt j l.
Proof.
  intros Hi. destruct (update_spec (Z.to_nat i) v l ltac:(lia)) as (l' & E & Hl & Hv & Ho).
  exists l'. split; [exact E|]. split; [exact Hl|]. unfold getAt. split.
  - destruct (Z.ltb_spec i 0); [lia | exact Hv].
  - intros j Hj. destruct (Z.ltb_spec j 0); [reflexivity|]. apply Ho. lia.
Qed.

Lemma getAt_last {A : Type} (l : list A) (v : A) :
  getAt (Z.of_nat (List.length l)) (l ++ [v]) = Some v /\
  forall j, j < Z.of_nat (List.length l) -> getAt j (l ++ [v]) = getAt j l.
Proof.
  unfold getAt. split.
  - destruct (Z.ltb_spec (Z.of_nat (List.length l)) 0); [lia|].
    rewrite Nat2Z.id, nth_error_app2 by lia. now rewrite Nat.sub_diag.
  - intros j Hj. destruct (Z.ltb_spec j 0); [reflexivity|].
    apply nth_error_app1. lia.
Qed.

Lemma getAt_ext {A : Type} (l1 l2 : list A) :
  List.length l1 = List.length l2 ->
  (forall i, 0 <= i < Z.of_nat (List.length l1) -> getAt i l1 = getAt i l2) ->
  l1 = l2.
Proof.
  revert l2. induction l1 as [|x l1 IH]; intros [|y l2] Hl H; try discriminate; [reflexivity|].
  cbn [List.length] in *.
  pose proof (H 0 ltac:(lia)) as H0. cbn in H0. injection H0 as ->.
  f_equal. apply IH; [lia|].
  intros i Hi. specialize (H (i + 1) ltac:(lia)). unfold getAt in *.
  destruct (Z.ltb_spec (i + 1) 0); [lia|]. destruct (Z.ltb_spec i 0); [lia|].
  replace (Z.to_nat (i + 1)) with (S (Z.to_nat i)) in H by lia. exact H.
Qed.

Section DrawingFacts.
Variable Color : Type.
Variables getRed getGreen getBlue : Color -> float.

Lemma SetTableValue_spec (indx : Z) (rgb : Rgb) (table : list (option Rgb)) :
  0 <= indx < Z.of_nat (List.length table) ->
  List.length (SetTableValue indx rgb table) = List.length table /\
  getAt indx (SetTableValue indx rgb table) = Some (Some rgb) /\
  forall j, j <> indx -> getAt j (SetTableValue indx rgb table) = getAt j table.
Proof.
  intros Hi. unfold SetTableValue. destruct (Z.ltb_spec indx 0); [lia|].
  destruct (getAt_update indx (Some rgb) table Hi) as (l' & -> & Hl & Hv & Ho). auto.
Qed.

Lemma buidColor_spec (calculateCellColor : Z -> Z -> Color)
    (lut : list (option Rgb)) (nCols nRows : Z) :
  0 <= nRows -> 0 <= nCols ->
  List.length lut = Z.to_nat (nRows * nCols) ->
  List.length (buidColor Color getRed getGreen getBlue calculateCellColor lut nCols nRows)
    = List.length lut /\
  forall r c, 0 <= r < nRows -> 0 <= c < nCols ->
    getAt ((nRows - 1 - r) * nCols + c)
          (buidColor Color getRed getGreen getBlue calculateCellColor lut nCols nRows)
    = Some (Some (unitColor Color getRed getGreen getBlue calculateCellColor r c)).
Proof.
  intros Hr Hc Hlen. unfold buidColor.
  pose (Inv := fun (r c : Z) (t : list (option Rgb)) =>
    List.length t = List.length lut /\
    forall r' c', passed nCols r c r' c' ->
      getAt ((nRows - 1 - r') * nCols + c') t
      = Some (Some (unitColor Color getRed getGreen getBlue calculateCellColor r' c'))).
  assert (H : Inv nRows 0
                (forLoop nRows (fun r t => forLoop nCols (fun c t =>
                   SetTableValue ((nRows - 1 - r) * nCols + c)
                     (toUnitColor (getRed (calculateCellColor r c)),
                      toUnitColor (getGreen (calculateCellColor r c)),
                      toUnitColor (getBlue (calculateCellColor r c))) t) t) lut)).
  { apply (nested_invariant Inv); [exact Hr | exact Hc | | |].
    - split; [reflexivity|]. unfold passed. intros r' c' Hp. lia.
    - intros r c t Hrr Hcc [Hl Hdone].
      assert (Hin : 0 <= (nRows - 1 - r) * nCols + c < Z.of_nat (List.length t)).
      { rewrite Hl, Hlen. nia. }
      destruct (SetTableValue_spec ((nRows - 1 - r) * nCols + c)
                  (toUnitColor (getRed (calculateCellColor r c)),
                   toUnitColor (getGreen (calculateCellColor r c)),
                   toUnitColor (getBlue (calculateCellColor r c))) t Hin) as (Hl' & Hv & Ho).
      split; [congruence|].
      intros r' c' Hp. apply passed_next_cell in Hp. destruct Hp as [Hp|[-> ->]].
      + rewrite Ho; [now apply Hdone|]. unfold passed in Hp. nia.
      + exact Hv.
    - intros r t Hrr [Hl Hdone]. split; [exact Hl|].
      intros r' c' Hp. apply Hdone. now apply passed_next_row. }
  destruct H as [Hl Hdone]. split; [exact Hl|].
  intros r c Hrr Hcc. apply Hdone. unfold passed. lia.
Qed.

Lemma buidColor_covers (calculateCellColor : Z -> Z -> Color)
    (lut : list (option Rgb)) (nCols nRows i : Z) :
  0 <= nRows -> 0 <= nCols ->
  List.length lut = Z.to_nat (nRows * nCols) ->
  0 <= i < nRows * nCols ->
  getAt i (buidColor Color getRed getGreen getBlue calculateCellColor lut nCols nRows)
  = Some (Some (unitColor Color getRed getGreen getBlue calculateCellColor
                  (nRows - 1 - i / nCols) (i mod nCols))).
Proof.
  intros Hr Hc Hlen Hi.
  assert (Hpos : 0 < nCols) by nia.
  pose proof (Z.div_mod i nCols ltac:(lia)) as Hdm.
  pose proof (Z.mod_pos_bound i nCols Hpos) as Hm.
  assert (Hq : 0 <= i / nCols < nRows).
  { split; [apply Z.div_pos; lia|]. apply Z.div_lt_upper_bound; lia. }
  destruct (buidColor_spec calculateCellColor lut nCols nRows Hr Hc Hlen) as [_ H].
  specialize (H (nRows - 1 - i / nCols) (i mod nCols) ltac:(lia) Hm).
  replace ((nRows - 1 - (nRows - 1 - i / nCols)) * nCols + i mod nCols) with i in H by lia.
  exact H.
Qed.

Lemma buidColor_forgets (calculateCellColor : Z -> Z -> Color)
    (lut lut' : list (option Rgb)) (nCols nRows : Z) :
  0 <= nRows -> 0 <= nCols ->
  List.length lut = Z.to_nat (nRows * nCols) ->
  List.length lut' = Z.to_nat (nRows * nCols) ->
  buidColor Color getRed getGreen getBlue calculateCellColor lut nCols nRows =
  buidColor Color getRed getGreen getBlue calculateCellColor lut' nCols nRows.
Proof.
  intros Hr Hc Hl Hl'.
  destruct (buidColor_spec calculateCellColor lut nCols nRows Hr Hc Hl) as [L _].
  destruct (buidColor_spec calculateCellColor lut' nCols nRows Hr Hc Hl') as [L' _].
  apply getAt_ext; [congruence|].
  intros i Hi. rewrite L, Hl in Hi.
  rewrite !buidColor_covers by (auto; lia). reflexivity.
Qed.

Lemma pointValues_spec (nRows nCols : Z) :
  0 <= nRows -> 0 <= nCols ->
  exists values,
    forLoop nRows (fun row pointValues =>
      forLoop nCols (fun col pointValues =>
        SetValue (row * nCols + col) ((nRows - 1 - row) * nCols + col) pointValues)
        pointValues) (Some (repeat None (Z.to_nat (nRows * nCols)))) = Some values /\
    List.length values = Z.to_nat (nRows * nCols) /\
    forall r c, 0 <= r < nRows -> 0 <= c < nCols ->
      getAt (r * nCols + c) values = Some (Some ((nRows - 1 - r) * nCols + c)).
Proof.
  intros Hr Hc.
  pose (Inv := fun (r c : Z) (t : option (list (option Z))) =>
    exists values, t = Some values /\
      List.length values = Z.to_nat (nRows * nCols) /\
      forall r' c', passed nCols r c r' c' ->
        getAt (r' * nCols + c') values = Some (Some ((nRows - 1 - r') * nCols + c'))).
  assert (H : Inv nRows 0
                (forLoop nRows (fun row t => forLoop nCols (fun col t =>
                   SetValue (row * nCols + col) ((nRows - 1 - row) * nCols + col) t) t)
                   (Some (repeat None (Z.to_nat (nRows * nCols)))))).
  { apply (nested_invariant Inv); [exact Hr | exact Hc | | |].
    - eexists. split; [reflexivity|]. split; [apply repeat_length|].
      unfold passed. intros r' c' Hp. lia.
    - intros r c t Hrr Hcc (values & -> & Hl & Hdone).
      assert (Hin : 0 <= r * nCols + c < Z.of_nat (List.length values)).
      { rewrite Hl. nia. }
      destruct (getAt_update (r * nCols + c) (Some ((nRows - 1 - r) * nCols + c)) values Hin)
        as (l' & E & Hl' & Hv & Ho).
      exists l'. unfold SetValue. destruct (Z.ltb_spec (r * nCols + c) 0); [lia|].
      split; [exact E|]. split; [congruence|].
      intros r' c' Hp. apply passed_next_cell in Hp. destruct Hp as [Hp|[-> ->]].
      + rewrite Ho; [now apply Hdone|]. unfold passed in Hp. nia.
      + exact Hv.
    - intros r t Hrr (values & -> & Hl & Hdone). exists values.
      split; [reflexivity|]. split; [exact Hl|].
      intros r' c' Hp. apply Hdone. now apply passed_next_row. }
  destruct H as (values & E & Hl & Hdone). exists values.
  split; [exact E|]. split; [exact Hl|].
  intros r c Hrr Hcc. apply Hdone. unfold passed. lia.
Qed.

Lemma points_spec (nRows nCols : Z) :
  0 <= nRows -> 0 <= nCols ->
  let points :=
    forLoop nRows (fun row points =>
      forLoop nCols (fun col points =>
        (points ++ [ (col, nRows - 1 - row, 1) ])%list) points) [] in
  List.length points = Z.to_nat (nRows * nCols) /\
  forall r c, 0 <= r < nRows -> 0 <= c < nCols ->
    getAt (r * nCols + c) points = Some (c, nRows - 1 - r, 1).
Proof.
  intros Hr Hc.
  pose (Inv := fun (r c : Z) (t : list (Z * Z * Z)) =>
    Z.of_nat (List.length t) = r * nCols + c /\
    forall r' c', passed nCols r c r' c' ->
      getAt (r' * nCols + c') t = Some (c', nRows - 1 - r', 1)).
  assert (H : Inv nRows 0
                (forLoop nRows (fun row t => forLoop nCols (fun col t =>
                   (t ++ [ (col, nRows - 1 - row, 1) ])%list) t) [])).
  { apply (nested_invariant Inv); [exact Hr | exact Hc | | |].
    - split; [reflexivity|]. unfold passed. intros r' c' Hp. lia.
    - intros r c t Hrr Hcc [Hl Hdone].
      destruct (getAt_last t (c, nRows - 1 - r, 1)) as [Hv Ho].
      split; [rewrite length_app; cbn [List.length]; lia|].
      intros r' c' Hp. apply passed_next_cell in Hp. destruct Hp as [Hp|[-> ->]].
      + rewrite Ho; [now apply Hdone|]. unfold passed in Hp. nia.
      + now rewrite <- Hl.
    - intros r t Hrr [Hl Hdone]. split; [lia|].
      intros r' c' Hp. apply Hdone. now apply passed_next_row. }
  destruct H as [Hl Hdone]. split; [lia|].
  intros r c Hrr Hcc. apply Hdone. unfold passed. lia.
Qed.

End DrawingFacts.

End VisualizerFacts.

Section GridFacts.
Variable Color : Type.
Variables getRed getGreen getBlue : Color -> float.

(** X14. [drawWithVTK] writes inside its arrays and leaves no entry unset:
    for a grid of [nRows] by [nCols] cells it builds as many points, scalars
    and table entries as there are cells.  The point of cell [(row, col)]
    has index [row * nCols + col] and stands at [(col, nRows - 1 - row, 1)],
    so row 0 is the top row; its scalar is the index of the table entry that
    [buidColor] fills with the colour of that very cell, and lies in the
    scalar range given to the mapper.  The number of cells is to fit an
    [int]; every index computed is then below it. *)
Theorem grid_points_select_their_cell_colour
    (calculateCellColor : Z -> Z -> Color) (nRows nCols : Z) :
  0 <= nRows -> 0 <= nCols -> nRows * nCols <= 2147483647 ->
  exists grid,
    Visualizer.drawWithVTK Color getRed getGreen getBlue calculateCellColor nRows nCols = Some grid /\
    List.length (Visualizer.pointValues grid) = Z.to_nat (nRows * nCols) /\
    List.length (Visualizer.points grid) = Z.to_nat (nRows * nCols) /\
    List.length (Visualizer.lookupTable grid) = Z.to_nat (nRows * nCols) /\
    forall row col, 0 <= row < nRows -> 0 <= col < nCols ->
      Visualizer.getAt (row * nCols + col) (Visualizer.points grid) = Some (col, nRows - 1 - row, 1) /\
      exists colorIndex,
        0 <= colorIndex < nRows * nCols /\
        fst (Visualizer.scalarRange grid) <= colorIndex <= snd (Visualizer.scalarRange grid) /\
        Visualizer.getAt (row * nCols + col) (Visualizer.pointValues grid) = Some (Some colorIndex) /\
        Visualizer.getAt colorIndex (Visualizer.lookupTable grid) =
          Some (Some (Visualizer.unitColor Color getRed getGreen getBlue calculateCellColor row col)).
Proof.
  intros Hr Hc _. unfold Visualizer.drawWithVTK.
  destruct (VisualizerFacts.pointValues_spec nRows nCols Hr Hc) as (values & -> & Hvl & Hv).
  destruct (VisualizerFacts.points_spec nRows nCols Hr Hc) as [Hpl Hp].
  destruct (VisualizerFacts.buidColor_spec Color getRed getGreen getBlue calculateCellColor (repeat None (Z.to_nat (nRows * nCols)))
              nCols nRows Hr Hc (repeat_length _ _)) as [Hll Hl].
  eexists. split; [reflexivity|].
  cbn [Visualizer.pointValues Visualizer.points Visualizer.lookupTable Visualizer.scalarRange
       fst snd].
  split; [exact Hvl|]. split; [exact Hpl|].
  split; [now rewrite Hll, repeat_length|].
  intros row col Hrow Hcol. split; [now apply Hp|].
  exists ((nRows - 1 - row) * nCols + col).
  split; [nia|]. split; [nia|]. split; [now apply Hv | now apply Hl].
Qed.

(** X15. [refreshWindowsVTK] rebuilds the whole colour table: on the table
    of a grid drawn with the same dimensions it gives the table a fresh
    [drawWithVTK] of the new cell colours gives, so no colour of the earlier
    step survives; and it throws when the mapper holds no lookup table. *)
Theorem refresh_rebuilds_the_whole_table
    (earlier later : Z -> Z -> Color) (nRows nCols : Z) (drawn redrawn : Visualizer.Grid) :
  0 <= nRows -> 0 <= nCols -> nRows * nCols <= 2147483647 ->
  Visualizer.drawWithVTK Color getRed getGreen getBlue earlier nRows nCols = Some drawn ->
  Visualizer.drawWithVTK Color getRed getGreen getBlue later nRows nCols = Some redrawn ->
  Visualizer.refreshWindowsVTK Color getRed getGreen getBlue later nRows nCols
    (Some (Visualizer.lookupTable drawn)) = Returned (Visualizer.lookupTable redrawn) /\
  Visualizer.refreshWindowsVTK Color getRed getGreen getBlue later nRows nCols None =
    Thrown "Invalid dynamic cast!".
Proof.
  intros Hr Hc _ Hd Hrd. split; [|reflexivity].
  unfold Visualizer.refreshWindowsVTK. f_equal.
  unfold Visualizer.drawWithVTK in Hd, Hrd.
  destruct (VisualizerFacts.pointValues_spec nRows nCols Hr Hc) as (values & E & _).
  rewrite E in Hd, Hrd. injection Hd as <-. injection Hrd as <-.
  cbn [Visualizer.lookupTable]. apply VisualizerFacts.buidColor_forgets; auto using repeat_length.
  destruct (VisualizerFacts.buidColor_spec Color getRed getGreen getBlue earlier (repeat None (Z.to_nat (nRows * nCols)))
              nCols nRows Hr Hc (repeat_length _ _)) as [Hll _].
  now rewrite Hll, repeat_length.
Qed.

End GridFacts.

Lemma bytes_all (P : Z -> bool) :
  forallb P (map Z.of_nat (seq 0 256)) = true ->
  forall z, 0 <= z <= 255 -> P z = true.
Proof.
  intros H z Hz. rewrite forallb_forall in H. apply H.
  apply in_map_iff. exists (Z.to_nat z). split; [lia|]. apply in_seq. lia.
Qed.

(** X16. On the channel values 0 to 255 [toUnitColor] gives a value between
    0 and 1 that it maps to itself.  The values 0 and 1 are kept and every
    other one is divided by 255, so the channel value 1 is taken for full
    intensity: it gives 1.0, as 255 does and no other value, and the
    conversion is not monotone. *)
Theorem unit_color_of_a_byte (z : Z) :
  0 <= z <= 255 ->
  let v := Visualizer.toUnitColor (Visualizer.channel z) in
  PrimFloat.leb 0 v = true /\
  PrimFloat.leb v 1 = true /\
  PrimFloat.eqb (Visualizer.toUnitColor v) v = true /\
  PrimFloat.eqb v (if (z <=? 1)%Z then Visualizer.channel z
                   else PrimFloat.div (Visualizer.channel z) 255) = true /\
  PrimFloat.eqb v 1 = ((z =? 1)%Z || (z =? 255)%Z)%bool /\
  (2 <= z -> PrimFloat.ltb v (Visualizer.toUnitColor (Visualizer.channel 1)) = (z <? 255)%Z).
Proof.
  intros Hz.
  pose proof (bytes_all
    (fun z => let v := Visualizer.toUnitColor (Visualizer.channel z) in
       PrimFloat.leb 0 v && PrimFloat.leb v 1 &&
       PrimFloat.eqb (Visualizer.toUnitColor v) v &&
       PrimFloat.eqb v (if (z <=? 1)%Z then Visualizer.channel z
                        else PrimFloat.div (Visualizer.channel z) 255) &&
       Bool.eqb (PrimFloat.eqb v 1) ((z =? 1)%Z || (z =? 255)%Z) &&
       ((z <? 2)%Z || Bool.eqb (PrimFloat.ltb v (Visualizer.toUnitColor (Visualizer.channel 1)))
                             (z <? 255)%Z))%bool
    ltac:(vm_compute; reflexivity) z Hz) as H.
  cbv zeta in *. rewrite !andb_true_iff in H.
  destruct H as (((((H1 & H2) & H3) & H4) & H5) & H6).
  repeat split; auto.
  - now apply Bool.eqb_prop.
  - intros H2z. apply orb_true_iff in H6. destruct H6 as [H6|H6]; [lia|].
    now apply Bool.eqb_prop.
Qed.

(* ================================================================== *)
(** ** The statements on concrete hosts *)

Import Example.

Ltac in_list := cbn [In]; repeat (first [left; reflexivity | right]).


(** C1, on a wrapper script that exits with 0 and writes nothing. *)
Lemma zero_exit_without_artifact_fails :
  exists r command,
    compileOutcome wrapperHost config (builder "g++" false)
      "/work/model.cpp" "/work/model.so" EmptyString = Returned r /\
    In (Launch command)
       (compileLog wrapperHost config (builder "g++" false)
          "/work/model.cpp" "/work/model.so" EmptyString) /\
    exitStatusOf (spawn wrapperHost command) = 0 /\
    exitCode r = 0 /\ success r = false /\
    (exitCode r = exitStatusOf (spawn wrapperHost command) /\
     (success r = true <->
      exitStatusOf (spawn wrapperHost command) = 0 /\
      compileFs wrapperHost config (builder "g++" false)
        "/work/model.cpp" "/work/model.so" EmptyString "/work/model.so" = ft_regular)).
Proof.
  eexists. eexists.
  split; [vm_compute; reflexivity|].
  split; [vm_compute; right; left; reflexivity|].
  split; [reflexivity|]. split; [reflexivity|]. split; [reflexivity|].
  eapply compileModule_success_iff.
  - vm_compute. reflexivity.
  - vm_compute. right. left. reflexivity.
Defined.

(** C2, on a source file that is not there. *)
Lemma missing_source_example :
  status0 gccHost "/work/absent.cpp" = ft_not_found /\
  exists r,
    compileOutcome gccHost config (builder "clang++" true)
      "/work/absent.cpp" "/work/absent.so" EmptyString = Returned r /\
    success r = false /\
    stderr r = "Source file does not exist: /work/absent.cpp" /\
    compileLog gccHost config (builder "clang++" true)
      "/work/absent.cpp" "/work/absent.so" EmptyString = [].
Proof.
  split; [reflexivity|].
  destruct (compileModule_missing_source gccHost config (builder "clang++" true)
              "/work/absent.cpp" "/work/absent.so" EmptyString eq_refl)
    as (r & Ho & Hs & He & _ & _ & _ & Hl).
  exists r. repeat split; assumption.
Defined.

(** C3, on an AppImage mount where no compiler answers the version query. *)
Lemma mounted_clang_example :
  bundledLocations mountedHost config =
    [ "/tmp/.mount_OOpenCxyz/usr/bin/clang++"; "../usr/bin/clang++"; "../../usr/bin/clang++";
      "/usr/local/bin/clang++"; "/opt/clang/bin/clang++" ] /\
  probeOk mountedHost "/tmp/.mount_OOpenCxyz/usr/bin/clang++" = false /\
  compilerPath (builderAfter mountedHost config (builder "g++" true)
                  "/work/model.cpp" "/work/model.so" EmptyString) =
    "/tmp/.mount_OOpenCxyz/usr/bin/clang++" /\
  (exists command,
     In (Launch command)
        (compileLog mountedHost config (builder "g++" true)
           "/work/model.cpp" "/work/model.so" EmptyString) /\
     prefix "LD_LIBRARY_PATH=" command = true) /\
  (forall q, ~ In (Probe q)
               (compileLog mountedHost config (builder "g++" true)
                  "/work/model.cpp" "/work/model.so" EmptyString)).
Proof.
  split; [reflexivity|]. split; [reflexivity|].
  destruct (bundled_toolchain_used_without_probe mountedHost config (builder "g++" true)
              "/work/model.cpp" "/work/model.so" EmptyString) as [H _].
  destruct (H "/tmp/.mount_OOpenCxyz/usr/bin/clang++" []
              [ "../usr/bin/clang++"; "../../usr/bin/clang++";
                "/usr/local/bin/clang++"; "/opt/clang/bin/clang++" ]
              eq_refl (Forall_nil _) eq_refl) as [_ H'].
  destruct (H' eq_refl eq_refl) as (Hc & Hl & Hno).
  split; [exact Hc|]. split; [|exact Hno].
  eexists. split; [exact Hl | vm_compute; reflexivity].
Defined.

(** C4, where clang++ is preferred and only g++ is installed. *)
Lemma fallback_compiler_example :
  present (status0 gccHost) "/work/model.cpp" = true /\
  firstExistingIn (status0 gccHost) (bundledCandidates gccHost config) = Returned EmptyString /\
  filter isProbe (compileLog gccHost config (builder "clang++" false)
                    "/work/model.cpp" "/work/model.so" EmptyString) =
    [ Probe "clang++ --version > /dev/null 2>&1"; Probe "g++ --version > /dev/null 2>&1" ] /\
  selected gccHost "clang++" = "g++" /\
  exists command,
    In (Launch command)
       (compileLog gccHost config (builder "clang++" false)
          "/work/model.cpp" "/work/model.so" EmptyString) /\
    prefix "g++ -shared -fPIC" command = true.
Proof.
  split; [reflexivity|]. split; [reflexivity|].
  assert (Hnone : forall c, In c (bundledCandidates gccHost config) ->
                            status0 gccHost c = ft_not_found).
  { intros c Hc. vm_compute in Hc.
    repeat (destruct Hc as [<-|Hc]; [reflexivity|]). destruct Hc. }
  destruct (system_toolchain_found_by_probing gccHost config (builder "clang++" false)
              "/work/model.cpp" "/work/model.so" EmptyString eq_refl Hnone)
    as (Hprobes & _ & _ & Hsel & Hlaunch & _).
  split; [rewrite Hprobes; reflexivity|]. split; [exact (Hsel eq_refl)|].
  eexists. split; [exact (Hlaunch eq_refl) | reflexivity].
Defined.

(** C5, for the clang of a mounted AppImage: its command has the isolation
    flags and no plain system VTK include. *)
Lemma mounted_clang_is_isolated :
  fromAppImage "/tmp/.mount_OOpenCxyz/usr/bin/clang++" = true /\
  mountOf "/tmp/.mount_OOpenCxyz/usr/bin/clang++" = "/tmp/.mount_OOpenCxyz" /\
  (exists pre post,
     buildCompileCommand mountedHost config
       (builder "/tmp/.mount_OOpenCxyz/usr/bin/clang++" false)
       "/work/model.cpp" "/work/model.so" EmptyString =
     pre ++ " -nostdinc -nostdinc++" ++ post) /\
  Forall (fun dir => prefix "/tmp/.mount_OOpenCxyz/usr/" dir = true)
         (isolatedDirs mountedHost "/tmp/.mount_OOpenCxyz") /\
  Str.contains systemVtkInclude
    (buildCompileCommand mountedHost config
       (builder "/tmp/.mount_OOpenCxyz/usr/bin/clang++" false)
       "/work/model.cpp" "/work/model.so" EmptyString) = false.
Proof.
  split; [reflexivity|]. split; [reflexivity|].
  destruct (appimage_compiler_is_isolated mountedHost config
              (builder "/tmp/.mount_OOpenCxyz/usr/bin/clang++" false)
              "/work/model.cpp" "/work/model.so" EmptyString eq_refl)
    as (_ & Hflags & Hdirs & Hfree & _).
  split; [exact Hflags|]. split; [exact Hdirs|].
  apply Hfree; reflexivity.
Defined.

(** C5 fails for a bundled clang found at [/opt/clang/bin/clang++]: it is
    taken without a probe and announced as the AppImage's clang, and its
    command has no isolation flag and the plain system VTK include.  Where
    the path carries a marker the isolation flags are there, and host paths
    all the same: a clang announced at [/tmp/bin] has an empty mount point,
    so that its first system-include directory is the host's [/usr/include],
    and a build whose VTK flags name the system's VTK headers puts them in
    the command of the mounted clang as well. *)
Lemma bundled_clang_outside_tmp_is_not_isolated :
  firstExistingIn (status0 optHost) (bundledCandidates optHost config) =
    Returned "/opt/clang/bin/clang++" /\
  filter isProbe (compileLog optHost config (builder "g++" true)
                    "/work/model.cpp" "/work/model.so" EmptyString) = [] /\
  In (Progress "Using clang from AppImage: /opt/clang/bin/clang++")
     (compileLog optHost config (builder "g++" true)
        "/work/model.cpp" "/work/model.so" EmptyString) /\
  (exists command,
     In (Launch command)
        (compileLog optHost config (builder "g++" true)
           "/work/model.cpp" "/work/model.so" EmptyString) /\
     prefix "/opt/clang/bin/clang++ -shared" command = true /\
     Str.contains "-nostdinc" command = false /\
     Str.contains " -isystem " command = false /\
     Str.contains " -I/usr/include/vtk-9.1 " command = true) /\
  (exists command,
     firstExistingIn (status0 shallowHost) (bundledCandidates shallowHost config) =
       Returned "/tmp/bin/clang++" /\
     filter isProbe (compileLog shallowHost config (builder "g++" true)
                       "/work/model.cpp" "/work/model.so" EmptyString) = [] /\
     In (Launch command)
        (compileLog shallowHost config (builder "g++" true)
           "/work/model.cpp" "/work/model.so" EmptyString) /\
     mountOf "/tmp/bin/clang++" = EmptyString /\
     Str.contains " /tmp/bin/clang++ -shared" command = true /\
     Str.contains " -nostdinc -nostdinc++" command = true /\
     Str.contains (isystemFlag "/usr/include") command = true /\
     Str.contains (includeFlag "/usr/include/vtk-9.1") command = true) /\
  (exists command,
     filter isProbe (compileLog mountedHost systemVtkConfig (builder "g++" true)
                       "/work/model.cpp" "/work/model.so" EmptyString) = [] /\
     In (Launch command)
        (compileLog mountedHost systemVtkConfig (builder "g++" true)
           "/work/model.cpp" "/work/model.so" EmptyString) /\
     Str.contains " /tmp/.mount_OOpenCxyz/usr/bin/clang++ -shared" command = true /\
     Str.contains " -nostdinc -nostdinc++" command = true /\
     Str.contains systemVtkInclude command = true).
Proof.
  split; [reflexivity|]. split; [reflexivity|].
  split; [vm_compute; in_list|].
  split; [|split].
  - eexists. split; [vm_compute; in_list|]. repeat split; reflexivity.
  - eexists. split; [reflexivity|]. split; [reflexivity|].
    split; [vm_compute; in_list|]. repeat split; reflexivity.
  - eexists. split; [reflexivity|].
    split; [vm_compute; in_list|]. repeat split; reflexivity.
Qed.

(** C6 fails for a system compiler installed under [/tmp/]: no bundled clang
    exists, the compiler is found by its version query, and its command
    still starts with the library-path assignment. *)
Lemma system_compiler_under_tmp_gets_prefix :
  firstExistingIn (status0 tmpCompilerHost) (bundledCandidates tmpCompilerHost config) =
    Returned EmptyString /\
  filter isProbe (compileLog tmpCompilerHost config (builder "/tmp/toolchains/bin/g++" false)
                    "/work/model.cpp" "/work/model.so" EmptyString) =
    [ Probe "/tmp/toolchains/bin/g++ --version > /dev/null 2>&1" ] /\
  exists command,
    In (Launch command)
       (compileLog tmpCompilerHost config (builder "/tmp/toolchains/bin/g++" false)
          "/work/model.cpp" "/work/model.so" EmptyString) /\
    prefix "LD_LIBRARY_PATH=" command = true /\
    Str.contains " -nostdinc -nostdinc++" command = true.
Proof.
  split; [reflexivity|]. split; [reflexivity|].
  eexists. split; [vm_compute; in_list|]. split; reflexivity.
Qed.

(** C7, on 23 pieces of stdout with two pieces of stderr in between. *)
Lemma chatter_example :
  List.length (nonEmptyLines Stdout chatter) = 23%nat /\
  exists before msgs,
    compileLog gccHost config (builder "g++" true)
      "/work/model.cpp" "/work/model.so" EmptyString =
      (before ++ Launch (buildCompileCommand gccHost config (builder "g++" true)
                           "/work/model.cpp" "/work/model.so" EmptyString)
              :: map Progress msgs)%list /\
    filter (prefix "Compiling... (") msgs =
      [ "Compiling... (5 lines)"; "Compiling... (10 lines)";
        "Compiling... (15 lines)"; "Compiling... (20 lines)" ] /\
    filter (prefix "Error: ") msgs =
      [ "Error: warning: unused variable"; "Error: note: declared here" ] /\
    List.length msgs = 6%nat.
Proof.
  split; [reflexivity|].
  destruct (progress_is_throttled gccHost config (builder "g++" true)
              "/work/model.cpp" "/work/model.so" EmptyString
              (buildCompileCommand gccHost config (builder "g++" true)
                 "/work/model.cpp" "/work/model.so" EmptyString)
              chatter 0 (files [ "/work/model.cpp"; "/work/model.so" ])
              eq_refl)
    as (before & msgs & Hlog & Hb & He & Hn & _).
  - vm_compute. in_list.
  - reflexivity.
  - exists before, msgs. split; [exact Hlog|]. split; [rewrite Hb; reflexivity|].
    split; [rewrite He; reflexivity | rewrite Hn; reflexivity].
Defined.

(** C7 fails on its final summary: for 23 pieces of stdout the callback
    receives the four batch messages after the launch and nothing more. *)
Lemma no_final_summary :
  progressAfterLaunch
    (compileLog quietHost config (builder "g++" true)
       "/work/model.cpp" "/work/model.so" EmptyString) =
    [ "Compiling... (5 lines)"; "Compiling... (10 lines)";
      "Compiling... (15 lines)"; "Compiling... (20 lines)" ] /\
  ~ (exists summary,
       progressAfterLaunch
         (compileLog quietHost config (builder "g++" true)
            "/work/model.cpp" "/work/model.so" EmptyString) =
       [ "Compiling... (5 lines)"; "Compiling... (10 lines)";
         "Compiling... (15 lines)"; "Compiling... (20 lines)"; summary ]).
Proof.
  assert (E : progressAfterLaunch
    (compileLog quietHost config (builder "g++" true)
       "/work/model.cpp" "/work/model.so" EmptyString) =
    [ "Compiling... (5 lines)"; "Compiling... (10 lines)";
      "Compiling... (15 lines)"; "Compiling... (20 lines)" ]) by (vm_compute; reflexivity).
  split; [exact E|]. rewrite E. intros [summary H]. discriminate H.
Qed.



(** C10, for a clang announced by the environment variable at an installed
    location. *)
Lemma installed_clang_gets_plain_command :
  getenv installedHost "CLANG_TOOLCHAIN_PATH" = Some "/opt/oopencal-viewer/usr/bin" /\
  fromAppImage (resolved installedHost "/opt/oopencal-viewer/usr/bin/clang++") = false /\
  exists command,
    In (Launch command)
       (compileLog installedHost config (builder "g++" false)
          "/work/model.cpp" "/work/model.so" EmptyString) /\
    command =
      plainCommand installedHost config
        (withCompilerPath "/opt/oopencal-viewer/usr/bin/clang++" (builder "g++" false))
        "/work/model.cpp" "/work/model.so" EmptyString /\
    prefix "/opt/oopencal-viewer/usr/bin/clang++ -shared" command = true.
Proof.
  split; [reflexivity|]. split; [reflexivity|].
  destruct (bundled_means_path_contains_marker installedHost config (builder "g++" false)
              "/work/model.cpp" "/work/model.so" EmptyString) as (_ & _ & _ & H).
  eexists. split; [vm_compute; in_list|]. split.
  - eapply (H "/opt/oopencal-viewer/usr/bin"); try reflexivity. vm_compute. in_list.
  - reflexivity.
Defined.

(** X1, for a builder without a callback and the same builder with one that
    returns, and then with one that throws. *)
Lemma callback_example :
  compileOutcomeWith gccHost config (fun _ => None) (builder "clang++" false)
    "/work/model.cpp" "/work/model.so" EmptyString =
  compileOutcomeWith gccHost config (fun _ => None) (builder "clang++" true)
    "/work/model.cpp" "/work/model.so" EmptyString /\
  actions (compileLogWith gccHost config (fun _ => None) (builder "clang++" true)
             "/work/model.cpp" "/work/model.so" EmptyString) =
  compileLogWith gccHost config (fun _ => None) (builder "clang++" false)
    "/work/model.cpp" "/work/model.so" EmptyString /\
  List.length (compileLogWith gccHost config (fun _ => None) (builder "clang++" false)
                 "/work/model.cpp" "/work/model.so" EmptyString) = 3%nat /\
  List.length (compileLogWith gccHost config (fun _ => None) (builder "clang++" true)
                 "/work/model.cpp" "/work/model.so" EmptyString) = 12%nat /\
  compileOutcomeWith gccHost config (fun _ => Some "callback failed")
    (builder "clang++" true) "/work/model.cpp" "/work/model.so" EmptyString =
  Thrown "callback failed".
Proof.
  destruct (callback_observes_unless_it_throws gccHost config
              (builder "clang++" false) (builder "clang++" true)
              "/work/model.cpp" "/work/model.so" EmptyString (fun _ => None)
              eq_refl eq_refl eq_refl) as [H _].
  destruct (H (fun _ => eq_refl)) as (Ho & Ha & Hs).
  destruct (callback_observes_unless_it_throws gccHost config
              (builder "clang++" true) (builder "clang++" true)
              "/work/model.cpp" "/work/model.so" EmptyString
              (fun _ => Some "callback failed")
              eq_refl eq_refl eq_refl) as [_ Ht].
  split; [exact Ho|]. split; [rewrite <- Ha; symmetry; exact (Hs eq_refl)|].
  split; [vm_compute; reflexivity|]. split; [vm_compute; reflexivity|].
  exact (proj1 (Ht "callback failed" eq_refl eq_refl eq_refl)).
Defined.

(** X2, for the 23 pieces on stdout and the two on stderr. *)
Lemma chatter_is_captured :
  exists r command,
    compileOutcome gccHost config (builder "clang++" true)
      "/work/model.cpp" "/work/model.so" EmptyString = Returned r /\
    In (Launch command)
       (compileLog gccHost config (builder "clang++" true)
          "/work/model.cpp" "/work/model.so" EmptyString) /\
    stderr r = "warning: unused variable" ++ Str.nl ++ "note: declared here" ++ Str.nl /\
    String.length (stdout r) = 230%nat /\
    (compileCommand r = command /\
     sourceFile r = "/work/model.cpp" /\ outputFile r = "/work/model.so" /\
     stdout r = stdout (resultDefaults config)
                  ++ captured Stdout (outputOf (spawn gccHost command)) /\
     stderr r = stderr (resultDefaults config)
                  ++ captured Stderr (outputOf (spawn gccHost command))).
Proof.
  eexists. eexists.
  split; [vm_compute; reflexivity|].
  split; [vm_compute; in_list|].
  split; [reflexivity|]. split; [reflexivity|].
  eapply (result_captures_all_output gccHost config (builder "clang++" true)
            "/work/model.cpp" "/work/model.so" EmptyString).
  - vm_compute. reflexivity.
  - vm_compute. in_list.
Defined.

(** X3, for a clang in an AppImage mount and for one directly under /tmp. *)
Lemma mount_point_examples :
  basePathOf "/tmp/.mount_OOpenCxyz/usr/bin/clang++" = "/tmp/.mount_OOpenCxyz/usr/bin" /\
  mountOf "/tmp/.mount_OOpenCxyz/usr/bin/clang++" = "/tmp/.mount_OOpenCxyz" /\
  fromAppImage "/tmp/clang++" = true /\
  mountOf "/tmp/clang++" = EmptyString.
Proof.
  pose proof (mount_point_drops_three_components
                "/tmp/.mount_OOpenCxyz" "usr" "bin" "clang++" eq_refl eq_refl eq_refl)
    as (Hb & Hm & _).
  pose proof (mount_point_drops_three_components
                EmptyString "tmp" "bin" "clang++" eq_refl eq_refl eq_refl)
    as (_ & _ & Hs).
  split; [exact Hb|]. split; [exact Hm|]. split; [reflexivity | exact (Hs eq_refl)].
Defined.

(** X6, for an AppImage clang on two hosts that differ in their environment,
    their files and their child processes. *)
Lemma same_command_on_two_hosts :
  getenv mountedHost "CLANG_TOOLCHAIN_PATH" <> getenv wrapperHost "CLANG_TOOLCHAIN_PATH" /\
  buildCompileCommand mountedHost config
    (builder "/tmp/.mount_OOpenCxyz/usr/bin/clang++" false)
    "/work/model.cpp" "/work/model.so" "c++17" =
  buildCompileCommand wrapperHost config
    (builder "/tmp/.mount_OOpenCxyz/usr/bin/clang++" false)
    "/work/model.cpp" "/work/model.so" "c++17".
Proof.
  split; [discriminate|].
  apply command_reads_little_of_the_host.
  - intros _. reflexivity.
  - intros _. split; [reflexivity | intros _; reflexivity].
Defined.

(** X10, for a builder made with an explicit OOpenCAL directory and for one
    made without, where the environment sets the variable to the empty
    string: the two commands differ by the two include flags, and the second
    names no OOpenCAL directory. *)
Lemma fresh_builder_example :
  filter isProgress
    (compileLog emptyDirHost config (newBuilder emptyDirHost config "clang++" "/srv/OOpenCAL")
       "/work/model.cpp" "/work/model.so" EmptyString) = [] /\
  exists front back,
    In (Launch (front ++ (includeFlag ("/srv/OOpenCAL" ++ "/OOpenCAL/base")
                            ++ includeFlag "/srv/OOpenCAL") ++ back))
       (compileLog emptyDirHost config (newBuilder emptyDirHost config "clang++" "/srv/OOpenCAL")
          "/work/model.cpp" "/work/model.so" EmptyString) /\
    In (Launch (front ++ EmptyString ++ back))
       (compileLog emptyDirHost config (newBuilder emptyDirHost config "clang++" EmptyString)
          "/work/model.cpp" "/work/model.so" EmptyString) /\
    oopencalDir (newBuilder emptyDirHost config "clang++" EmptyString) = EmptyString /\
    Str.contains "OOpenCAL" (front ++ EmptyString ++ back) = false.
Proof.
  destruct (fresh_builder_is_silent_and_includes_oopencal emptyDirHost config
              "clang++" "/work/model.cpp" "/work/model.so" EmptyString)
    as (Hsilent & front & back & H).
  split; [apply Hsilent|].
  assert (H1 : In (Launch (buildCompileCommand emptyDirHost config
                             (withCompilerPath "g++"
                                (newBuilder emptyDirHost config "clang++" "/srv/OOpenCAL"))
                             "/work/model.cpp" "/work/model.so" EmptyString))
                  (compileLog emptyDirHost config
                     (newBuilder emptyDirHost config "clang++" "/srv/OOpenCAL")
                     "/work/model.cpp" "/work/model.so" EmptyString))
    by (vm_compute; in_list).
  assert (H2 : In (Launch (buildCompileCommand emptyDirHost config
                             (withCompilerPath "g++"
                                (newBuilder emptyDirHost config "clang++" EmptyString))
                             "/work/model.cpp" "/work/model.so" EmptyString))
                  (compileLog emptyDirHost config
                     (newBuilder emptyDirHost config "clang++" EmptyString)
                     "/work/model.cpp" "/work/model.so" EmptyString))
    by (vm_compute; in_list).
  pose proof (H _ _ H1) as E1. pose proof (H _ _ H2) as E2.
  change (buildCompileCommand emptyDirHost config
            (withCompilerPath "g++"
               (newBuilder emptyDirHost config "clang++" "/srv/OOpenCAL"))
            "/work/model.cpp" "/work/model.so" EmptyString =
          front ++ (includeFlag ("/srv/OOpenCAL" ++ "/OOpenCAL/base")
                      ++ includeFlag "/srv/OOpenCAL") ++ back) in E1.
  change (buildCompileCommand emptyDirHost config
            (withCompilerPath "g++"
               (newBuilder emptyDirHost config "clang++" EmptyString))
            "/work/model.cpp" "/work/model.so" EmptyString =
          front ++ EmptyString ++ back) in E2.
  exists front, back.
  rewrite <- E1, <- E2.
  split; [exact H1|]. split; [exact H2|]. split; reflexivity.
Defined.

(** X11, for a builder given clang++ on a host where only g++ is installed,
    compiling again once the artifact is there. *)
Lemma second_call_example :
  selected gccHost "clang++" = "g++" /\
  List.length (filter isProbe
                 (compileLog gccHost config (builder "clang++" false)
                    "/work/model.cpp" "/work/model.so" EmptyString)) = 2%nat /\
  (compilerPath (builderAfter gccHost config (builder "clang++" false)
                   "/work/model.cpp" "/work/model.so" EmptyString) =
     selected gccHost (compilerPath (builder "clang++" false)) /\
   filter isProbe
     (compileLog rebuiltHost config
        (builderAfter gccHost config (builder "clang++" false)
           "/work/model.cpp" "/work/model.so" EmptyString)
        "/work/model.cpp" "/work/model.so" EmptyString) =
     [ Probe (probeCommand (selected gccHost (compilerPath (builder "clang++" false)))) ]).
Proof.
  split; [reflexivity|]. split; [vm_compute; reflexivity|].
  eapply (found_compiler_is_asked_first gccHost rebuiltHost config (builder "clang++" false)
            "/work/model.cpp" "/work/model.so" EmptyString).
  - reflexivity.
  - vm_compute. in_list.
  - intros c. reflexivity.
  - reflexivity.
  - reflexivity.
Defined.

(** X14, on a grid of two rows and three columns. *)
Lemma two_by_three_grid :
  exists grid,
    Visualizer.drawWithVTK (Z * Z * Z) red green blue stepOne 2 3 = Some grid /\
    Visualizer.points grid =
      [ (0, 1, 1); (1, 1, 1); (2, 1, 1); (0, 0, 1); (1, 0, 1); (2, 0, 1) ] /\
    Visualizer.pointValues grid = [ Some 3; Some 4; Some 5; Some 0; Some 1; Some 2 ] /\
    (Visualizer.getAt (1 * 3 + 2) (Visualizer.points grid) = Some (2, 2 - 1 - 1, 1) /\
     exists colorIndex,
       0 <= colorIndex < 2 * 3 /\
       fst (Visualizer.scalarRange grid) <= colorIndex <= snd (Visualizer.scalarRange grid) /\
       Visualizer.getAt (1 * 3 + 2) (Visualizer.pointValues grid) = Some (Some colorIndex) /\
       Visualizer.getAt colorIndex (Visualizer.lookupTable grid) =
         Some (Some (Visualizer.unitColor (Z * Z * Z) red green blue stepOne 1 2))).
Proof.
  destruct (grid_points_select_their_cell_colour (Z * Z * Z) red green blue stepOne 2 3
              ltac:(lia) ltac:(lia) ltac:(lia)) as (grid & E & _ & _ & _ & H).
  exists grid. split; [exact E|].
  vm_compute in E. injection E as <-.
  split; [reflexivity|]. split; [reflexivity|].
  apply (H 1 2); lia.
Defined.

(** X15, for the same grid one step later. *)
Lemma refresh_example :
  exists drawn redrawn,
    Visualizer.drawWithVTK (Z * Z * Z) red green blue stepOne 2 3 = Some drawn /\
    Visualizer.drawWithVTK (Z * Z * Z) red green blue stepTwo 2 3 = Some redrawn /\
    Visualizer.lookupTable drawn <> Visualizer.lookupTable redrawn /\
    (Visualizer.refreshWindowsVTK (Z * Z * Z) red green blue stepTwo 2 3
       (Some (Visualizer.lookupTable drawn)) = Returned (Visualizer.lookupTable redrawn) /\
     Visualizer.refreshWindowsVTK (Z * Z * Z) red green blue stepTwo 2 3 None =
       Thrown "Invalid dynamic cast!").
Proof.
  eexists. eexists.
  split; [vm_compute; reflexivity|]. split; [vm_compute; reflexivity|].
  split.
  - cbn [Visualizer.lookupTable]. intros H.
    apply (f_equal (fun t => match t with
                             | Some (r, _, _) :: _ => PrimFloat.eqb r 0
                             | _ => false
                             end)) in H.
    vm_compute in H. discriminate H.
  - apply refresh_rebuilds_the_whole_table with (earlier := stepOne);
      [lia | lia | lia | vm_compute; reflexivity | vm_compute; reflexivity].
Defined.

(** X16, for the channel values 1 and 2. *)
Lemma channel_one_is_full_intensity :
  Visualizer.toUnitColor (Visualizer.channel 1) = 1%float /\
  PrimFloat.ltb (Visualizer.toUnitColor (Visualizer.channel 2))
                (Visualizer.toUnitColor (Visualizer.channel 1)) = true.
Proof.
  destruct (unit_color_of_a_byte 2 ltac:(lia)) as (_ & _ & _ & _ & _ & H).
  split; [reflexivity | exact (H ltac:(lia))].
Defined.
